(** * Cloudy Data Load Subsystem (cdls.py): a shallow embedding

    The Python package [cdls] is embedded module by module:
    - [PyStr]       : the [str] methods the package calls ([strip], [upper],
                      [rsplit]);
    - [Datetime]    : [datetime.datetime] values and their ordering;
    - [Values]      : configuration nodes, records, JSON documents, rows and
                      load reports;
    - [Errors]      : cdls/errors.py together with the built-in exceptions
                      the code can raise;
    - [Eff]         : sequencing of calls that change state and may raise;
    - [PyFormat]    : [str.format] called without arguments, which is how
                      cdls/logging.py formats the messages it is given;
    - [Sqlite]      : the part of the sqlite3 engine cdls/db.py drives;
    - [Env], [Logging] : the process environment and cdls/logging.py;
    - [Db]          : cdls/db.py;
    - [Datasources] : cdls/datasources.py;
    - [Cdls]        : cdls/__init__.py (registry and load orchestration);
    - [Startup], [Cli] : the start-up of the package and execute_load.py;
    - [Samples], [Observations], [Invariants] : sample inputs and the
                      vocabulary of the statements.

    Python exceptions keep the side effects made before the raise, so
    effectful functions are written in state-passing style and return a
    [result] next to the new state. *)

From Stdlib Require Import List String Ascii ZArith Bool Lia Arith.
From Stdlib Require Import Sorting.Sorted Sorting.Permutation.
Import ListNotations.

Set Warnings "-register-all".

Local Open Scope string_scope.
Local Open Scope Z_scope.
Local Open Scope list_scope.

(* ===================================================================== *)
(** ** Python strings *)
(* ===================================================================== *)

Module PyStr.

(** Characters are code points below 256.  [isspace] is the test
    [str.strip()] uses: TAB..CR, FS..US, SPACE, NEL and NBSP. *)
Definition isspace (c : ascii) : bool :=
  let n := nat_of_ascii c in
  ((9 <=? n) && (n <=? 13))%nat || ((28 <=? n) && (n <=? 32))%nat
  || (n =? 133)%nat || (n =? 160)%nat.

Fixpoint lstrip_list (l : list ascii) : list ascii :=
  match l with
  | [] => []
  | c :: r => if isspace c then lstrip_list r else l
  end.

Definition strip_list (l : list ascii) : list ascii :=
  rev (lstrip_list (rev (lstrip_list l))).

(** [s.strip()] *)
Definition strip (s : string) : string :=
  string_of_list_ascii (strip_list (list_ascii_of_string s)).

(** [s.upper()] on ASCII letters (identifiers are ASCII). *)
Definition upper_char (c : ascii) : ascii :=
  let n := nat_of_ascii c in
  if ((97 <=? n) && (n <=? 122))%nat then ascii_of_nat (n - 32) else c.

Fixpoint upper (s : string) : string :=
  match s with
  | EmptyString => EmptyString
  | String c r => String (upper_char c) (upper r)
  end.

(** [rsplit_dot] scans the reversed string for the last ["."]:
    [acc] holds what follows it. *)
Fixpoint rsplit_rev (r : list ascii) (acc : list ascii)
  : option (list ascii * list ascii) :=
  match r with
  | [] => None
  | c :: r' =>
      if Ascii.eqb c "."%char then Some (rev r', acc)
      else rsplit_rev r' (c :: acc)
  end.

(** [s.rsplit(".", 1)]: [Some (before, after)] when [s] has a dot (a list
    of two strings), [None] when it has none (a list of one string). *)
Definition rsplit_dot (s : string) : option (string * string) :=
  match rsplit_rev (rev (list_ascii_of_string s)) [] with
  | Some (a, b) => Some (string_of_list_ascii a, string_of_list_ascii b)
  | None => None
  end.

End PyStr.

(* ===================================================================== *)
(** ** datetime.datetime *)
(* ===================================================================== *)

Module Datetime.

(** A [datetime] object: its wall-clock fields and [tzinfo].
    [tzinfo = None] is a naive datetime; [Some off] an aware one whose
    UTC offset is [off] microseconds. *)
Record datetime : Type := mk_datetime {
  year : Z; month : Z; day : Z;
  hour : Z; minute : Z; second : Z; microsecond : Z;
  tzinfo : option Z
}.

(** [datetime.datetime.min] = [datetime(1, 1, 1, 0, 0)], naive. *)
Definition min : datetime := mk_datetime 1 1 1 0 0 0 0 None.

(** [timezone.utc] *)
Definition utc : option Z := Some 0.

Definition fields (d : datetime) : list Z :=
  [year d; month d; day d; hour d; minute d; second d; microsecond d].

(** Tuple comparison of the field lists. *)
Fixpoint lex_compare (a b : list Z) : comparison :=
  match a, b with
  | [], [] => Eq
  | [], _ :: _ => Lt
  | _ :: _, [] => Gt
  | x :: a', y :: b' =>
      match x ?= y with
      | Eq => lex_compare a' b'
      | c => c
      end
  end.

Definition is_leap (y : Z) : bool :=
  (y mod 4 =? 0) && (negb (y mod 100 =? 0) || (y mod 400 =? 0)).

Definition days_before_year (y : Z) : Z :=
  let p := y - 1 in p * 365 + p / 4 - p / 100 + p / 400.

Definition days_before_month (y m : Z) : Z :=
  nth (Z.to_nat m) [-1; 0; 31; 59; 90; 120; 151; 181; 212; 243; 273; 304; 334] 0
  + (if (2 <? m) && is_leap y then 1 else 0).

Definition toordinal (d : datetime) : Z :=
  days_before_year (year d) + days_before_month (year d) (month d) + day d.

(** Microseconds since the epoch of ordinals, on the datetime's own clock. *)
Definition wall_us (d : datetime) : Z :=
  (((toordinal d * 24 + hour d) * 60 + minute d) * 60 + second d) * 1000000
  + microsecond d.

Inductive cmp_result : Type :=
| Cmp (c : comparison)
| Mixed.   (* naive against aware: ordering raises TypeError *)

(** [datetime._cmp]: same offset, compare the fields; different offsets,
    compare the UTC instants; naive against aware has no order. *)
Definition cmp (a b : datetime) : cmp_result :=
  match tzinfo a, tzinfo b with
  | None, None => Cmp (lex_compare (fields a) (fields b))
  | Some oa, Some ob =>
      if oa =? ob then Cmp (lex_compare (fields a) (fields b))
      else Cmp ((wall_us a - oa) ?= (wall_us b - ob))
  | _, _ => Mixed
  end.

(** A naive datetime whose fields are in range (upper bounds on days of
    the month are not needed for ordering facts). *)
Definition in_range (d : datetime) : Prop :=
  1 <= year d /\ 1 <= month d /\ 1 <= day d /\
  0 <= hour d /\ 0 <= minute d /\ 0 <= second d /\ 0 <= microsecond d.

Definition naive (d : datetime) : Prop := tzinfo d = None.

(** The order on naive datetimes. *)
Definition le (a b : datetime) : Prop :=
  lex_compare (fields a) (fields b) <> Gt.

(** [strftime("%Y-%m-%d %H:%M:%S.%f")]. *)
Fixpoint digits (fuel : nat) (n : Z) (acc : string) : string :=
  match fuel with
  | O => acc
  | S f =>
      let acc' := String (ascii_of_nat (48 + Z.to_nat (n mod 10))) acc in
      if n / 10 =? 0 then acc' else digits f (n / 10) acc'
  end.

Fixpoint zeros (k : nat) : string :=
  match k with O => "" | S k' => String "0"%char (zeros k') end.

Definition pad (width : nat) (n : Z) : string :=
  let s := digits 20 n "" in
  (zeros (width - String.length s) ++ s)%string.

Definition strftime (d : datetime) : string :=
  (pad 4 (year d) ++ "-" ++ pad 2 (month d) ++ "-" ++ pad 2 (day d) ++ " "
   ++ pad 2 (hour d) ++ ":" ++ pad 2 (minute d) ++ ":" ++ pad 2 (second d)
   ++ "." ++ pad 6 (microsecond d))%string.

End Datetime.

(* ===================================================================== *)
(** ** Values exchanged between the modules *)
(* ===================================================================== *)

Module Values.

(** A source configuration node: one element of the ["registered"] array of
    conf/sources.json, a dict from keys to strings. *)
Definition config_node : Type := list (string * string).

(** [config_node.get(key)] *)
Fixpoint node_get (key : string) (node : config_node) : option string :=
  match node with
  | [] => None
  | (k, v) :: rest => if String.eqb k key then Some v else node_get key rest
  end.

(** The records handed to [db.warehouse]: primitives, containers, dates,
    instances carrying a [__dict__] ([PyObject]), and objects that have
    neither a JSON form nor a [__dict__] ([PyOpaque]: bytes, set, ...). *)
Inductive pyval : Type :=
| PyNone
| PyBool (b : bool)
| PyInt (n : Z)
| PyStr (s : string)
| PyList (xs : list pyval)
| PyDict (items : list (pyval * pyval))
| PyDatetime (d : Datetime.datetime)
| PyObject (cls : string) (attrs : list (string * pyval))
| PyOpaque (cls : string).

(** [type(o).__name__] *)
Definition type_name (o : pyval) : string :=
  match o with
  | PyNone => "NoneType"
  | PyBool _ => "bool"
  | PyInt _ => "int"
  | PyStr _ => "str"
  | PyList _ => "list"
  | PyDict _ => "dict"
  | PyDatetime _ => "datetime"
  | PyObject c _ => c
  | PyOpaque c => c
  end.

(** The document [json.dumps] writes, as a tree (its text layout,
    [indent=4], is not represented; members are kept in sorted order). *)
Inductive json : Type :=
| JNull
| JBool (b : bool)
| JNum (n : Z)
| JStr (s : string)
| JArr (xs : list json)
| JObj (members : list (string * json)).

(** A row of the WAREHOUSE table, which is also the parameter dict of the
    insert statement.  [guid] is the sequence number of the uuid1 drawn. *)
Record row : Type := mk_row {
  guid : nat;
  source_identifier : string;
  record_date : string;
  json_doc : json
}.

(** [LoadReport] of cdls/datasources.py.  Times are in milliseconds. *)
Record LoadReport : Type := mk_LoadReport {
  identifier : string;
  latest_record : Datetime.datetime;
  number_processed : Z;
  number_successes : Z;
  successful : bool;
  time_elapsed : Z
}.

End Values.

(* ===================================================================== *)
(** ** cdls/errors.py and the built-in exceptions *)
(* ===================================================================== *)

Module Errors.
Import Values.

Inductive exn : Type :=
(* cdls.errors *)
| CDLSError (message : string)
| DatabaseError (message : string) (query : option string) (params : option row)
| ExtractError (message : string)
| SourceConfigurationError (message : string) (node : option config_node)
| UnregisteredSourceError (identifier : string)
(* built-in and library exceptions *)
| KeyError (key : string)
| IndexError (message : string)
| ImportError (message : string)
| AttributeError (message : string)
| UnboundLocalError (name : string)
| AssertionError
| TypeError (message : string)
| ValueError (message : string)
| OperationalError (message : string)        (* sqlite3.OperationalError *)
| OtherException (type_name message : string).

(** [isinstance(e, CDLSError)]: what [except CDLSError] catches. *)
Definition is_CDLSError (e : exn) : bool :=
  match e with
  | CDLSError _ | DatabaseError _ _ _ | ExtractError _
  | SourceConfigurationError _ _ | UnregisteredSourceError _ => true
  | _ => false
  end.

Definition is_SourceConfigurationError (e : exn) : bool :=
  match e with SourceConfigurationError _ _ => true | _ => false end.

Definition is_DatabaseError (e : exn) : bool :=
  match e with DatabaseError _ _ _ => true | _ => false end.

Definition is_OperationalError (e : exn) : bool :=
  match e with OperationalError _ => true | _ => false end.

(** [str(e)] *)
Definition str (e : exn) : string :=
  match e with
  | CDLSError m | DatabaseError m _ _ | ExtractError m
  | SourceConfigurationError m _ => m
  | UnregisteredSourceError i => ("Source " ++ i ++ " is not registered")%string
  | KeyError k => ("'" ++ k ++ "'")%string
  | IndexError m | ImportError m | AttributeError m | TypeError m | ValueError m
  | OperationalError m => m
  | UnboundLocalError n =>
      ("cannot access local variable '" ++ n
       ++ "' where it is not associated with a value")%string
  | AssertionError => ""
  | OtherException _ m => m
  end.

(** What a call produces: a value or a raised exception. *)
Inductive result (A : Type) : Type :=
| Return (a : A)
| Raise (e : exn).
Arguments Return {A} a.
Arguments Raise {A} e.

Definition is_Return {A} (r : result A) : bool :=
  match r with Return _ => true | Raise _ => false end.

End Errors.

(* ===================================================================== *)
(** ** Sequencing of effectful calls *)
(* ===================================================================== *)

Module Eff.
Import Errors.

(** A call on a state [S]: its outcome and the state it leaves. *)
Definition eff (S A : Type) : Type := S -> result A * S.

Definition ret {S A} (a : A) : eff S A := fun s => (Return a, s).

Definition raise {S A} (e : exn) : eff S A := fun s => (Raise e, s).

Definition bind {S A B} (m : eff S A) (k : A -> eff S B) : eff S B :=
  fun s =>
    match m s with
    | (Return a, s') => k a s'
    | (Raise e, s') => (Raise e, s')
    end.

(** [try: m  except <caught> as e: handler e] *)
Definition try_except {S A} (m : eff S A) (caught : exn -> bool)
  (handler : exn -> eff S A) : eff S A :=
  fun s =>
    match m s with
    | (Raise e, s') => if caught e then handler e s' else (Raise e, s')
    | ok => ok
    end.

(** A pure step on the state. *)
Definition step {S} (f : S -> S) : eff S unit := fun s => (Return tt, f s).

(** A pure computation that may raise. *)
Definition lift {S A} (r : result A) : eff S A := fun s => (r, s).

End Eff.

Notation "x <- m ;; k" := (Eff.bind m (fun x => k))
  (at level 61, m at next level, right associativity).
Notation "m ;;; k" := (Eff.bind m (fun _ => k))
  (at level 61, right associativity).

(* ===================================================================== *)
(** ** str.format without arguments *)
(* ===================================================================== *)

Module PyFormat.
Import Errors.

(** [template.format()] as CPython 3.8 and later evaluate it when no
    argument is passed.  Literal text is copied, a doubled brace stands
    for one brace, a single closing brace is an error, and a replacement
    field is parsed and then looked up among the arguments: with no
    argument the lookup of the first field always fails. *)

Definition is_digit (c : ascii) : bool :=
  let n := nat_of_ascii c in ((48 <=? n) && (n <=? 57))%nat.

(** [sys.maxsize] *)
Definition PY_SSIZE_T_MAX : Z := 9223372036854775807.

Inductive integer : Type :=
| Index (n : Z)
| NotAnIndex          (* a character that is not a digit *)
| TooManyDigits.      (* the value would pass [sys.maxsize] *)

(** [get_integer]: the digits are read from the left; overflow is detected
    before the next digit is added. *)
Fixpoint get_integer (s : list ascii) (accumulator : Z) : integer :=
  match s with
  | [] => Index accumulator
  | c :: r =>
      if is_digit c
      then let digitval := Z.of_nat (nat_of_ascii c - 48) in
           if accumulator >? (PY_SSIZE_T_MAX - digitval) / 10
           then TooManyDigits
           else get_integer r (accumulator * 10 + digitval)
      else NotAnIndex
  end.

(** The first part of a field name: what stands before the first ["."]
    or ["["]. *)
Fixpoint first_part (name : list ascii) : list ascii :=
  match name with
  | [] => []
  | c :: r =>
      if Ascii.eqb c "."%char || Ascii.eqb c "["%char then [] else c :: first_part r
  end.

(** [get_field_object] on an empty tuple of arguments and no keyword: an
    empty name is numbered 0, digits are an index into the tuple, anything
    else is a keyword.  What is returned is the exception raised. *)
Definition lookup (name : list ascii) : exn :=
  match first_part name with
  | [] => IndexError "Replacement index 0 out of range for positional args tuple"
  | first =>
      match get_integer first 0 with
      | Index n =>
          IndexError ("Replacement index " ++ Datetime.digits 20 n ""
                      ++ " out of range for positional args tuple")%string
      | TooManyDigits => ValueError "Too many decimal digits in format string"
      | NotAnIndex => KeyError (string_of_list_ascii first)
      end
  end.

(** A replacement field once parsed. *)
Inductive field : Type :=
| Field (name : list ascii)
| Malformed (message : string).    (* [ValueError] *)

(** The format specification after [":"], in which braces may nest:
    [true] when its closing brace is found. *)
Fixpoint parse_spec (l : list ascii) (count : nat) : bool :=
  match l with
  | [] => false
  | c :: r =>
      if Ascii.eqb c "{"%char then parse_spec r (S count)
      else if Ascii.eqb c "}"%char
      then match count with
           | S (S k) => parse_spec r (S k)
           | _ => true
           end
      else parse_spec r count
  end.

Definition with_spec (l : list ascii) (name : list ascii) : field :=
  if parse_spec l 1 then Field name else Malformed "unmatched '{' in format spec".

(** The conversion after ["!"]: one character, then the closing brace or
    [":"] and a format specification. *)
Definition parse_conversion (l : list ascii) (name : list ascii) : field :=
  match l with
  | [] => Malformed "end of string while looking for conversion specifier"
  | _ :: [] => Malformed "unmatched '{' in format spec"
  | _ :: c :: r =>
      if Ascii.eqb c "}"%char then Field name
      else if Ascii.eqb c ":"%char then with_spec r name
      else Malformed "expected ':' after conversion specifier"
  end.

(** [parse_field], from the character after the opening brace.  The field
    name runs to the first ["}"], [":"] or ["!"]; between ["["] and ["]"]
    no character ends it.  [name] holds the name read so far, reversed. *)
Fixpoint parse_field (l : list ascii) (in_index : bool) (name : list ascii) : field :=
  match l with
  | [] => Malformed "expected '}' before end of string"
  | c :: r =>
      if in_index then parse_field r (negb (Ascii.eqb c "]"%char)) (c :: name)
      else if Ascii.eqb c "{"%char then Malformed "unexpected '{' in field name"
      else if Ascii.eqb c "["%char then parse_field r true (c :: name)
      else if Ascii.eqb c "}"%char then Field (rev name)
      else if Ascii.eqb c ":"%char then with_spec r (rev name)
      else if Ascii.eqb c "!"%char then parse_conversion r (rev name)
      else parse_field r false (c :: name)
  end.

Definition prepend (c : ascii) (r : result (list ascii)) : result (list ascii) :=
  match r with
  | Return t => Return (c :: t)
  | Raise e => Raise e
  end.

(** The text written for a template, or the first error met. *)
Fixpoint render (l : list ascii) : result (list ascii) :=
  match l with
  | [] => Return []
  | c :: r =>
      if Ascii.eqb c "{"%char then
        match r with
        | [] => Raise (ValueError "Single '{' encountered in format string")
        | c' :: r' =>
            if Ascii.eqb c' "{"%char then prepend c (render r')
            else match parse_field r false [] with
                 | Field name => Raise (lookup name)
                 | Malformed message => Raise (ValueError message)
                 end
        end
      else if Ascii.eqb c "}"%char then
        match r with
        | [] => Raise (ValueError "Single '}' encountered in format string")
        | c' :: r' =>
            if Ascii.eqb c' "}"%char then prepend c (render r')
            else Raise (ValueError "Single '}' encountered in format string")
        end
      else prepend c (render r)
  end.

(** [template.format()] *)
Definition format0 (template : string) : result string :=
  match render (list_ascii_of_string template) with
  | Return l => Return (string_of_list_ascii l)
  | Raise e => Raise e
  end.

End PyFormat.

(* ===================================================================== *)
(** ** The sqlite3 engine behind cdls/db.py *)
(* ===================================================================== *)

Module Sqlite.
Import Values Errors.

Inductive table : Type := CDLS_LOAD_STATS | WAREHOUSE.

(** The statements cdls/db.py sends to [connection.execute]. *)
Inductive statement : Type :=
| DropTable (t : table)
| CreateTable (t : table)
| InsertWarehouse (params : row).

(** The database file: whether each table exists, and the rows of
    WAREHOUSE (CDLS_LOAD_STATS is never written by the package). *)
Record database : Type := mk_database {
  loadstats : bool;
  warehouse_rows : option (list row)
}.

(** The exception classes of the sqlite3 module.  cdls/db.py catches
    [OperationalError] only. *)
Inductive error_class : Type :=
| Operational       (* read-only file, lock held by another process, full disk *)
| Integrity
| Programming
| Interface
| Internal
| NotSupported
| Data
| Database.         (* sqlite3.DatabaseError itself: the file is not a database *)

Definition class_name (c : error_class) : string :=
  match c with
  | Operational => "OperationalError"
  | Integrity => "IntegrityError"
  | Programming => "ProgrammingError"
  | Interface => "InterfaceError"
  | Internal => "InternalError"
  | NotSupported => "NotSupportedError"
  | Data => "DataError"
  | Database => "DatabaseError"
  end.

(** The exception object of a class and a message. *)
Definition raised (c : error_class) (message : string) : exn :=
  match c with
  | Operational => OperationalError message
  | _ => OtherException (class_name c) message
  end.

(** Conditions outside the schema that make a statement fail:
    [Some (c, msg)] is the class and the message of the error. *)
Definition faults : Type := statement -> database -> option (error_class * string).

Definition healthy : faults := fun _ _ => None.

Definition table_name (t : table) : string :=
  match t with CDLS_LOAD_STATS => "CDLS_LOAD_STATS" | WAREHOUSE => "WAREHOUSE" end.

Definition exists_table (t : table) (d : database) : bool :=
  match t with
  | CDLS_LOAD_STATS => loadstats d
  | WAREHOUSE => match warehouse_rows d with Some _ => true | None => false end
  end.

Definition drop (t : table) (d : database) : database :=
  match t with
  | CDLS_LOAD_STATS => mk_database false (warehouse_rows d)
  | WAREHOUSE => mk_database (loadstats d) None
  end.

Definition create (t : table) (d : database) : database :=
  match t with
  | CDLS_LOAD_STATS => mk_database true (warehouse_rows d)
  | WAREHOUSE => mk_database (loadstats d) (Some [])
  end.

(** [connection.execute(statement)]: a failed statement leaves the
    database as it was. *)
Definition execute (f : faults) (st : statement) (d : database)
  : result unit * database :=
  match f st d with
  | Some (c, msg) => (Raise (raised c msg), d)
  | None =>
      match st with
      | DropTable t =>
          if exists_table t d then (Return tt, drop t d)
          else (Raise (OperationalError ("no such table: " ++ table_name t)%string), d)
      | CreateTable t =>
          if exists_table t d
          then (Raise (OperationalError
                         ("table `" ++ table_name t ++ "` already exists")%string), d)
          else (Return tt, create t d)
      | InsertWarehouse r =>
          match warehouse_rows d with
          | Some rows => (Return tt, mk_database (loadstats d) (Some (rows ++ [r])))
          | None => (Raise (OperationalError "no such table: warehouse"), d)
          end
      end
  end.

End Sqlite.

(* ===================================================================== *)
(** ** The process environment and cdls/logging.py *)
(* ===================================================================== *)

Module Env.
Import Values Errors.

(** What the logging facade emits: a line with its formatted message, the
    two lines that open a banner, the rest of a banner with its formatted
    message, and the block written for an exception. *)
Inductive log_entry : Type :=
| LogLine (level : string) (tag : option string) (text : string)
| LogBannerTop (level : string) (tag : option string)
| LogBanner (level : string) (tag : option string) (text : string)
| LogException (e : exn).

(** Everything outside the registry that the package reads or writes. *)
Record World : Type := mk_World {
  database : Sqlite.database;      (* the file at config.DB_SQLITE_PATH *)
  fault : Sqlite.faults;
  _conn : bool;                    (* db._conn is set *)
  log : list log_entry;            (* stdout and the log file *)
  clock : Z;                       (* the last reading of time.time(), ms *)
  now : Datetime.datetime;         (* datetime.datetime.now() *)
  uuid_seq : nat;                  (* uuid1 values drawn so far *)
  lapse : list Z                   (* what passes before each later reading, ms *)
}.

Definition set_database (d : Sqlite.database) (w : World) : World :=
  mk_World d (fault w) (_conn w) (log w) (clock w) (now w) (uuid_seq w) (lapse w).

Definition set_conn (c : bool) (w : World) : World :=
  mk_World (database w) (fault w) c (log w) (clock w) (now w) (uuid_seq w) (lapse w).

Definition emit (e : log_entry) (w : World) : World :=
  mk_World (database w) (fault w) (_conn w) (log w ++ [e]) (clock w) (now w)
    (uuid_seq w) (lapse w).

Definition next_uuid (w : World) : nat * World :=
  (uuid_seq w,
   mk_World (database w) (fault w) (_conn w) (log w) (clock w) (now w)
     (S (uuid_seq w)) (lapse w)).

(** [time.time()]: the clock has moved on by what the work since the last
    reading took, which the environment decides. *)
Definition time_time (w : World) : Z * World :=
  let t := clock w + hd 0 (lapse w) in
  (t, mk_World (database w) (fault w) (_conn w) (log w) t (now w) (uuid_seq w)
        (tl (lapse w))).

(** [time.sleep(secs)], in milliseconds: the clock moves on by the time
    asked for; what the call takes beyond it is part of the next lapse. *)
Definition time_sleep (ms : Z) (w : World) : World :=
  mk_World (database w) (fault w) (_conn w) (log w) (clock w + ms) (now w)
    (uuid_seq w) (lapse w).

End Env.

Module Logging.
Import Values Errors Env Eff.

(** A message and the arguments passed with it.  The package passes
    arguments with two of its own templates only; every other message is
    formatted with no argument, whatever its text. *)
Inductive message : Type :=
| Plain (text : string)
| AttemptingLoad (identifier : string)   (* "Attempting load for '{}'", identifier *)
| FoundFakeRecord (i : Z).               (* "Found fake record #{0:03d}", i = 0, 1 *)

(** The text [_log_entry] computes from the message, trimmed, and its
    arguments, with [str.format]. *)
Definition formatted (m : message) : result string :=
  match m with
  | Plain text => PyFormat.format0 (PyStr.strip text)
  | AttemptingLoad identifier =>
      Return ("Attempting load for '" ++ identifier ++ "'")%string
  | FoundFakeRecord i => Return ("Found fake record #" ++ Datetime.pad 3 i)%string
  end.

(** [_log_entry(level, message, ..., tag=...)]: nothing is written when
    the message cannot be formatted. *)
Definition _log_entry (level : string) (m : message) (tag : option string)
  : eff World unit :=
  text <- lift (formatted m) ;;
  step (emit (LogLine (PyStr.upper (PyStr.strip level)) tag text)).

Definition info (m : message) (tag : option string) : eff World unit :=
  _log_entry "info" m tag.

Definition error (m : message) (tag : option string) : eff World unit :=
  _log_entry "error" m tag.

Definition warn (m : message) (tag : option string) : eff World unit :=
  _log_entry "warn" m tag.

(** [banner(level, message, tag=...)]: the top of the frame is written
    before the message is formatted, here with no argument and untrimmed. *)
Definition banner (level message : string) (tag : option string) : eff World unit :=
  (* Top portion *)
  step (emit (LogBannerTop (PyStr.upper (PyStr.strip level)) tag)) ;;;
  (* Handle any message formatting beforehand *)
  text <- lift (PyFormat.format0 message) ;;
  step (emit (LogBanner (PyStr.upper (PyStr.strip level)) tag text)).

(** [exception(e)]: the formatted block is written, then [str(e)] is
    handed to [_log_entry] as the message of an ERROR line. *)
Definition exception (e : exn) : eff World unit :=
  step (emit (LogException e)) ;;;
  _log_entry "error" (Plain (Errors.str e)) None.

End Logging.

(* ===================================================================== *)
(** ** cdls/db.py *)
(* ===================================================================== *)

Module Db.
Import Values Errors Env Eff.

Definition _DDL_CREATE_LOADSTATS : string := "
CREATE TABLE `CDLS_LOAD_STATS`
(
	 `IDENTIFIER`         TEXT(64)
	,`ATTEMPTED_ON`       TEXT(24)
	,`SUCCESSFUL`         INT
	,`TOTAL_RECORDS`      INT
	,`LATEST_RECORD_DATE` TEXT(24)
	,`REMARKS`            TEXT(200)
)
".

Definition _DDL_DROP_LOADSTATS : string := "DROP TABLE `CDLS_LOAD_STATS`".

Definition _DDL_CREATE_WAREHOUSE : string := "
CREATE TABLE `WAREHOUSE`
(
	 `GUID`               TEXT(40)
	,`SOURCE_IDENTIFIER`  TEXT(64)
	,`RECORD_DATE`        TEXT(20)
	,`JSON`               TEXT(16000)
)
".

Definition _DDL_DROP_WAREHOUSE : string := "DROP TABLE `WAREHOUSE`".

Definition _INSERT_WAREHOUSE : string := "
INSERT INTO warehouse
	( guid,  source_identifier,  record_date,  json)
VALUES
	(:guid, :source_identifier, :record_date, :json)
".

(** The SQL text of each statement sent to the engine. *)
Definition sql_text (st : Sqlite.statement) : string :=
  match st with
  | Sqlite.DropTable Sqlite.CDLS_LOAD_STATS => _DDL_DROP_LOADSTATS
  | Sqlite.CreateTable Sqlite.CDLS_LOAD_STATS => _DDL_CREATE_LOADSTATS
  | Sqlite.DropTable Sqlite.WAREHOUSE => _DDL_DROP_WAREHOUSE
  | Sqlite.CreateTable Sqlite.WAREHOUSE => _DDL_CREATE_WAREHOUSE
  | Sqlite.InsertWarehouse _ => _INSERT_WAREHOUSE
  end.

(** [connection.execute(...)].  DDL is committed by the engine at once and
    the single insert of [warehouse] is committed when its [with] block
    ends, so the commit of the context manager is not a separate step. *)
Definition connection_execute (st : Sqlite.statement) : eff World unit :=
  fun w =>
    let (r, d) := Sqlite.execute (fault w) st (database w) in
    (r, set_database d w).

(** [_connect()] *)
Definition _connect : eff World unit :=
  fun w => (Return tt, if _conn w then w else set_conn true w).

(** [_date_to_string(date)]: [date.strftime(...)]. *)
Definition _date_to_string (date : pyval) : result string :=
  match date with
  | PyDatetime d => Return (Datetime.strftime d)
  | o => Raise (AttributeError
                  ("'" ++ type_name o ++ "' object has no attribute 'strftime'")%string)
  end.

(** [_execute_query(connection, query, params)]; [st] is [query] with
    [params] bound. *)
Definition _execute_query (st : Sqlite.statement) (params : option row)
  : eff World unit :=
  let query := PyStr.strip (sql_text st) in
  try_except (connection_execute st) is_OperationalError
    (fun e => raise (DatabaseError ("sqlite3: " ++ Errors.str e)%string
                                   (Some query) params)).

(** [_tojson(o)], the [default] hook of [json.dumps]. *)
Definition _tojson (o : pyval) : result pyval :=
  match o with
  | PyDatetime d => match _date_to_string o with
                    | Return s => Return (PyStr s)
                    | Raise e => Raise e
                    end
  | PyObject _ attrs => Return (PyDict (map (fun kv => (PyStr (fst kv), snd kv)) attrs))
  | _ => Raise (AttributeError
                  ("'" ++ type_name o ++ "' object has no attribute '__dict__'")%string)
  end.

(** *** json.dumps(..., default=_tojson, sort_keys=True) *)

Definition int_text (n : Z) : string :=
  if n <? 0 then ("-" ++ Datetime.digits 60 (- n) "")%string
  else Datetime.digits 60 n "".

(** The member name a dict key is written as; [None] for a key that is
    not str, int, bool or None. *)
Definition key_text (k : pyval) : option string :=
  match k with
  | PyStr s => Some s
  | PyInt n => Some (int_text n)
  | PyBool true => Some "true"
  | PyBool false => Some "false"
  | PyNone => Some "null"
  | _ => None
  end.

Definition is_str_key (k : pyval) : bool :=
  match k with PyStr _ => true | _ => false end.

Definition num_key (k : pyval) : option Z :=
  match k with
  | PyInt n => Some n
  | PyBool b => Some (if b then 1 else 0)
  | _ => None
  end.

Definition is_num_key (k : pyval) : bool :=
  match num_key k with Some _ => true | None => false end.

(** The keys [sorted(dct.items())] can order: at most one key, or keys
    that are all strings, or all numbers. *)
Definition sortable (ks : list pyval) : bool :=
  (Nat.leb (List.length ks) 1) || forallb is_str_key ks || forallb is_num_key ks.

Definition key_le (a b : pyval) : bool :=
  match a, b with
  | PyStr x, PyStr y => String.leb x y
  | _, _ => match num_key a, num_key b with
            | Some x, Some y => x <=? y
            | _, _ => true
            end
  end.

Fixpoint insert_by {A} (le : A -> A -> bool) (x : A) (l : list A) : list A :=
  match l with
  | [] => [x]
  | y :: r => if le x y then x :: l else y :: insert_by le x r
  end.

(** Stable insertion sort: on distinct keys, the list [sorted] returns. *)
Fixpoint sort_by {A} (le : A -> A -> bool) (l : list A) : list A :=
  match l with
  | [] => []
  | x :: r => insert_by le x (sort_by le r)
  end.

(** The members in order; the first failing value decides the exception. *)
Fixpoint collect_members (ms : list (pyval * result json))
  : result (list (string * json)) :=
  match ms with
  | [] => Return []
  | (k, r) :: rest =>
      match key_text k, r with
      | None, _ => Raise (TypeError "keys must be str, int, float, bool or None")
      | Some _, Raise e => Raise e
      | Some name, Return j =>
          match collect_members rest with
          | Return js => Return ((name, j) :: js)
          | Raise e => Raise e
          end
      end
  end.

(** A dict whose values have been encoded: keys are checked and sorted,
    then the members are written in key order.  Both the failure of
    [sorted] and a key of another type raise [TypeError]. *)
Definition encode_dict (ms : list (pyval * result json)) : result json :=
  if forallb (fun m => match key_text (fst m) with Some _ => true | None => false end) ms
     && sortable (map fst ms)
  then match collect_members (sort_by (fun a b => key_le (fst a) (fst b)) ms) with
       | Return js => Return (JObj js)
       | Raise e => Raise e
       end
  else Raise (TypeError "keys must be str, int, float, bool or None").

(** The encoder.  Values that are not JSON primitives or containers go
    through [_tojson] and its answer is encoded in turn; the cases for
    [PyDatetime], [PyObject] and [PyOpaque] are that composition, unfolded
    so that the recursion is structural (lemma [dumps_default]). *)
Fixpoint dumps (o : pyval) : result json :=
  match o with
  | PyNone => Return JNull
  | PyBool b => Return (JBool b)
  | PyInt n => Return (JNum n)
  | PyStr s => Return (JStr s)
  | PyList xs =>
      match (fix each (l : list pyval) : result (list json) :=
               match l with
               | [] => Return []
               | x :: r =>
                   match dumps x with
                   | Raise e => Raise e
                   | Return j =>
                       match each r with
                       | Raise e => Raise e
                       | Return js => Return (j :: js)
                       end
                   end
               end) xs with
      | Return js => Return (JArr js)
      | Raise e => Raise e
      end
  | PyDict items =>
      encode_dict ((fix each (l : list (pyval * pyval)) : list (pyval * result json) :=
                      match l with
                      | [] => []
                      | (k, v) :: r => (k, dumps v) :: each r
                      end) items)
  | PyDatetime d => Return (JStr (Datetime.strftime d))
  | PyObject _ attrs =>
      encode_dict ((fix each (l : list (string * pyval)) : list (pyval * result json) :=
                      match l with
                      | [] => []
                      | (k, v) :: r => (PyStr k, dumps v) :: each r
                      end) attrs)
  | PyOpaque c =>
      Raise (AttributeError ("'" ++ c ++ "' object has no attribute '__dict__'")%string)
  end.

(** [install()] *)
Definition install : eff World unit :=
  _connect ;;;
  (* Initialize the Loadstats table *)
  try_except (connection_execute (Sqlite.DropTable Sqlite.CDLS_LOAD_STATS))
             is_OperationalError (fun _ => ret tt) ;;;
  connection_execute (Sqlite.CreateTable Sqlite.CDLS_LOAD_STATS) ;;;
  (* Initialize the Warehouse table *)
  try_except (connection_execute (Sqlite.DropTable Sqlite.WAREHOUSE))
             is_OperationalError (fun _ => ret tt) ;;;
  _execute_query (Sqlite.CreateTable Sqlite.WAREHOUSE) None.

Definition is_TypeError (e : exn) : bool :=
  match e with TypeError _ => true | _ => false end.

(** [warehouse(data, source, record_date)] *)
Definition warehouse (data : pyval) (source : string) (record_date : pyval)
  : eff World unit :=
  (* Package the data first *)
  let data_type := type_name data in
  let packaged_data :=
    PyDict [(PyStr "$class", PyStr data_type); (PyStr "$contents", data)] in
  (* Serialize to JSON *)
  json_string <- try_except (lift (dumps packaged_data)) is_TypeError
                   (fun _ => raise (DatabaseError "JSON-serialization failed on data"
                                                  None None)) ;;
  (* Perform insert *)
  guid <- (fun w => let (u, w') := next_uuid w in (Return u, w')) ;;
  date_text <- lift (_date_to_string record_date) ;;
  let params := mk_row guid (PyStr.upper (PyStr.strip source)) date_text json_string in
  _connect ;;;
  _execute_query (Sqlite.InsertWarehouse params) (Some params).

End Db.

(* ===================================================================== *)
(** ** cdls/datasources.py *)
(* ===================================================================== *)

Module Datasources.
Import Values Errors Env Eff.

(** The state of a [BaseDataSource] instance.  [_db] and [_logger] tell
    whether the reference has been registered (it is [None] before);
    [_attrs] holds the attributes a subclass adds. *)
Record BaseDataSource : Type := mk_BaseDataSource {
  _config : config_node;
  _identifier : string;
  _description : string;
  _time_started : Z;
  _report : LoadReport;
  _db : bool;
  _logger : bool;
  _attrs : list (string * string)
}.

Definition set_report (r : LoadReport) (self : BaseDataSource) : BaseDataSource :=
  mk_BaseDataSource (_config self) (_identifier self) (_description self)
    (_time_started self) r (_db self) (_logger self) (_attrs self).

Definition set_time_started (t : Z) (self : BaseDataSource) : BaseDataSource :=
  mk_BaseDataSource (_config self) (_identifier self) (_description self)
    t (_report self) (_db self) (_logger self) (_attrs self).

Definition set_attr (k v : string) (self : BaseDataSource) : BaseDataSource :=
  mk_BaseDataSource (_config self) (_identifier self) (_description self)
    (_time_started self) (_report self) (_db self) (_logger self)
    (_attrs self ++ [(k, v)]).

(** [LoadReport.__init__(datasource)]; [float(-1)] seconds. *)
Definition new_LoadReport (ident : string) : LoadReport :=
  mk_LoadReport ident Datetime.min 0 0 false (-1000).

(** [_get_config_param(key, required, default)], which reads only
    [self._config].  [not value] holds for [None] and for [""]. *)
Definition _get_config_param (config : config_node) (key : string)
  (required : bool) (default : option string) : result (option string) :=
  let value := match node_get key config with Some v => Some v | None => default end in
  let falsy := match value with None => true | Some v => String.eqb v "" end in
  if required && falsy
  then Raise (SourceConfigurationError
                ("Required config parameter '" ++ key ++ "' is missing")%string
                (Some config))
  else Return value.

Definition text_of (v : option string) : string :=
  match v with Some s => s | None => "" end.

(** [BaseDataSource.__init__(config)] *)
Definition BaseDataSource_init (config : config_node) : result BaseDataSource :=
  match _get_config_param config "id" true None with
  | Raise e => Raise e
  | Return ident =>
      match _get_config_param config "description" true None with
      | Raise e => Raise e
      | Return descr =>
          Return (mk_BaseDataSource config (text_of ident) (text_of descr) 0
                    (new_LoadReport (text_of ident)) false false [])
      end
  end.

Definition get_identifier (self : BaseDataSource) : string := _identifier self.

Definition get_description (self : BaseDataSource) : string := _description self.

Definition register_database (self : BaseDataSource) : BaseDataSource :=
  mk_BaseDataSource (_config self) (_identifier self) (_description self)
    (_time_started self) (_report self) true (_logger self) (_attrs self).

Definition register_logger (self : BaseDataSource) : BaseDataSource :=
  mk_BaseDataSource (_config self) (_identifier self) (_description self)
    (_time_started self) (_report self) (_db self) true (_attrs self).

(** A method of an instance: it may change the instance and the world. *)
Definition method (A : Type) : Type := eff (BaseDataSource * World) A.

Definition on_self (f : BaseDataSource -> BaseDataSource) : method unit :=
  step (fun sw => (f (fst sw), snd sw)).

Definition on_world {A} (m : eff World A) : method A :=
  fun sw => let (r, w') := m (snd sw) in (r, (fst sw, w')).

Definition none_has_no (attr : string) : exn :=
  AttributeError ("'NoneType' object has no attribute '" ++ attr ++ "'")%string.

(** [_finalize_report(successful)] *)
Definition _finalize_report (successful : bool) : method LoadReport :=
  fun sw =>
    let (self, w) := sw in
    let report := _report self in
    let (t, w') := time_time w in
    let report' := mk_LoadReport (identifier report) (latest_record report)
                     (number_processed report) (number_successes report)
                     successful (t - _time_started self) in
    (Return report', (set_report report' self, w')).

Definition _increment_number_processed : method unit :=
  on_self (fun self =>
    let r := _report self in
    set_report (mk_LoadReport (identifier r) (latest_record r)
                  (number_processed r + 1) (number_successes r)
                  (successful r) (time_elapsed r)) self).

Definition _increment_number_successes : method unit :=
  on_self (fun self =>
    let r := _report self in
    set_report (mk_LoadReport (identifier r) (latest_record r)
                  (number_processed r) (number_successes r + 1)
                  (successful r) (time_elapsed r)) self).

(** [_log(message, ...)] at the default level ["info"]. *)
Definition _log (m : Logging.message) : method unit :=
  fun sw =>
    if _logger (fst sw)
    then on_world (Logging.info m (Some (get_identifier (fst sw)))) sw
    else (Raise (none_has_no "info"), sw).

(** [_logbanner(level, message)] *)
Definition _logbanner (level message : string) : method unit :=
  fun sw =>
    if _logger (fst sw)
    then on_world (Logging.banner level message (Some (get_identifier (fst sw)))) sw
    else (Raise (none_has_no "banner"), sw).

Definition getattr_obj (name : string) (o : pyval) : result pyval :=
  match o with
  | PyObject c attrs =>
      match find (fun kv => String.eqb (fst kv) name) attrs with
      | Some kv => Return (snd kv)
      | None => Raise (AttributeError
                         ("'" ++ c ++ "' object has no attribute '" ++ name ++ "'")%string)
      end
  | _ => Raise (AttributeError
                  ("'" ++ type_name o ++ "' object has no attribute '" ++ name ++ "'")%string)
  end.

(** [_save(data)] *)
Definition _save (data : pyval) : method unit :=
  fun sw =>
    let (self, w) := sw in
    if _db self
    then match getattr_obj "created_on" data with
         | Raise e => (Raise e, sw)
         | Return created_on =>
             on_world (Db.warehouse data (get_identifier self) created_on) sw
         end
    else (Raise (none_has_no "warehouse"), sw).

(** [_start_timer()] *)
Definition _start_timer : method unit :=
  fun sw =>
    let (t, w') := time_time (snd sw) in
    (Return tt, (set_time_started t (fst sw), w')).

(** [str(n)] for an [int]. *)
Definition int_text (n : Z) : string := Db.int_text n.

Fixpoint spaces (n : nat) : string :=
  match n with O => "" | S k => String " "%char (spaces k) end.

(** A field [{...:>4d}]: the decimal text, right-aligned on four columns. *)
Definition field_4d (n : Z) : string :=
  let text := int_text n in
  (spaces (4 - String.length text) ++ text)%string.

(** A field [{...:0.3f}] for a time in milliseconds: seconds with three
    decimals. *)
Definition field_3f (ms : Z) : string :=
  ((if (ms <? 0)%Z then "-" else "") ++ int_text (Z.abs ms / 1000)%Z ++ "."
   ++ Datetime.pad 3 (Z.abs ms mod 1000)%Z)%string.

(** [LoadReport.__str__()]: [config.LOADREPORT_FORMAT] filled in. *)
Definition LoadReport_str (r : LoadReport) : string :=
  ("::[" ++ identifier r ++ " " ++ (if successful r then "OK" else "FAIL") ++ "] ("
   ++ field_4d (number_successes r) ++ "/" ++ field_4d (number_processed r)
   ++ ") in " ++ field_3f (time_elapsed r) ++ " seconds")%string.

(** *** Dates *)

(** The library calls [_string_to_date] relies on: [re.match],
    [time.strptime] followed by [time.mktime] ([None] is the [ValueError]
    of a string that does not fit the format), and the calendar fields of
    a timestamp in UTC. *)
Record timelib : Type := mk_timelib {
  re_match : string -> string -> bool;
  strptime_mktime : string -> string -> option Z;
  utc_fields : Z -> Datetime.datetime
}.

(** [datetime.fromtimestamp(t, timezone.utc)]: an aware datetime. *)
Definition fromtimestamp_utc (lib : timelib) (t : Z) : Datetime.datetime :=
  let d := utc_fields lib t in
  Datetime.mk_datetime (Datetime.year d) (Datetime.month d) (Datetime.day d)
    (Datetime.hour d) (Datetime.minute d) (Datetime.second d)
    (Datetime.microsecond d) Datetime.utc.

(** The pattern/format table of [_string_to_date], in insertion order. *)
Definition mapping : list (string * string) :=
  [ ("^(\d{4}-\d{2}-\d{2}T\d{2}:\d{2}:\d{2})(?:[+-]\d{4})$", "%Y-%m-%dT%H:%M:%S");
    ("^(\d{4}-\d{2}-\d{2}T\d{2}:\d{2}:\d{2})(?:\w+)$", "%Y-%m-%dT%H:%M:%SEDT");
    ("^(\d{4}-\d{2}-\d{2}T\d{2}:\d{2}:\d{2})$", "%Y-%m-%dT%H:%M:%S") ].

Fixpoint try_formats (lib : timelib) (datestring : string)
  (table : list (string * string)) : result Datetime.datetime :=
  match table with
  | [] => Raise (CDLSError ("Couldn't parse date '" ++ datestring ++ "'")%string)
  | (pattern, formatting) :: rest =>
      if re_match lib pattern datestring
      then match strptime_mktime lib datestring formatting with
           | Some t => Return (fromtimestamp_utc lib t)
           | None => try_formats lib datestring rest
           end
      else try_formats lib datestring rest
  end.

(** [_string_to_date(datestring)] *)
Definition _string_to_date (lib : timelib) (datestring : string)
  : result Datetime.datetime :=
  try_formats lib (PyStr.strip datestring) mapping.

(** The argument of [_update_latest_record_date]: string or datetime. *)
Inductive date_arg : Type :=
| DateStr (s : string)
| DateObj (d : Datetime.datetime).

(** [max(a, b)] on datetimes: [b] when [b > a], else [a]. *)
Definition py_max (a b : Datetime.datetime) : result Datetime.datetime :=
  match Datetime.cmp b a with
  | Datetime.Mixed =>
      Raise (TypeError "can't compare offset-naive and offset-aware datetimes")
  | Datetime.Cmp Gt => Return b
  | Datetime.Cmp _ => Return a
  end.

(** [_update_latest_record_date(new_date)]; it touches the report only. *)
Definition _update_latest_record_date (lib : timelib) (new_date : date_arg)
  (self : BaseDataSource) : result BaseDataSource :=
  (* Convert date string to object *)
  match (match new_date with
         | DateStr s => _string_to_date lib s
         | DateObj d => Return d
         end) with
  | Raise e => Raise e
  | Return new_date =>
      (* Update the latest record metric with whatever the latest date is *)
      let previous_date := latest_record (_report self) in
      match py_max new_date previous_date with
      | Raise e => Raise e
      | Return latest =>
          let r := _report self in
          Return (set_report (mk_LoadReport (identifier r) latest
                                (number_processed r) (number_successes r)
                                (successful r) (time_elapsed r)) self)
      end
  end.

(** *** Classes *)

(** A data source class: its [__name__], its constructor and its
    [execute] method. *)
Record klass : Type := mk_klass {
  cls_name : string;
  cls_init : config_node -> result BaseDataSource;
  cls_execute : method LoadReport
}.

(** [BaseDataSource]: [execute] must be implemented by a subclass. *)
Definition BaseDataSource_class : klass :=
  mk_klass "BaseDataSource" BaseDataSource_init
    (raise (CDLSError "Not yet implemented")).

(** [LocalFileDataSource.__init__(config)] *)
Definition LocalFileDataSource_init (config : config_node) : result BaseDataSource :=
  match BaseDataSource_init config with
  | Raise e => Raise e
  | Return self =>
      match _get_config_param config "queue_path" true None with
      | Raise e => Raise e
      | Return q =>
          match _get_config_param config "archive_path" true None with
          | Raise e => Raise e
          | Return a =>
              Return (set_attr "_archive" (text_of a)
                        (set_attr "_queue" (text_of q) self))
          end
      end
  end.

Definition fake_record (i : Z) (created_on : Datetime.datetime) : pyval :=
  PyObject "FakeData"
    [ ("id", PyInt i); ("title", PyStr "lorem ipsum");
      ("payload", PyStr "this is some fake data");
      ("created_on", PyDatetime created_on) ].

(** The body of the [for i in range(2)] loop. *)
Definition fake_step (i : Z) : method unit :=
  fake_data <- (fun sw => (Return (fake_record i (now (snd sw))), sw)) ;;
  _save fake_data ;;;
  _log (Logging.FoundFakeRecord i) ;;;
  _increment_number_processed ;;;
  _increment_number_successes.

(** [LocalFileDataSource.execute()] *)
Definition LocalFileDataSource_execute : method LoadReport :=
  _start_timer ;;;
  _logbanner "warn" "Nothing's actually happening here; we just block for a few seconds and return some fake metrics to show off how the thing works." ;;;
  fake_step 0 ;;;
  fake_step 1 ;;;
  (* Pretend something's take a while *)
  on_world (step (time_sleep 125)) ;;;
  _finalize_report true.

Definition LocalFileDataSource_class : klass :=
  mk_klass "LocalFileDataSource" LocalFileDataSource_init LocalFileDataSource_execute.

(** A registered object: an instance and its class. *)
Record DataSource : Type := mk_DataSource {
  cls : klass;
  self_ : BaseDataSource
}.

(** [get_type()]: [type(self).__name__]. *)
Definition get_type (ds : DataSource) : string := cls_name (cls ds).

(** [datasource.execute()], dispatched on the class. *)
Definition execute (ds : DataSource) (w : World)
  : result LoadReport * DataSource * World :=
  match cls_execute (cls ds) (self_ ds, w) with
  | (r, (self', w')) => (r, mk_DataSource (cls ds) self', w')
  end.

End Datasources.

(* ===================================================================== *)
(** ** cdls/__init__.py *)
(* ===================================================================== *)

Module Cdls.
Import Values Errors Env Eff Datasources.

(** *** Python dicts keyed by strings

    A [dict] keeps its keys in insertion order; assigning to a key that is
    present replaces the value where it stands. *)
Definition dict (V : Type) : Type := list (string * V).

Fixpoint dict_get {V} (k : string) (d : dict V) : option V :=
  match d with
  | [] => None
  | (k', v) :: rest => if String.eqb k' k then Some v else dict_get k rest
  end.

(** [d[k] = v] *)
Fixpoint dict_set {V} (k : string) (v : V) (d : dict V) : dict V :=
  match d with
  | [] => [(k, v)]
  | (k', v') :: rest =>
      if String.eqb k' k then (k', v) :: rest else (k', v') :: dict_set k v rest
  end.

Definition dict_keys {V} (d : dict V) : list string := map fst d.

Definition dict_values {V} (d : dict V) : list V := map snd d.

(** [sorted(d.items())]: the keys of a dict are distinct, so the order of
    the pairs is the order of their keys. *)
Definition sorted_items {V} (d : dict V) : list (string * V) :=
  Db.sort_by (fun a b => String.leb (fst a) (fst b)) d.

(** *** Module state *)

(** One call of [datasource.execute()] and how it ended.  The list of
    these events is ghost state: the program does not read it. *)
Inductive event : Type :=
| Executed (identifier : string) (outcome : result LoadReport).

(** The module globals after [register_logger(logging)] and
    [register_database(db)], which [initialize] runs first: [_logger] and
    [_db] are the modules of this package, [_datasources] is the registry. *)
Record State : Type := mk_State {
  _datasources : dict DataSource;
  world : World;
  trace : list event
}.

(** A call on [_logger]: it writes to the world and may raise. *)
Definition _logger {A} (m : eff World A) : eff State A :=
  fun s =>
    match m (world s) with
    | (r, w') => (r, mk_State (_datasources s) w' (trace s))
    end.

(** [datasource.execute()] for the object stored under [key]: the object
    is changed in place and the call is recorded in the trace. *)
Definition call_execute (key : string) (datasource : DataSource)
  : eff State LoadReport :=
  fun s =>
    match execute datasource (world s) with
    | (outcome, datasource', w') =>
        (outcome,
         mk_State (dict_set key datasource' (_datasources s)) w'
           (trace s ++ [Executed (get_identifier (self_ datasource)) outcome]))
    end.

(** [list_registered_sources()] *)
Definition source_to_tuple (ds : DataSource) : string * string * string :=
  (get_identifier (self_ ds), get_type ds, get_description (self_ ds)).

Definition list_registered_sources (s : State) : list (string * string * string) :=
  map (fun kds => source_to_tuple (snd kds)) (sorted_items (_datasources s)).

(** *** perform_all_loads *)

(** The body of [for datasource in _datasources.values()]. *)
Definition load_next (halt_on_error : bool) (key : string) (datasource : DataSource)
  (reports : list LoadReport) : eff State (list LoadReport) :=
  try_except
    (report <- call_execute key datasource ;; ret (reports ++ [report]))
    is_CDLSError
    (fun e =>
       _logger (Logging.exception e) ;;;
       if halt_on_error then raise e else ret reports).

Fixpoint load_each (halt_on_error : bool) (values : dict DataSource)
  (reports : list LoadReport) : eff State (list LoadReport) :=
  match values with
  | [] => ret reports
  | (key, datasource) :: rest =>
      reports' <- load_next halt_on_error key datasource reports ;;
      load_each halt_on_error rest reports'
  end.

(** [for n, report in enumerate(reports): _logger.info(str(report))] *)
Fixpoint log_reports (reports : list LoadReport) : eff State unit :=
  match reports with
  | [] => ret tt
  | report :: rest =>
      _logger (Logging.info (Logging.Plain (LoadReport_str report)) None) ;;;
      log_reports rest
  end.

(** [perform_all_loads(halt_on_error)] *)
Definition perform_all_loads (halt_on_error : bool) : eff State (list LoadReport) :=
  _logger (Logging.info (Logging.Plain "Loading all sources") None) ;;;
  reports <- (fun s => load_each halt_on_error (_datasources s) [] s) ;;
  (* List results for everything *)
  _logger (Logging.info (Logging.Plain "Loads complete") None) ;;;
  log_reports reports ;;;
  ret reports.

(** [perform_load(identifier)] *)
Definition perform_load (identifier : string) : eff State LoadReport :=
  let identifier := PyStr.strip identifier in
  fun s =>
    match dict_get identifier (_datasources s) with
    | None => (Raise (UnregisteredSourceError identifier), s)
    | Some datasource =>
        try_except
          (_logger (Logging.info (Logging.AttemptingLoad identifier) None) ;;;
           load_report <- call_execute identifier datasource ;;
           _logger (Logging.info (Logging.Plain (LoadReport_str load_report)) None) ;;;
           ret load_report)
          is_CDLSError
          (fun e => _logger (Logging.exception e) ;;; raise e)
          s
    end.

(** *** Registration *)

(** [register_datasource(datasource)] *)
Definition register_datasource (datasource : DataSource) : eff State unit :=
  try_except
    (step (fun s =>
       let datasource' :=
         mk_DataSource (cls datasource)
           (register_database (register_logger (self_ datasource))) in
       mk_State
         (dict_set (get_identifier (self_ datasource')) datasource' (_datasources s))
         (world s) (trace s)))
    is_CDLSError
    (fun e => _logger (Logging.exception e) ;;; raise e).

(** What a module attribute can be. *)
Inductive attribute : Type :=
| DataSourceClass (k : klass)      (* a subclass of BaseDataSource *)
| OtherClass (name : string)       (* any other class *)
| NotAClass.                       (* a function, a constant, a module *)

(** A module: its attributes.  [importlib.import_module] is a function
    from module names to modules, or to the exception the import raises. *)
Definition module_ : Type := list (string * attribute).

Definition importer : Type := string -> result module_.

(** [getattr(module_ref, class_name)] *)
Definition getattr (m : module_) (name : string) : option attribute :=
  match find (fun kv => String.eqb (fst kv) name) m with
  | Some kv => Some (snd kv)
  | None => None
  end.

(** [_get_qualified_class_ref(config_node)].  The handler of
    [AttributeError] evaluates [str(e)], but [e] is a local name that only
    [except ImportError as e] binds: the evaluation raises
    [UnboundLocalError], which no handler of the function catches. *)
Definition _get_qualified_class_ref (import_module : importer)
  (config_node : config_node) : result attribute :=
  match node_get "@QualifiedClassName" config_node with
  | None =>
      Raise (SourceConfigurationError "@QualifiedClassName property is missing"
                                      (Some config_node))
  | Some qualified =>
      match PyStr.rsplit_dot qualified with
      | None => Raise (ValueError "not enough values to unpack (expected 2, got 1)")
      | Some (module_name, class_name) =>
          (* Get module *)
          match import_module module_name with
          | Raise (KeyError _) =>
              Raise (SourceConfigurationError "@QualifiedClassName property is missing"
                                              (Some config_node))
          | Raise (ImportError m) =>
              Raise (SourceConfigurationError m (Some config_node))
          | Raise e => Raise e
          | Return module_ref =>
              (* Return a reference to the class *)
              match getattr module_ref class_name with
              | Some a => Return a
              | None => Raise (UnboundLocalError "e")
              end
          end
      end
  end.

(** [assert issubclass(ref, datasources.BaseDataSource)] *)
Definition assert_issubclass (ref : attribute) : result klass :=
  match ref with
  | DataSourceClass k => Return k
  | OtherClass _ => Raise AssertionError
  | NotAClass => Raise (TypeError "issubclass() arg 1 must be a class")
  end.

(** [_DataSourceClassReference(config_node)] *)
Definition instantiate (k : klass) (config_node : config_node) : result DataSource :=
  match cls_init k config_node with
  | Return self => Return (mk_DataSource k self)
  | Raise e => Raise e
  end.

(** The body of [for config_node in source_configurations]. *)
Definition register_node (import_module : importer) (config_node : config_node)
  : eff State unit :=
  _DataSourceClassReference <- lift (_get_qualified_class_ref import_module config_node) ;;
  k <- lift (assert_issubclass _DataSourceClassReference) ;;
  datasource <- lift (instantiate k config_node) ;;
  register_datasource datasource.

Fixpoint register_each (import_module : importer)
  (source_configurations : list config_node) : eff State unit :=
  match source_configurations with
  | [] => ret tt
  | config_node :: rest =>
      register_node import_module config_node ;;;
      register_each import_module rest
  end.

(** [_register_all_datasources(source_configurations)] *)
Definition _register_all_datasources (import_module : importer)
  (source_configurations : list config_node) : eff State unit :=
  try_except (register_each import_module source_configurations)
    is_SourceConfigurationError
    (fun e => _logger (Logging.exception e) ;;; raise e).

End Cdls.

(* ===================================================================== *)
(** ** Sample configurations, classes and environments *)
(* ===================================================================== *)

Module Samples.
Import Values Errors Env Eff Datasources Cdls.

(** A source that extracts nothing and reports success. *)
Definition QuietDataSource_class : klass :=
  mk_klass "QuietDataSource" BaseDataSource_init
    (_start_timer ;;; _finalize_report true).

(** A source whose extraction always fails. *)
Definition BrokenDataSource_class : klass :=
  mk_klass "BrokenDataSource" BaseDataSource_init
    (_start_timer ;;; raise (ExtractError "feed unreachable")).

(** A source whose extraction fails on a record and names it in braces. *)
Definition PickyDataSource_class : klass :=
  mk_klass "PickyDataSource" BaseDataSource_init
    (_start_timer ;;; raise (ExtractError "bad record {id}")).

(** A source whose [execute] raises an exception outside cdls.errors. *)
Definition CrashingDataSource_class : klass :=
  mk_klass "CrashingDataSource" BaseDataSource_init
    (raise (OtherException "ZeroDivisionError" "division by zero")).

(** The importable modules: the package's own, and a plug-in module. *)
Definition import_module : importer :=
  fun name =>
    if String.eqb name "cdls.datasources" then
      Return [ ("_REPORT_FORMAT", NotAClass);
               ("BaseDataSource", DataSourceClass BaseDataSource_class);
               ("LocalFileDataSource", DataSourceClass LocalFileDataSource_class);
               ("LoadReport", OtherClass "LoadReport");
               ("_string_to_date", NotAClass) ]
    else if String.eqb name "plugins" then
      Return [ ("QuietDataSource", DataSourceClass QuietDataSource_class);
               ("BrokenDataSource", DataSourceClass BrokenDataSource_class);
               ("PickyDataSource", DataSourceClass PickyDataSource_class);
               ("CrashingDataSource", DataSourceClass CrashingDataSource_class) ]
    else Raise (ImportError ("No module named '" ++ name ++ "'")%string).

Definition node (class_ref ident : string) : config_node :=
  [ ("@QualifiedClassName", class_ref); ("id", ident);
    ("description", "sample source");
    ("queue_path", "./queue"); ("archive_path", "./archive") ].

Definition noon : Datetime.datetime :=
  Datetime.mk_datetime 2015 6 1 12 0 0 0 None.

(** A fresh process on an empty database file. *)
Definition world0 : World :=
  mk_World (Sqlite.mk_database false None) Sqlite.healthy false [] 0 noon 0 [].

(** The same after [db.install()]. *)
Definition world_installed : World :=
  mk_World (Sqlite.mk_database true (Some [])) Sqlite.healthy true [] 0 noon 0 [].

(** The same on a busy machine: 3 ms pass before the clock is first read
    and 18 ms of work before it is read again. *)
Definition world_busy : World :=
  mk_World (Sqlite.mk_database true (Some [])) Sqlite.healthy true [] 0 noon 0 [3; 18].



(** A database file that cannot be written. *)
Definition read_only : Sqlite.faults :=
  fun _ _ => Some (Sqlite.Operational, "attempt to write a readonly database").

Definition world_read_only : World :=
  mk_World (Sqlite.mk_database false None) read_only false [] 0 noon 0 [].

(** An engine on which only the creation of WAREHOUSE fails. *)
Definition disk_full_at_warehouse : Sqlite.faults :=
  fun st _ =>
    match st with
    | Sqlite.CreateTable Sqlite.WAREHOUSE =>
        Some (Sqlite.Operational, "database or disk is full")
    | _ => None
    end.

Definition world_disk_full : World :=
  mk_World (Sqlite.mk_database false None) disk_full_at_warehouse false [] 0 noon 0 [].



(** A file that is not a database: every statement raises
    [sqlite3.DatabaseError]. *)
Definition not_a_database : Sqlite.faults :=
  fun _ _ => Some (Sqlite.Database, "file is not a database").

Definition world_not_a_database : World :=
  mk_World (Sqlite.mk_database false None) not_a_database false [] 0 noon 0 [].

Definition state0 : State := mk_State [] world_installed [].

Definition registered (nodes : list config_node) : State :=
  snd (_register_all_datasources import_module nodes state0).

(** Two sources, configured in the order "b", "a". *)
Definition state_b_a : State :=
  registered [ node "plugins.QuietDataSource" "b";
               node "plugins.QuietDataSource" "a" ].

(** Three sources; the second one fails with a domain error. *)
Definition state_one_broken : State :=
  registered [ node "cdls.datasources.LocalFileDataSource" "local0";
               node "plugins.BrokenDataSource" "feed1";
               node "plugins.QuietDataSource" "quiet2" ].

(** Three sources; the error text of the second one holds braces. *)
Definition state_one_picky : State :=
  registered [ node "plugins.QuietDataSource" "quiet0";
               node "plugins.PickyDataSource" "picky1";
               node "plugins.QuietDataSource" "quiet2" ].

(** Three sources; the second one raises a foreign exception. *)
Definition state_one_crashing : State :=
  registered [ node "plugins.QuietDataSource" "quiet0";
               node "plugins.CrashingDataSource" "crash1";
               node "plugins.QuietDataSource" "quiet2" ].

(** A regular expression engine and clock for ["1999-07-04T11:00:00EDT"]
    in a process whose local zone is EDT. *)
Definition timelib_edt : timelib :=
  mk_timelib
    (fun pattern s =>
       String.eqb pattern "^(\d{4}-\d{2}-\d{2}T\d{2}:\d{2}:\d{2})(?:\w+)$"
       && String.eqb s "1999-07-04T11:00:00EDT")
    (fun s formatting =>
       if String.eqb formatting "%Y-%m-%dT%H:%M:%SEDT" then Some 931100400 else None)
    (fun _ => Datetime.mk_datetime 1999 7 4 15 0 0 0 None).

End Samples.

(* ===================================================================== *)
(** ** Vocabulary of the statements *)
(* ===================================================================== *)

Module Observations.
Import Values Errors Env Eff Datasources Cdls.

(** A sequence of [_update_latest_record_date] calls on one instance; an
    exception ends the sequence, as it ends the [execute] that makes the
    calls. *)
Fixpoint update_all (lib : timelib) (dates : list date_arg) (self : BaseDataSource)
  : result BaseDataSource :=
  match dates with
  | [] => Return self
  | d :: rest =>
      match _update_latest_record_date lib d self with
      | Return self' => update_all lib rest self'
      | Raise e => Raise e
      end
  end.

Definition latest (self : BaseDataSource) : Datetime.datetime :=
  latest_record (_report self).

(** The [execute] calls made between two states. *)
Definition new_events (before after : State) : list event :=
  skipn (List.length (trace before)) (trace after).

Definition ev_id (ev : event) : string :=
  match ev with Executed i _ => i end.

Definition returned (ev : event) : bool :=
  match ev with Executed _ (Return _) => true | _ => false end.

(** The call raised a domain error (a [CDLSError]). *)
Definition domain_failure (ev : event) : bool :=
  match ev with Executed _ (Raise e) => is_CDLSError e | _ => false end.

(** The call raised an exception that is not a domain error. *)
Definition other_failure (ev : event) : bool :=
  match ev with Executed _ (Raise e) => negb (is_CDLSError e) | _ => false end.

(** The reports of the calls that returned, in call order. *)
Fixpoint reports_of (evs : list event) : list LoadReport :=
  match evs with
  | [] => []
  | Executed _ (Return r) :: rest => r :: reports_of rest
  | Executed _ (Raise _) :: rest => reports_of rest
  end.

(** The identifiers of the registered sources, in registry order. *)
Definition registered_ids (s : State) : list string :=
  map (fun kds => get_identifier (self_ (snd kds))) (_datasources s).

(** The object a configuration node yields: the first three statements of
    the loop body of [_register_all_datasources], composed. *)
Definition resolve_node (import_module : importer) (config_node : config_node)
  : result DataSource :=
  match _get_qualified_class_ref import_module config_node with
  | Raise e => Raise e
  | Return ref =>
      match assert_issubclass ref with
      | Raise e => Raise e
      | Return k => instantiate k config_node
      end
  end.

(** The object as the registry stores it. *)
Definition stored (ds : DataSource) : DataSource :=
  mk_DataSource (cls ds) (register_database (register_logger (self_ ds))).

(** The calls a batch may make before it goes on: calls that returned
    and, unless [halt_on_error] is set, calls that raised a domain error. *)
Definition passed (halt_on_error : bool) (ev : event) : bool :=
  returned ev || (negb halt_on_error && domain_failure ev).

(** The logger can write a line with this text as its message. *)
Definition loggable (text : string) : bool :=
  is_Return (Logging.formatted (Logging.Plain text)).

(** What reaches the caller of a handler that logs [e] and then raises it
    again: [e], or the exception of the logger when it cannot format the
    text of [e]. *)
Definition after_logging (e : exn) : exn :=
  match Logging.formatted (Logging.Plain (Errors.str e)) with
  | Return _ => e
  | Raise e' => e'
  end.

(** What a call left to log could be logged: the text of a domain error. *)
Definition logged (ev : event) : bool :=
  match ev with
  | Executed _ (Raise e) => negb (is_CDLSError e) || loggable (Errors.str e)
  | Executed _ (Return _) => true
  end.

(** The line that lists a report could be written. *)
Definition listed (report : LoadReport) : bool := loggable (LoadReport_str report).

(** What reaches the caller of a call that logs the report and then
    returns it: the report, or the exception of the logger. *)
Definition after_listing (report : LoadReport) : result LoadReport :=
  match Logging.formatted (Logging.Plain (LoadReport_str report)) with
  | Return _ => Return report
  | Raise e' => Raise e'
  end.

Definition ids_of (values : dict DataSource) : list string :=
  map (fun kds => get_identifier (self_ (snd kds))) values.

(** What a run of the loop leaves behind: the events [evs] it added to the
    trace and its outcome [res], from the reports it started with. *)
Definition loop_outcome (halt_on_error : bool) (values : dict DataSource)
  (reports : list LoadReport) (evs : list event)
  (res : result (list LoadReport)) : Prop :=
  map ev_id evs = firstn (List.length evs) (ids_of values) /\
  ((res = Return (reports ++ reports_of evs) /\
    List.length evs = List.length values /\
    forallb (passed halt_on_error) evs = true /\
    forallb logged evs = true)
   \/
   (exists pre i e,
      evs = pre ++ [Executed i (Raise e)] /\
      res = Raise (if is_CDLSError e then after_logging e else e) /\
      forallb (passed halt_on_error) pre = true /\
      forallb logged pre = true /\
      (is_CDLSError e = false \/ halt_on_error = true \/ loggable (Errors.str e) = false))).

(** What a batch leaves behind: the outcome of its loop, then the listing
    of the reports, which ends the batch when a report cannot be listed. *)
Definition batch_outcome (halt_on_error : bool) (values : dict DataSource)
  (evs : list event) (res : result (list LoadReport)) : Prop :=
  exists res0,
    loop_outcome halt_on_error values [] evs res0 /\
    match res0 with
    | Raise e => res = Raise e
    | Return reports =>
        (forallb listed reports = true /\ res = Return reports) \/
        (exists r e',
            In r reports /\
            Logging.formatted (Logging.Plain (LoadReport_str r)) = Raise e' /\
            res = Raise e')
    end.

(** The state after [execute] on the object under [k] ended in [outcome]. *)
Definition after_call (k : string) (ds ds' : DataSource) (w' : World)
  (outcome : result LoadReport) (s : State) : State :=
  mk_State (dict_set k ds' (_datasources s)) w'
    (trace s ++ [Executed (get_identifier (self_ ds)) outcome]).

(** The state once a call on the logger has left the world [w']. *)
Definition after_log (w' : World) (s : State) : State :=
  mk_State (_datasources s) w' (trace s).

(** The state once [ds] has been registered. *)
Definition with_source (ds : DataSource) (s : State) : State :=
  mk_State (dict_set (get_identifier (self_ ds)) (stored ds) (_datasources s))
    (world s) (trace s).

(** The state once the objects of [nodes] have been registered in turn;
    nodes that yield no object are passed over. *)
Fixpoint with_nodes (import_module : importer) (nodes : list config_node)
  (s : State) : State :=
  match nodes with
  | [] => s
  | n :: rest =>
      match resolve_node import_module n with
      | Return ds => with_nodes import_module rest (with_source ds s)
      | Raise _ => with_nodes import_module rest s
      end
  end.

(** The world after the engine has been sent [st]. *)
Definition sent (st : Sqlite.statement) (w : World) : World :=
  snd (Db.connection_execute st w).

(** An outcome that [except sqlite3.OperationalError: pass] lets the
    installation go on from. *)
Definition ignorable (r : result unit) : bool :=
  match r with
  | Return _ => true
  | Raise e => is_OperationalError e
  end.




(** The dict [warehouse] serializes for a record. *)
Definition packaged (data : pyval) : pyval :=
  PyDict [(PyStr "$class", PyStr (type_name data)); (PyStr "$contents", data)].

End Observations.

(* ===================================================================== *)
(** ** Registry invariants *)
(* ===================================================================== *)

Module Invariants.
Import Values Errors Env Eff Datasources Cdls Observations.

(** Every object sits under its own identifier. *)
Definition keyed (d : dict DataSource) : Prop :=
  forall k ds, In (k, ds) d -> k = get_identifier (self_ ds).

(** What registration establishes: distinct keys, each the identifier of
    the object it holds. *)
Definition well_keyed (d : dict DataSource) : Prop :=
  NoDup (dict_keys d) /\ keyed d.

(** A list of characters that does not start with whitespace. *)
Definition clean (l : list ascii) : Prop :=
  match l with
  | [] => True
  | c :: _ => PyStr.isspace c = false
  end.

(** Every row of WAREHOUSE has a guid of its own, drawn before the next
    one the process will draw. *)
Definition fresh_guids (w : World) : Prop :=
  match Sqlite.warehouse_rows (database w) with
  | None => True
  | Some rows =>
      NoDup (map guid rows) /\ Forall (fun r => (guid r < uuid_seq w)%nat) rows
  end.

(** The string has no ["."]. *)
Definition no_dot (s : string) : Prop :=
  ~ In "."%char (list_ascii_of_string s).

(** The instance [BaseDataSource.__init__] builds from an identifier and a
    description. *)
Definition new_instance (config : config_node) (ident descr : string)
  : BaseDataSource :=
  mk_BaseDataSource config ident descr 0 (new_LoadReport ident) false false [].

(** The identifiers [list_registered_sources] shows. *)
Definition listed_ids (s : State) : list string :=
  map (fun t => fst (fst t)) (list_registered_sources s).

End Invariants.

(* ===================================================================== *)
(** ** cdls/__init__.py: start-up *)
(* ===================================================================== *)

Module Startup.
Import Values Errors Env Eff Datasources Cdls.

(** [config.PATH_SOURCECONFIG] *)
Definition PATH_SOURCECONFIG : string := "./conf/sources.json".

(** A value of a JSON text that is not an object. *)
Inductive json_kind : Type :=
| KArray | KString | KInt | KFloat | KBool | KNull.

(** An element of the ["registered"] array: a configuration node, or a
    value that is not an object. *)
Inductive element : Type :=
| Node (node : config_node)
| NotANode (kind : json_kind).

(** The ["registered"] member of the file. *)
Inductive registered_member : Type :=
| Elements (elements : list element)      (* an array *)
| Characters (text : string)              (* a string *)
| Members (keys : list string)            (* an object *)
| Scalar (kind : json_kind).              (* a number, true, false or null *)

(** What is found at the path of the source configuration: nothing,
    something that cannot be opened for reading (a directory, a file
    without read permission: [open] raises this subclass of [OSError]), a
    file that is not JSON ([json.load] raises [ValueError] with this
    message), a JSON object with its ["registered"] member when it has one,
    or a JSON text of another kind. *)
Inductive source_file : Type :=
| NoFile
| Unreadable (error_name message : string)
| NotJson (message : string)
| JsonObject (registered : option registered_member)
| JsonOther (kind : json_kind).

(** [options["registered"]] on a value that is not a dict, and [tuple(...)]
    of a value that cannot be iterated: both raise [TypeError]. *)
Definition not_subscriptable (kind : json_kind) : exn :=
  match kind with
  | KArray => TypeError "list indices must be integers or slices, not str"
  | KString => TypeError "string indices must be integers, not 'str'"
  | KInt => TypeError "'int' object is not subscriptable"
  | KFloat => TypeError "'float' object is not subscriptable"
  | KBool => TypeError "'bool' object is not subscriptable"
  | KNull => TypeError "'NoneType' object is not subscriptable"
  end.

Definition not_iterable (kind : json_kind) : exn :=
  match kind with
  | KInt => TypeError "'int' object is not iterable"
  | KFloat => TypeError "'float' object is not iterable"
  | KBool => TypeError "'bool' object is not iterable"
  | _ => TypeError "'NoneType' object is not iterable"
  end.

(** [tuple(options["registered"])]: the elements of an array, the
    characters of a string, the keys of an object. *)
Definition tuple_of (registered : registered_member) : result (list element) :=
  match registered with
  | Elements elements => Return elements
  | Characters text => Return (map (fun _ => NotANode KString) (list_ascii_of_string text))
  | Members keys => Return (map (fun _ => NotANode KString) keys)
  | Scalar kind => Raise (not_iterable kind)
  end.

(** [_get_source_configurations(source_config_path)].  An [OSError] and a
    [TypeError] are caught neither by [except KeyError] nor by
    [except ValueError]. *)
Definition _get_source_configurations (source_config_path : string)
  (file : source_file) : result (list element) :=
  match file with
  | JsonObject (Some registered) => tuple_of registered
  | JsonObject None =>
      Raise (SourceConfigurationError
               "Source config is missing the 'registered' node" None)
  | JsonOther kind => Raise (not_subscriptable kind)
  | Unreadable error_name message => Raise (OtherException error_name message)
  | NotJson message =>
      Raise (SourceConfigurationError
               ("JSON parse failed on source file '" ++ source_config_path
                ++ "': " ++ message)%string None)
  | NoFile =>
      Raise (SourceConfigurationError
               ("File '" ++ source_config_path ++ "' does not exist")%string None)
  end.

(** The nodes that stand before the first element that is not an object,
    and that element's kind when there is one. *)
Fixpoint leading_nodes (elements : list element)
  : list config_node * option json_kind :=
  match elements with
  | [] => ([], None)
  | Node node :: rest =>
      let (nodes, stop) := leading_nodes rest in (node :: nodes, stop)
  | NotANode kind :: _ => ([], Some kind)
  end.

(** [_register_all_datasources(source_configurations)] on the elements of
    the file.  On an element that is not an object the first statement of
    the loop body, [config_node["@QualifiedClassName"]], raises
    [TypeError], which no handler on the way catches. *)
Definition register_elements (import_module : importer) (elements : list element)
  : eff State unit :=
  match leading_nodes elements with
  | (nodes, None) => _register_all_datasources import_module nodes
  | (nodes, Some kind) =>
      _register_all_datasources import_module nodes ;;;
      raise (not_subscriptable kind)
  end.

(** [initialize()].  Its first two statements, [register_logger(logging)]
    and [register_database(db)], set the globals that [State] takes as
    set. *)
Definition initialize (import_module : importer) (file : source_file)
  : eff State unit :=
  (* Read the source configuration from disk *)
  source_configurations <- lift (_get_source_configurations PATH_SOURCECONFIG file) ;;
  (* Register datasources into the CDLS *)
  register_elements import_module source_configurations.

End Startup.

(* ===================================================================== *)
(** ** execute_load.py *)
(* ===================================================================== *)

Module Cli.
Import Values Errors Env Eff Datasources Cdls.

(** The flags [optparse] fills in. *)
Record options : Type := mk_options {
  opt_list : bool;         (* -l, --list *)
  opt_all : bool;          (* -a, --all *)
  opt_noisy : bool;        (* -n, --noisy *)
  opt_install_db : bool    (* -i, --install-db *)
}.

(** What the front end itself writes to standard output. *)
Inductive output : Type :=
| Printed (text : string)
| HelpText.                (* parser.print_help() *)

(** The process: the package state, the output of the front end, and
    [cdls.config.LOGGING_NOISY]. *)
Record Process : Type := mk_Process {
  cdls_state : State;
  stdout : list output;
  LOGGING_NOISY : bool
}.

(** [exit(1)] raises [SystemExit], which no handler of the script catches. *)
Definition SystemExit1 : exn := OtherException "SystemExit" "1".

Definition exit1 {A} : eff Process A := raise SystemExit1.

Definition print (o : output) : eff Process unit :=
  step (fun p => mk_Process (cdls_state p) (stdout p ++ [o]) (LOGGING_NOISY p)).

(** A call into the package. *)
Definition in_cdls {A} (m : eff State A) : eff Process A :=
  fun p =>
    match m (cdls_state p) with
    | (r, s') => (r, mk_Process s' (stdout p) (LOGGING_NOISY p))
    end.

(** [type(exception).__name__] *)
Definition type_name_of (e : exn) : string :=
  match e with
  | CDLSError _ => "CDLSError"
  | DatabaseError _ _ _ => "DatabaseError"
  | ExtractError _ => "ExtractError"
  | SourceConfigurationError _ _ => "SourceConfigurationError"
  | UnregisteredSourceError _ => "UnregisteredSourceError"
  | KeyError _ => "KeyError"
  | IndexError _ => "IndexError"
  | ImportError _ => "ImportError"
  | AttributeError _ => "AttributeError"
  | UnboundLocalError _ => "UnboundLocalError"
  | AssertionError => "AssertionError"
  | TypeError _ => "TypeError"
  | ValueError _ => "ValueError"
  | OperationalError _ => "OperationalError"
  | OtherException n _ => n
  end.

Definition handle_error_no_arguments : eff Process unit :=
  print HelpText ;;; exit1.

Definition handle_error_invalid_combination : eff Process unit :=
  print (Printed "Error: Invalid argument combination") ;;;
  print HelpText ;;;
  exit1.

Definition handle_error_initialization_failed (exception : exn) : eff Process unit :=
  print (Printed ("CDLS Initialization Failed: " ++ type_name_of exception ++ ": "
                  ++ Errors.str exception)%string) ;;;
  exit1.

Definition handle_error_fatal (exception : exn) : eff Process unit :=
  print (Printed ("Fatal Error: " ++ type_name_of exception ++ ": "
                  ++ Errors.str exception)%string) ;;;
  exit1.

(** [initialize()] of the script *)
Definition initialize (import_module : importer) (file : Startup.source_file)
  : eff Process unit :=
  try_except (in_cdls (Startup.initialize import_module file)) is_CDLSError
    handle_error_initialization_failed.

(** [install()] of the script *)
Definition install : eff Process unit :=
  print (Printed "Rebuilding database schema...") ;;;
  in_cdls (fun s =>
             match Db.install (world s) with
             | (r, w') => (r, mk_State (_datasources s) w' (trace s))
             end).

Fixpoint spaces (n : nat) : string :=
  match n with O => "" | S k => String " "%char (spaces k) end.

(** A string right-aligned on 23 columns. *)
Definition rjust23 (s : string) : string :=
  (spaces (23 - String.length s) ++ s)%string.

Definition listing_header : string :=
  "All Registered Sources:

             Identifier   Description
             ----------   -----------
".

(** One line of the listing: the identifier right-aligned on 23
    columns, the type in brackets, the description. *)
Definition listing_line (source_info : string * string * string) : string :=
  match source_info with
  | (ident, type_, descr) =>
      (rjust23 ident ++ " : (" ++ type_ ++ ") " ++ descr ++ "
")%string
  end.

(** [list_all_sources()] *)
Definition list_all_sources : eff Process unit :=
  try_except
    (fun p =>
       let output :=
         fold_left (fun acc source_info => (acc ++ listing_line source_info)%string)
           (list_registered_sources (cdls_state p)) listing_header in
       print (Printed output) p)
    is_CDLSError handle_error_fatal.

(** [load_source(identifier)] *)
Definition load_source (identifier : string) : eff Process unit :=
  try_except (in_cdls (perform_load identifier) ;;; ret tt) is_CDLSError
    handle_error_fatal.

(** [load_all_sources()]: [perform_all_loads()] with its default,
    [halt_on_error=False]. *)
Definition load_all_sources : eff Process unit :=
  try_except (in_cdls (perform_all_loads false) ;;; ret tt) is_CDLSError
    handle_error_fatal.

(** [for identifier in args: load_source(identifier)] *)
Fixpoint load_sources (args : list string) : eff Process unit :=
  match args with
  | [] => ret tt
  | identifier :: rest => load_source identifier ;;; load_sources rest
  end.

Definition given (args : list string) : bool :=
  match args with [] => false | _ :: _ => true end.

(** [main()], once [optparse] has split the command line into [options]
    and [args]. *)
Definition main (import_module : importer) (file : Startup.source_file)
  (options : options) (args : list string) : eff Process unit :=
  (* Perform actions based on the user's CLI options *)
  if given args || opt_list options || opt_all options || opt_install_db options
  then
    (* Adjust log noisiness as required *)
    (if opt_noisy options
     then step (fun p => mk_Process (cdls_state p) (stdout p) true)
     else ret tt) ;;;
    (* Bring the whole CDLS up *)
    initialize import_module file ;;;
    (* Choose to rebuild the schema *)
    (if opt_install_db options then install else ret tt) ;;;
    (* Load one or multiple sources *)
    if opt_list options && negb (opt_all options) && negb (given args)
    then list_all_sources
    else if given args && negb (opt_list options) && negb (opt_all options)
    then load_sources args
    else if opt_all options && negb (opt_list options) && negb (given args)
    then load_all_sources
    else
      (* Only valid combinations are listed above *)
      handle_error_invalid_combination
  else handle_error_no_arguments.

End Cli.

(* ===================================================================== *)
(** ** Sample processes *)
(* ===================================================================== *)

Module CliSamples.
Import Values Errors Env Eff Datasources Cdls.

(** conf/sources.json with two sources, the second one failing. *)
Definition sources_json : Startup.source_file :=
  Startup.JsonObject
    (Some (Startup.Elements
             [ Startup.Node (Samples.node "cdls.datasources.LocalFileDataSource" "local0");
               Startup.Node (Samples.node "plugins.BrokenDataSource" "feed1") ])).

(** A process at start-up, on a database that holds one warehoused row. *)
Definition process0 : Cli.Process :=
  Cli.mk_Process
    (mk_State []
       (mk_World
          (Sqlite.mk_database true
             (Some [mk_row 7 "LOCAL0" "2015-06-01 12:00:00.000000" JNull]))
          Sqlite.healthy false [] 0 Samples.noon 8 [])
       [])
    [] false.

End CliSamples.

(* ===================================================================== *)
(** ** Vocabulary of the statements about the front end *)
(* ===================================================================== *)

Module CliObservations.
Import Values Errors Env Eff Datasources Cdls.

(** The command line asks for something: identifiers, -l, -a or -i. *)
Definition requested (o : Cli.options) (args : list string) : bool :=
  Cli.given args || Cli.opt_list o || Cli.opt_all o || Cli.opt_install_db o.

(** Exactly one of: listing, loading everything, loading identifiers. *)
Definition one_mode (o : Cli.options) (args : list string) : bool :=
  (Cli.opt_list o && negb (Cli.opt_all o) && negb (Cli.given args))
  || (Cli.given args && negb (Cli.opt_list o) && negb (Cli.opt_all o))
  || (Cli.opt_all o && negb (Cli.opt_list o) && negb (Cli.given args)).

(** The message for a configuration file that yields no nodes. *)
Definition unusable (file : Startup.source_file) : option string :=
  match file with
  | Startup.JsonObject (Some _) | Startup.JsonOther _ | Startup.Unreadable _ _ => None
  | Startup.JsonObject None => Some "Source config is missing the 'registered' node"
  | Startup.NotJson message =>
      Some ("JSON parse failed on source file './conf/sources.json': " ++ message)%string
  | Startup.NoFile => Some "File './conf/sources.json' does not exist"
  end.

(** The exception raised while the file is read that no handler catches:
    the [OSError] of a file that cannot be opened, and the [TypeError] of
    a file that holds valid JSON but not an object, or whose
    ["registered"] member cannot be iterated. *)
Definition uncaught (file : Startup.source_file) : option exn :=
  match file with
  | Startup.Unreadable error_name message => Some (OtherException error_name message)
  | Startup.JsonOther kind => Some (Startup.not_subscriptable kind)
  | Startup.JsonObject (Some (Startup.Scalar kind)) => Some (Startup.not_iterable kind)
  | _ => None
  end.

Definition with_stdout (extra : list Cli.output) (noisy : bool) (s : State)
  (p : Cli.Process) : Cli.Process :=
  Cli.mk_Process s (Cli.stdout p ++ extra) (noisy || Cli.LOGGING_NOISY p).

(** The package state after the loads of [identifiers], one after the
    other. *)
Fixpoint after_loads (identifiers : list string) (s : State) : State :=
  match identifiers with
  | [] => s
  | identifier :: rest => after_loads rest (snd (perform_load identifier s))
  end.

(** Every one of these loads returns. *)
Fixpoint all_load (identifiers : list string) (s : State) : bool :=
  match identifiers with
  | [] => true
  | identifier :: rest =>
      is_Return (fst (perform_load identifier s))
      && all_load rest (snd (perform_load identifier s))
  end.

End CliObservations.

(* ===================================================================== *)
(** * Properties *)
(* ===================================================================== *)

Import Values Errors Env Eff Datasources Cdls Observations.

(** ** Load reports: the latest record date *)

Section LatestRecord.

Variable lib : timelib.

Lemma lex_compare_refl : forall a, Datetime.lex_compare a a = Eq.
Proof.
  induction a as [|x a IH]; simpl; [reflexivity|].
  rewrite Z.compare_refl. exact IH.
Qed.

Lemma lex_compare_antisym :
  forall a b, Datetime.lex_compare b a = CompOpp (Datetime.lex_compare a b).
Proof.
  induction a as [|x a IH]; intros [|y b]; simpl; try reflexivity.
  rewrite (Z.compare_antisym x y).
  destruct (x ?= y); simpl; auto.
Qed.

Lemma lex_compare_le_trans :
  forall a b c,
    Datetime.lex_compare a b <> Gt -> Datetime.lex_compare b c <> Gt ->
    Datetime.lex_compare a c <> Gt.
Proof.
  induction a as [|x a IH]; intros [|y b] [|z c]; simpl; try congruence.
  destruct (Z.compare_spec x y) as [Hxy|Hxy|Hxy];
    destruct (Z.compare_spec y z) as [Hyz|Hyz|Hyz];
    destruct (Z.compare_spec x z) as [Hxz|Hxz|Hxz];
    subst; try lia; try congruence; intros; eauto.
Qed.

Lemma le_refl : forall d, Datetime.le d d.
Proof. intros d. unfold Datetime.le. rewrite lex_compare_refl. discriminate. Qed.

Lemma le_trans :
  forall a b c, Datetime.le a b -> Datetime.le b c -> Datetime.le a c.
Proof. unfold Datetime.le. intros a b c. apply lex_compare_le_trans. Qed.

(** Lists that are pointwise below compare below. *)
Lemma lex_compare_pointwise :
  forall a b, Forall2 Z.le a b -> Datetime.lex_compare a b <> Gt.
Proof.
  induction 1 as [|x y a b Hxy _ IH]; cbn [Datetime.lex_compare]; [discriminate|].
  destruct (Z.compare_spec x y); try lia; [exact IH | discriminate].
Qed.

(** [datetime.min] is below every naive datetime whose fields are in range. *)
Lemma min_le : forall d, Datetime.in_range d -> Datetime.le Datetime.min d.
Proof.
  intros d (Hy & Hm & Hd & Hh & Hmi & Hs & Hu).
  unfold Datetime.le. apply lex_compare_pointwise.
  unfold Datetime.fields, Datetime.min. cbn [Datetime.year Datetime.month
    Datetime.day Datetime.hour Datetime.minute Datetime.second Datetime.microsecond].
  repeat constructor; assumption.
Qed.

(** [max] on two naive datetimes returns one of them, above both. *)
Lemma py_max_naive :
  forall a b,
    Datetime.naive a -> Datetime.naive b ->
    exists m, py_max a b = Return m /\ (m = a \/ m = b) /\
              Datetime.le a m /\ Datetime.le b m.
Proof.
  intros a b Ha Hb. unfold py_max, Datetime.cmp.
  unfold Datetime.naive in *. rewrite Ha, Hb.
  destruct (Datetime.lex_compare (Datetime.fields b) (Datetime.fields a)) eqn:E.
  - exists a. repeat split; auto using le_refl.
    unfold Datetime.le. rewrite E. discriminate.
  - exists a. repeat split; auto using le_refl.
    unfold Datetime.le. rewrite E. discriminate.
  - exists b. repeat split; auto using le_refl.
    unfold Datetime.le. rewrite (lex_compare_antisym (Datetime.fields b) (Datetime.fields a)), E.
    discriminate.
Qed.

(** [max] of an aware datetime and a naive one raises. *)
Lemma py_max_mixed :
  forall a b off,
    Datetime.tzinfo a = Some off -> Datetime.naive b ->
    py_max a b = Raise (TypeError "can't compare offset-naive and offset-aware datetimes").
Proof.
  intros a b off Ha Hb. unfold py_max, Datetime.cmp.
  unfold Datetime.naive in Hb. rewrite Ha, Hb. reflexivity.
Qed.

(** Whatever the regular expressions and the clock do, a parsed string is
    an aware datetime (in UTC); a string that does not parse raises
    [CDLSError]. *)
Lemma try_formats_aware :
  forall s table,
    (exists d, try_formats lib s table = Return d /\ Datetime.tzinfo d = Some 0)
    \/ try_formats lib s table
       = Raise (CDLSError ("Couldn't parse date '" ++ s ++ "'")%string).
Proof.
  intros s table. induction table as [|[p f] rest IH]; simpl.
  - right. reflexivity.
  - destruct (re_match lib p s); [|exact IH].
    destruct (strptime_mktime lib s f); [|exact IH].
    left. eexists. split; reflexivity.
Qed.

(** One update with a naive datetime on an instance whose latest record is
    naive: it succeeds, keeps the other fields and stores the later date. *)
Lemma update_naive :
  forall d self,
    Datetime.naive d -> Datetime.naive (latest self) ->
    exists self',
      _update_latest_record_date lib (DateObj d) self = Return self' /\
      (latest self' = d \/ latest self' = latest self) /\
      Datetime.le d (latest self') /\ Datetime.le (latest self) (latest self') /\
      Datetime.naive (latest self').
Proof.
  intros d self Hd Hs. unfold _update_latest_record_date.
  destruct (py_max_naive d (latest_record (_report self)) Hd Hs)
    as (m & Hm & Hor & Hle1 & Hle2).
  rewrite Hm. eexists. split; [reflexivity|].
  unfold latest. simpl.
  repeat split; auto.
  destruct Hor as [-> | ->]; assumption.
Qed.

(** Over naive datetimes the latest record is the maximum of the dates
    supplied and of the date it started from, in whatever order the dates
    come, and it never goes back. *)
Lemma latest_record_is_maximum_of_naive_dates :
  forall dates self,
    Forall Datetime.naive dates -> Datetime.naive (latest self) ->
    exists self',
      update_all lib (map DateObj dates) self = Return self' /\
      In (latest self') (latest self :: dates) /\
      (forall d, In d (latest self :: dates) -> Datetime.le d (latest self')) /\
      Datetime.naive (latest self').
Proof.
  induction dates as [|d rest IH]; intros self Hall Hs.
  - exists self. simpl. repeat split; auto.
    intros d [<- | []]. apply le_refl.
  - inversion Hall as [|? ? Hd Hrest]; subst.
    destruct (update_naive d self Hd Hs) as (s1 & Hup & Hor & Hle1 & Hle2 & Hn1).
    destruct (IH s1 Hrest Hn1) as (s2 & Hrun & Hin & Hub & Hn2).
    exists s2. simpl. rewrite Hup. split; [exact Hrun|]. split; [|split; [|exact Hn2]].
    + destruct Hin as [Heq | Hin].
      * rewrite <- Heq. destruct Hor as [-> | ->]; simpl; auto.
      * simpl. auto.
    + intros x [<- | [<- | Hx]].
      * apply le_trans with (latest s1); [exact Hle2|]. apply Hub. left. reflexivity.
      * apply le_trans with (latest s1); [exact Hle1|]. apply Hub. left. reflexivity.
      * apply Hub. right. exact Hx.
Qed.

End LatestRecord.

(** C9: the latest record date is meant to become the maximum of the dates
    supplied, and [_update_latest_record_date] accepts a date as a string.
    On a new report every such call raises and records nothing: a string
    that parses becomes an aware datetime, whose comparison with the naive
    sentinel [datetime.min] raises [TypeError]; a string that does not
    parse raises [CDLSError]. *)
Theorem update_latest_record_date_never_records_a_string :
  forall (lib : timelib) (s ident : string) (self : BaseDataSource),
    let fresh := set_report (new_LoadReport ident) self in
    _update_latest_record_date lib (DateStr s) fresh
      = Raise (TypeError "can't compare offset-naive and offset-aware datetimes")
    \/ _update_latest_record_date lib (DateStr s) fresh
      = Raise (CDLSError ("Couldn't parse date '" ++ PyStr.strip s ++ "'")%string).
Proof.
  intros lib s ident self fresh.
  unfold _update_latest_record_date, _string_to_date.
  destruct (try_formats_aware lib (PyStr.strip s) mapping) as [(d & Hd & Htz) | Hfail].
  - left. rewrite Hd.
    rewrite (py_max_mixed d _ 0 Htz); [reflexivity|].
    reflexivity.
  - right. rewrite Hfail. reflexivity.
Qed.

(** The string of the repository's own test, on a clock in EDT. *)
Example update_latest_record_date_iso8601 :
  forall self,
    _update_latest_record_date Samples.timelib_edt (DateStr "1999-07-04T11:00:00EDT")
      (set_report (new_LoadReport "local0") self)
    = Raise (TypeError "can't compare offset-naive and offset-aware datetimes").
Proof. intros self. reflexivity. Qed.

(** ** Sorting *)

Section Sorting.

Context {A : Type} (le : A -> A -> bool).
Hypothesis le_total : forall a b, le a b = true \/ le b a = true.

Lemma insert_by_perm : forall x l, Permutation (x :: l) (Db.insert_by le x l).
Proof.
  intros x l. induction l as [|y r IH]; simpl.
  - apply Permutation_refl.
  - destruct (le x y).
    + apply Permutation_refl.
    + eapply perm_trans; [apply perm_swap|]. apply perm_skip. exact IH.
Qed.

Lemma sort_by_perm : forall l, Permutation l (Db.sort_by le l).
Proof.
  induction l as [|x r IH]; simpl.
  - apply perm_nil.
  - eapply perm_trans; [|apply insert_by_perm]. apply perm_skip. exact IH.
Qed.

Lemma insert_by_hd :
  forall x y l, le y x = true -> HdRel (fun a b => le a b = true) y l ->
                HdRel (fun a b => le a b = true) y (Db.insert_by le x l).
Proof.
  intros x y l Hyx Hhd. destruct l as [|z r]; simpl.
  - constructor. exact Hyx.
  - destruct (le x z); constructor; [exact Hyx|].
    inversion Hhd; assumption.
Qed.

Lemma insert_by_sorted :
  forall x l, Sorted (fun a b => le a b = true) l ->
              Sorted (fun a b => le a b = true) (Db.insert_by le x l).
Proof.
  intros x l Hs. induction Hs as [|y r Hr IH Hhd]; simpl.
  - repeat constructor.
  - destruct (le x y) eqn:E.
    + constructor; [constructor; assumption|]. constructor. exact E.
    + constructor; [exact IH|].
      apply insert_by_hd; [|exact Hhd].
      destruct (le_total x y) as [H|H]; [congruence|exact H].
Qed.

Lemma sort_by_sorted : forall l, Sorted (fun a b => le a b = true) (Db.sort_by le l).
Proof.
  induction l as [|x r IH]; simpl.
  - constructor.
  - apply insert_by_sorted. exact IH.
Qed.

End Sorting.

(** ** Orchestration: perform_all_loads *)

Section Orchestration.

(** *** The logger *)

(** [str.format] raises built-in exceptions only. *)
Lemma lookup_not_domain :
  forall name, is_CDLSError (PyFormat.lookup name) = false.
Proof.
  intros name. unfold PyFormat.lookup.
  destruct (PyFormat.first_part name) as [|c r]; [reflexivity|].
  destruct (PyFormat.get_integer (c :: r) 0); reflexivity.
Qed.

Lemma prepend_raises :
  forall c r e, PyFormat.prepend c r = Raise e -> r = Raise e.
Proof. intros c [t|e'] e H; simpl in H; [discriminate | exact H]. Qed.

Lemma render_raises :
  forall l e, PyFormat.render l = Raise e -> is_CDLSError e = false.
Proof.
  assert (H : forall l,
             (forall e, PyFormat.render l = Raise e -> is_CDLSError e = false) /\
             (forall c e, PyFormat.render (c :: l) = Raise e -> is_CDLSError e = false)).
  { induction l as [|a l [IH1 IH2]].
    - split; [discriminate|]. intros c e. cbn [PyFormat.render].
      destruct (Ascii.eqb c "{"%char); [intros H; inversion H; reflexivity|].
      destruct (Ascii.eqb c "}"%char); [intros H; inversion H; reflexivity|].
      discriminate.
    - split; [exact (IH2 a)|]. intros c e. cbn [PyFormat.render].
      destruct (Ascii.eqb c "{"%char).
      + destruct (Ascii.eqb a "{"%char).
        * intros H. apply prepend_raises in H. exact (IH1 e H).
        * destruct (PyFormat.parse_field (a :: l) false []);
            intros H; inversion H; [apply lookup_not_domain | reflexivity].
      + destruct (Ascii.eqb c "}"%char).
        * destruct (Ascii.eqb a "}"%char).
          -- intros H. apply prepend_raises in H. exact (IH1 e H).
          -- intros H; inversion H; reflexivity.
        * intros H. apply prepend_raises in H. exact (IH2 a e H). }
  intros l. exact (proj1 (H l)).
Qed.

Lemma formatted_raises :
  forall m e, Logging.formatted m = Raise e -> is_CDLSError e = false.
Proof.
  intros [text | i | i] e; cbn [Logging.formatted]; try discriminate.
  unfold PyFormat.format0.
  destruct (PyFormat.render (list_ascii_of_string (PyStr.strip text))) as [l|e'] eqn:E;
    [discriminate|].
  intros H. inversion H; subst. exact (render_raises _ _ E).
Qed.

(** A text without braces is written as it stands. *)
Lemma render_without_braces :
  forall l,
    forallb (fun c => negb (Ascii.eqb c "{"%char || Ascii.eqb c "}"%char)) l = true ->
    PyFormat.render l = Return l.
Proof.
  assert (H : forall l,
             forallb (fun c => negb (Ascii.eqb c "{"%char || Ascii.eqb c "}"%char)) l
             = true ->
             PyFormat.render l = Return l /\
             forall c, Ascii.eqb c "{"%char || Ascii.eqb c "}"%char = false ->
                       PyFormat.render (c :: l) = Return (c :: l)).
  { induction l as [|a l IH]; intros Hl.
    - split; [reflexivity|]. intros c Hc. apply orb_false_iff in Hc.
      destruct Hc as [H1 H2]. cbn [PyFormat.render]. rewrite H1, H2. reflexivity.
    - cbn [forallb] in Hl. apply andb_true_iff in Hl. destruct Hl as [Ha Hl].
      apply negb_true_iff in Ha. destruct (IH Hl) as [_ IH2].
      split; [exact (IH2 a Ha)|]. intros c Hc.
      pose proof (IH2 a Ha) as Hr. apply orb_false_iff in Hc. destruct Hc as [H1 H2].
      cbn [PyFormat.render] in *. rewrite H1, H2.
      destruct (Ascii.eqb a "{"%char); [discriminate Ha|].
      destruct (Ascii.eqb a "}"%char); [discriminate Ha|].
      rewrite Hr. reflexivity. }
  intros l Hl. exact (proj1 (H l Hl)).
Qed.

(** The logger can write any text in which no brace stands. *)
Lemma loggable_without_braces :
  forall text,
    forallb (fun c => negb (Ascii.eqb c "{"%char || Ascii.eqb c "}"%char))
      (list_ascii_of_string (PyStr.strip text)) = true ->
    loggable text = true.
Proof.
  intros text H. unfold loggable, Logging.formatted, PyFormat.format0.
  rewrite (render_without_braces _ H). reflexivity.
Qed.

(** What [exception(e)] gives, in terms of the text of [e]. *)
Lemma exception_cases :
  forall e w,
    (exists w', Logging.exception e w = (Return tt, w') /\
                loggable (Errors.str e) = true /\ after_logging e = e) \/
    (exists w', Logging.exception e w = (Raise (after_logging e), w') /\
                loggable (Errors.str e) = false).
Proof.
  intros e w. unfold Logging.exception, Logging._log_entry, loggable, after_logging.
  unfold bind, step, lift.
  destruct (Logging.formatted (Logging.Plain (Errors.str e))) as [text|e'].
  - left. eexists. repeat split.
  - right. eexists. repeat split.
Qed.

Lemma after_logging_not_domain :
  forall e, loggable (Errors.str e) = false -> is_CDLSError (after_logging e) = false.
Proof.
  intros e. unfold loggable, after_logging.
  destruct (Logging.formatted (Logging.Plain (Errors.str e))) as [text|e'] eqn:E;
    [discriminate|].
  intros _. exact (formatted_raises _ _ E).
Qed.

(** A call on the logger touches the world only. *)
Lemma logger_state :
  forall (A : Type) (m : eff World A) s,
    _logger m s = (fst (m (world s)), after_log (snd (m (world s))) s).
Proof. intros A m s. unfold _logger, after_log. destruct (m (world s)); reflexivity. Qed.

(** *** The loop *)

Lemma loop_outcome_cons :
  forall halt k ds rest reports ev evs res,
    passed halt ev = true -> logged ev = true ->
    ev_id ev = get_identifier (self_ ds) ->
    loop_outcome halt rest (reports ++ reports_of [ev]) evs res ->
    loop_outcome halt ((k, ds) :: rest) reports (ev :: evs) res.
Proof.
  intros halt k ds rest reports ev evs res Hp Hl Hid [Hids Hcases]. split.
  - simpl. rewrite Hid, Hids. reflexivity.
  - destruct Hcases as [(Hres & Hlen & Hall & Hlog)
                       | (pre & i & e & Hevs & Hres & Hall & Hlog & Hwhy)].
    + left. repeat split.
      * rewrite Hres, <- app_assoc. f_equal.
        destruct ev as [i [r|e]]; reflexivity.
      * simpl. rewrite Hlen. reflexivity.
      * simpl. rewrite Hp, Hall. reflexivity.
      * simpl. rewrite Hl, Hlog. reflexivity.
    + right. exists (ev :: pre), i, e. repeat split; auto.
      * rewrite Hevs. reflexivity.
      * simpl. rewrite Hp, Hall. reflexivity.
      * simpl. rewrite Hl, Hlog. reflexivity.
Qed.

Lemma loop_outcome_stop :
  forall halt k ds rest reports e,
    is_CDLSError e = false \/ halt = true \/ loggable (Errors.str e) = false ->
    loop_outcome halt ((k, ds) :: rest) reports
      [Executed (get_identifier (self_ ds)) (Raise e)]
      (Raise (if is_CDLSError e then after_logging e else e)).
Proof.
  intros halt k ds rest reports e Hwhy. split; [reflexivity|].
  right. exists [], (get_identifier (self_ ds)), e. repeat split; auto.
Qed.

(** One turn of the loop, case by case. *)
Lemma load_each_cons :
  forall halt k ds rest reports s,
    load_each halt ((k, ds) :: rest) reports s =
    match execute ds (world s) with
    | (Return report, ds', w') =>
        load_each halt rest (reports ++ [report])
          (after_call k ds ds' w' (Return report) s)
    | (Raise e, ds', w') =>
        if is_CDLSError e
        then match Logging.exception e w' with
             | (Return _, w'') =>
                 if halt
                 then (Raise e, after_log w'' (after_call k ds ds' w' (Raise e) s))
                 else load_each halt rest reports
                        (after_log w'' (after_call k ds ds' w' (Raise e) s))
             | (Raise e', w'') =>
                 (Raise e', after_log w'' (after_call k ds ds' w' (Raise e) s))
             end
        else (Raise e, after_call k ds ds' w' (Raise e) s)
    end.
Proof.
  intros halt k ds rest reports s.
  cbn [load_each]. unfold bind, load_next, try_except, bind, call_execute.
  destruct (execute ds (world s)) as [[[report | e] ds'] w']; cbn [ret].
  - reflexivity.
  - destruct (is_CDLSError e); [|reflexivity].
    unfold _logger. cbn [world _datasources trace].
    destruct (Logging.exception e w') as [[[]|e'] w'']; [|reflexivity].
    destruct halt; reflexivity.
Qed.

(** The loop of [perform_all_loads], from any state. *)
Lemma load_each_spec :
  forall halt values reports s,
  exists evs,
    trace (snd (load_each halt values reports s)) = trace s ++ evs /\
    loop_outcome halt values reports evs (fst (load_each halt values reports s)).
Proof.
  intros halt values. induction values as [|[k ds] rest IH]; intros reports s.
  - exists []. simpl. rewrite app_nil_r. split; [reflexivity|].
    split; [reflexivity|]. left. rewrite app_nil_r. repeat split.
  - rewrite load_each_cons.
    destruct (execute ds (world s)) as [[[report | e] ds'] w'].
    + (* the source returned *)
      destruct (IH (reports ++ [report]) (after_call k ds ds' w' (Return report) s))
        as (evs & Htr & Hout).
      exists (Executed (get_identifier (self_ ds)) (Return report) :: evs).
      split.
      * rewrite Htr. cbn [after_call trace]. rewrite <- app_assoc. reflexivity.
      * apply loop_outcome_cons; [reflexivity | reflexivity | reflexivity | exact Hout].
    + destruct (is_CDLSError e) eqn:Hdom.
      * destruct (exception_cases e w') as [(w'' & Hlog & Hok & Hsame)
                                           | (w'' & Hlog & Hbad)];
          rewrite Hlog.
        -- destruct halt.
           ++ (* a domain error with halt_on_error: logged and raised again *)
              exists [Executed (get_identifier (self_ ds)) (Raise e)].
              split; [reflexivity|]. cbn [fst].
              pose proof (loop_outcome_stop true k ds rest reports e
                            (or_intror (or_introl eq_refl))) as H.
              rewrite Hdom, Hsame in H. exact H.
           ++ (* a domain error without it: logged, and the loop goes on *)
              destruct (IH reports (after_log w'' (after_call k ds ds' w' (Raise e) s)))
                as (evs & Htr & Hout).
              exists (Executed (get_identifier (self_ ds)) (Raise e) :: evs).
              split.
              ** rewrite Htr. cbn [after_log after_call trace].
                 rewrite <- app_assoc. reflexivity.
              ** apply loop_outcome_cons.
                 --- unfold passed. simpl. rewrite Hdom. reflexivity.
                 --- simpl. rewrite Hok. apply orb_true_r.
                 --- reflexivity.
                 --- simpl. rewrite app_nil_r. exact Hout.
        -- (* a domain error that the logger cannot write *)
           exists [Executed (get_identifier (self_ ds)) (Raise e)].
           split; [reflexivity|]. cbn [fst].
           pose proof (loop_outcome_stop halt k ds rest reports e
                         (or_intror (or_intror Hbad))) as H.
           rewrite Hdom in H. exact H.
      * (* any other exception leaves the loop *)
        exists [Executed (get_identifier (self_ ds)) (Raise e)].
        split; [reflexivity|]. cbn [fst].
        pose proof (loop_outcome_stop halt k ds rest reports e (or_introl Hdom)) as H.
        rewrite Hdom in H. exact H.
Qed.

(** *** The listing of the reports *)

Lemma log_reports_spec :
  forall reports s,
    trace (snd (log_reports reports s)) = trace s /\
    _datasources (snd (log_reports reports s)) = _datasources s /\
    ((forallb listed reports = true /\ fst (log_reports reports s) = Return tt) \/
     (exists r e',
         In r reports /\
         Logging.formatted (Logging.Plain (LoadReport_str r)) = Raise e' /\
         fst (log_reports reports s) = Raise e')).
Proof.
  induction reports as [|r rest IH]; intros s.
  - repeat split. left. split; reflexivity.
  - cbn [log_reports]. unfold bind. rewrite logger_state.
    unfold Logging.info, Logging._log_entry, bind, lift, step.
    assert (Hl : listed r
                 = is_Return (Logging.formatted (Logging.Plain (LoadReport_str r))))
      by reflexivity.
    cbn [forallb]. rewrite Hl. clear Hl.
    destruct (Logging.formatted (Logging.Plain (LoadReport_str r))) as [text|e'] eqn:E;
      cbn [fst snd is_Return andb].
    + match goal with
      | |- context [log_reports rest ?s0] => destruct (IH s0) as (H1 & H2 & H3)
      end.
      split; [exact H1|]. split; [exact H2|].
      destruct H3 as [[Hall Hres] | (r' & e' & Hin & Hfmt & Hres)].
      * left. split; assumption.
      * right. exists r', e'. repeat split; auto. right. exact Hin.
    + repeat split. right. exists r, e'. repeat split; auto. left. reflexivity.
Qed.

(** The two fixed lines of a batch can always be written. *)
Lemma info_fixed_lines :
  forall s,
    _logger (Logging.info (Logging.Plain "Loading all sources") None) s
    = (Return tt, after_log (emit (LogLine "INFO" None "Loading all sources") (world s)) s)
    /\
    _logger (Logging.info (Logging.Plain "Loads complete") None) s
    = (Return tt, after_log (emit (LogLine "INFO" None "Loads complete") (world s)) s).
Proof. intros s. split; reflexivity. Qed.

(** [perform_all_loads] is its loop between two log lines; the reports are
    listed only when the loop ends normally. *)
Lemma perform_all_loads_unfold :
  forall halt s,
    perform_all_loads halt s =
    match load_each halt (_datasources s) []
            (after_log (emit (LogLine "INFO" None "Loading all sources") (world s)) s)
    with
    | (Return reports, s1) =>
        match log_reports reports
                (after_log (emit (LogLine "INFO" None "Loads complete") (world s1)) s1)
        with
        | (Return _, s2) => (Return reports, s2)
        | (Raise e, s2) => (Raise e, s2)
        end
    | (Raise e, s1) => (Raise e, s1)
    end.
Proof.
  intros halt s. unfold perform_all_loads. unfold bind at 1.
  rewrite (proj1 (info_fixed_lines s)). unfold bind at 1.
  cbn [after_log _datasources].
  destruct (load_each halt (_datasources s) [] _) as [[reports | e] s1]; [|reflexivity].
  unfold bind at 1. rewrite (proj2 (info_fixed_lines s1)).
  unfold bind at 1.
  destruct (log_reports reports _) as [[[]|e] s2]; reflexivity.
Qed.

Lemma perform_all_loads_spec :
  forall halt s,
  exists evs,
    trace (snd (perform_all_loads halt s)) = trace s ++ evs /\
    batch_outcome halt (_datasources s) evs (fst (perform_all_loads halt s)).
Proof.
  intros halt s. rewrite perform_all_loads_unfold.
  destruct (load_each_spec halt (_datasources s) []
              (after_log (emit (LogLine "INFO" None "Loading all sources") (world s)) s))
    as (evs & Htr & Hout).
  destruct (load_each halt (_datasources s) [] _) as [[reports | e] s1];
    exists evs; cbn [fst snd after_log trace] in *.
  - destruct (log_reports_spec reports
                (after_log (emit (LogLine "INFO" None "Loads complete") (world s1)) s1))
      as (H1 & _ & H3).
    destruct (log_reports reports _) as [[[]|e] s2]; cbn [fst snd after_log trace] in *.
    + split; [rewrite H1; exact Htr|].
      exists (Return reports). split; [exact Hout|].
      destruct H3 as [[Hall _] | (r & e' & _ & _ & Hres)]; [|discriminate Hres].
      left. split; [exact Hall | reflexivity].
    + split; [rewrite H1; exact Htr|].
      exists (Return reports). split; [exact Hout|].
      destruct H3 as [[_ Hres] | (r & e' & Hin & Hfmt & Hres)]; [discriminate Hres|].
      right. exists r, e'. inversion Hres; subst. repeat split; assumption.
  - split; [exact Htr|]. exists (Raise e). split; [exact Hout | reflexivity].
Qed.

Lemma new_events_app :
  forall s s' evs, trace s' = trace s ++ evs -> new_events s s' = evs.
Proof.
  intros s s' evs H. unfold new_events. rewrite H.
  rewrite skipn_app, skipn_all, Nat.sub_diag. reflexivity.
Qed.

(** The events of a run of [perform_all_loads] and its outcome. *)
Lemma perform_all_loads_events :
  forall halt s,
    batch_outcome halt (_datasources s)
      (new_events s (snd (perform_all_loads halt s)))
      (fst (perform_all_loads halt s)).
Proof.
  intros halt s. destruct (perform_all_loads_spec halt s) as (evs & Htr & Hout).
  rewrite (new_events_app _ _ _ Htr). exact Hout.
Qed.

(** The two ways a batch ends: every source was attempted and the reports
    were listed as far as they could be, or a call ended the loop. *)
Lemma batch_cases :
  forall halt values evs res,
    batch_outcome halt values evs res ->
    map ev_id evs = firstn (List.length evs) (ids_of values) /\
    ((List.length evs = List.length values /\
      forallb (passed halt) evs = true /\
      forallb logged evs = true /\
      ((forallb listed (reports_of evs) = true /\ res = Return (reports_of evs)) \/
       (exists r e',
           In r (reports_of evs) /\
           Logging.formatted (Logging.Plain (LoadReport_str r)) = Raise e' /\
           res = Raise e')))
     \/
     (exists pre i e,
        evs = pre ++ [Executed i (Raise e)] /\
        res = Raise (if is_CDLSError e then after_logging e else e) /\
        forallb (passed halt) pre = true /\
        forallb logged pre = true /\
        (is_CDLSError e = false \/ halt = true \/ loggable (Errors.str e) = false))).
Proof.
  intros halt values evs res (res0 & [Hids Hcases] & Hres).
  split; [exact Hids|].
  destruct Hcases as [(Hres0 & Hlen & Hall & Hlog)
                     | (pre & i & e & Hevs & Hres0 & Hall & Hlog & Hwhy)].
  - left. subst res0. cbn [app] in Hres. repeat split; assumption.
  - right. subst res0. exists pre, i, e. repeat split; assumption.
Qed.

Lemma passed_counts :
  forall evs,
    forallb (passed false) evs = true ->
    (List.length (reports_of evs) + List.length (filter domain_failure evs)
     = List.length evs)%nat.
Proof.
  induction evs as [|[i [r|e]] rest IH]; simpl; intros H.
  - reflexivity.
  - rewrite IH by exact H. reflexivity.
  - unfold passed in H. simpl in H.
    destruct (is_CDLSError e); [|discriminate].
    simpl. rewrite <- IH by exact H. lia.
Qed.

Lemma passed_not_raise :
  forall i e evs,
    forallb (passed true) evs = true -> ~ In (Executed i (Raise e)) evs.
Proof.
  intros i e evs H Hin. rewrite forallb_forall in H.
  specialize (H _ Hin). discriminate H.
Qed.

Lemma passed_not_other :
  forall halt i e evs,
    forallb (passed halt) evs = true -> is_CDLSError e = false ->
    ~ In (Executed i (Raise e)) evs.
Proof.
  intros halt i e evs H He Hin. rewrite forallb_forall in H.
  specialize (H _ Hin). unfold passed in H. simpl in H.
  rewrite He in H. destruct halt; discriminate H.
Qed.

Lemma passed_true_returned :
  forall evs, forallb (passed true) evs = true -> forallb returned evs = true.
Proof.
  intros evs H. rewrite forallb_forall in *. intros ev Hin.
  specialize (H ev Hin). unfold passed in H. simpl in H.
  rewrite orb_false_r in H. exact H.
Qed.

(** A domain error the logger could not write has not been passed. *)
Lemma logged_not_unloggable :
  forall i e evs,
    forallb logged evs = true -> is_CDLSError e = true ->
    loggable (Errors.str e) = false ->
    ~ In (Executed i (Raise e)) evs.
Proof.
  intros i e evs H He Hbad Hin. rewrite forallb_forall in H.
  specialize (H _ Hin). simpl in H. rewrite He, Hbad in H. discriminate H.
Qed.

Lemma after_logging_loggable :
  forall e, loggable (Errors.str e) = true -> after_logging e = e.
Proof.
  intros e. unfold loggable, after_logging.
  destruct (Logging.formatted (Logging.Plain (Errors.str e))); [reflexivity|discriminate].
Qed.

(** A handler that logs the exception and raises it again. *)
Lemma log_and_raise :
  forall (A : Type) e s,
    (_logger (Logging.exception e) ;;; @raise State A e) s
    = (Raise (after_logging e), after_log (snd (Logging.exception e (world s))) s).
Proof.
  intros A e s. unfold bind. rewrite logger_state.
  destruct (exception_cases e (world s)) as [(w' & Hlog & _ & Hsame)
                                            | (w' & Hlog & _)];
    rewrite Hlog; cbn [fst snd]; [rewrite Hsame|]; reflexivity.
Qed.

(** The last event of a list is determined by the list. *)
Lemma last_event_eq :
  forall (pre pre' : list event) ev ev',
    pre ++ [ev] = pre' ++ [ev'] -> pre = pre' /\ ev = ev'.
Proof.
  intros pre pre' ev ev' H. apply app_inj_tail in H. exact H.
Qed.

End Orchestration.

(** C1 (as the code has it): [perform_all_loads] calls [execute] on the
    registered sources in the order of the registry, which is the order in
    which the identifiers were first registered: the calls made are a
    prefix of that order, and all of it when the batch returns.  Only
    [list_registered_sources] sorts: it lists the same entries by ascending
    identifier. *)
Theorem perform_all_loads_follows_registration_order :
  forall (halt_on_error : bool) (s : State),
    let run := perform_all_loads halt_on_error s in
    let calls := map ev_id (new_events s (snd run)) in
    calls = firstn (List.length calls) (registered_ids s) /\
    (is_Return (fst run) = false \/ calls = registered_ids s) /\
    list_registered_sources s
      = map (fun kds => source_to_tuple (snd kds)) (sorted_items (_datasources s)) /\
    Sorted (fun a b => String.leb (fst a) (fst b) = true) (sorted_items (_datasources s)) /\
    Permutation (_datasources s) (sorted_items (_datasources s)).
Proof.
  intros halt s run calls.
  destruct (batch_cases _ _ _ _ (perform_all_loads_events halt s)) as [Hids Hcases].
  fold run in Hids, Hcases. unfold ids_of in Hids. fold (registered_ids s) in Hids.
  assert (Hlen : List.length calls = List.length (new_events s (snd run))).
  { unfold calls. apply length_map. }
  split; [|split; [|split; [|split]]].
  - rewrite Hlen. exact Hids.
  - destruct Hcases as [(Hn & _) | (pre & i & e & _ & Hres & _)].
    + right. unfold calls. rewrite Hids, Hn.
      unfold registered_ids. rewrite <- (length_map (fun kds => get_identifier (self_ (snd kds)))).
      apply firstn_all.
    + left. rewrite Hres. reflexivity.
  - reflexivity.
  - apply sort_by_sorted. intros a b. apply String.leb_total.
  - apply sort_by_perm.
Qed.

(** C1, as stated, fails: with "b" registered before "a", the batch runs
    "b" then "a" while the listing gives "a" then "b". *)
Lemma perform_all_loads_order_is_not_the_listed_order :
  let s := Samples.state_b_a in
  map ev_id (new_events s (snd (perform_all_loads false s))) = ["b"; "a"] /\
  map (fun t => fst (fst t)) (list_registered_sources s) = ["a"; "b"] /\
  map ev_id (new_events s (snd (perform_all_loads false s)))
    <> map (fun t => fst (fst t)) (list_registered_sources s).
Proof.
  split; [vm_compute; reflexivity|]. split; [vm_compute; reflexivity|].
  vm_compute. discriminate.
Qed.

(** Without [halt_on_error], when no source raises anything but domain
    errors and the logger can write every error and every report, the
    batch attempts every registered source, returns the reports of the
    sources that returned, as they returned them and in call order, and
    leaves out the K sources that raised: N - K reports. *)
Lemma perform_all_loads_skips_failed_sources :
  forall (s : State),
    let run := perform_all_loads false s in
    let evs := new_events s (snd run) in
    forallb (fun ev => negb (other_failure ev)) evs = true ->
    forallb logged evs = true ->
    forallb listed (reports_of evs) = true ->
    fst run = Return (reports_of evs) /\
    map ev_id evs = registered_ids s /\
    List.length (reports_of evs)
      = (List.length (_datasources s) - List.length (filter domain_failure evs))%nat.
Proof.
  intros s run evs Hno Hlog Hlist.
  destruct (batch_cases _ _ _ _ (perform_all_loads_events false s)) as [Hids Hcases].
  fold run in Hids, Hcases. fold evs in Hids, Hcases.
  destruct Hcases as [(Hn & Hall & _ & Hres)
                     | (pre & i & e & Hevs & _ & _ & _ & Hwhy)].
  - destruct Hres as [[_ Hres] | (r & e' & Hin & Hfmt & _)].
    + split; [exact Hres|]. split.
      * rewrite Hids, Hn. unfold ids_of, registered_ids.
        rewrite <- (length_map (fun kds => get_identifier (self_ (snd kds)))).
        apply firstn_all.
      * pose proof (passed_counts evs Hall) as Hc. lia.
    + exfalso. rewrite forallb_forall in Hlist. specialize (Hlist r Hin).
      unfold listed, loggable in Hlist. rewrite Hfmt in Hlist. discriminate Hlist.
  - exfalso.
    assert (Hin : In (Executed i (Raise e)) evs).
    { rewrite Hevs. apply in_or_app. right. left. reflexivity. }
    rewrite forallb_forall in Hno, Hlog.
    specialize (Hno _ Hin). specialize (Hlog _ Hin). simpl in Hno, Hlog.
    destruct (is_CDLSError e); [|discriminate Hno].
    destruct Hwhy as [He | [Hhalt | Hbad]]; try discriminate.
    rewrite Hbad in Hlog. discriminate Hlog.
Qed.

(** Three sources of which "feed1" fails with a text the logger can
    write: two reports come back. *)
Example perform_all_loads_skips_a_failed_source :
  let s := Samples.state_one_broken in
  let run := perform_all_loads false s in
  let evs := new_events s (snd run) in
  fst run = Return (reports_of evs) /\
  map ev_id evs = ["local0"; "feed1"; "quiet2"] /\
  map identifier (reports_of evs) = ["local0"; "quiet2"].
Proof. vm_compute. repeat split. Qed.

(** C2: a source that raises a domain error is meant to be logged and
    skipped.  The handler hands the text of the error to the logger, which
    reads it as a [str.format] template: when the text does not format (it
    holds a brace that is not doubled), the exception of the logger, which
    is not a domain error, ends the batch at that source; no report
    comes back and the sources after it are not attempted. *)
Theorem perform_all_loads_is_ended_by_an_error_text_the_logger_rejects :
  forall (s : State) (i : string) (e : exn),
    let run := perform_all_loads false s in
    let evs := new_events s (snd run) in
    In (Executed i (Raise e)) evs ->
    is_CDLSError e = true ->
    loggable (Errors.str e) = false ->
    fst run = Raise (after_logging e) /\
    is_CDLSError (after_logging e) = false /\
    (exists pre, evs = pre ++ [Executed i (Raise e)]) /\
    map ev_id evs = firstn (List.length evs) (registered_ids s).
Proof.
  intros s i e run evs Hin Hdom Hbad.
  destruct (batch_cases _ _ _ _ (perform_all_loads_events false s)) as [Hids Hcases].
  fold run in Hids, Hcases. fold evs in Hids, Hcases.
  destruct Hcases as [(_ & _ & Hlog & _)
                     | (pre & i' & e' & Hevs & Hres & _ & Hlog & _)].
  - exfalso. exact (logged_not_unloggable i e evs Hlog Hdom Hbad Hin).
  - rewrite Hevs in Hin. apply in_app_or in Hin. destruct Hin as [Hin | [Heq | []]].
    + exfalso. exact (logged_not_unloggable i e pre Hlog Hdom Hbad Hin).
    + inversion Heq; subst i' e'. rewrite Hdom in Hres.
      split; [exact Hres|]. split; [exact (after_logging_not_domain e Hbad)|].
      split; [exists pre; exact Hevs | exact Hids].
Qed.

(** Three sources of which "picky1" raises [ExtractError("bad record
    {id}")]: the batch raises [KeyError('id')] and "quiet2" is never run. *)
Lemma perform_all_loads_is_ended_by_an_error_text_the_logger_rejects_witness :
  let s := Samples.state_one_picky in
  let e := ExtractError "bad record {id}" in
  let run := perform_all_loads false s in
  let evs := new_events s (snd run) in
  (In (Executed "picky1" (Raise e)) evs /\ is_CDLSError e = true /\
   loggable (Errors.str e) = false) /\
  fst run = Raise (KeyError "id") /\
  map ev_id evs = ["quiet0"; "picky1"] /\
  registered_ids s = ["quiet0"; "picky1"; "quiet2"].
Proof.
  split.
  - split; [vm_compute; right; left; reflexivity | split; reflexivity].
  - split; [|split; vm_compute; reflexivity].
    exact (proj1 (perform_all_loads_is_ended_by_an_error_text_the_logger_rejects
                    Samples.state_one_picky "picky1" (ExtractError "bad record {id}")
                    (or_intror (or_introl eq_refl)) eq_refl eq_refl)).
Defined.

(** C8: with [halt_on_error], a domain error raised by a source ends the
    batch: the failing call is the last call made, every call before it
    returned, and the caller gets an exception, not the reports collected
    so far.  The exception is meant to be the domain error itself; it is
    when the logger can write its text, and otherwise it is the exception
    of the logger, which is not a domain error. *)
Theorem perform_all_loads_halts_on_first_domain_error :
  forall (s : State) (i : string) (e : exn),
    let run := perform_all_loads true s in
    let evs := new_events s (snd run) in
    In (Executed i (Raise e)) evs ->
    is_CDLSError e = true ->
    fst run = Raise (after_logging e) /\
    (loggable (Errors.str e) = true -> fst run = Raise e) /\
    (loggable (Errors.str e) = false ->
     fst run <> Raise e /\ is_CDLSError (after_logging e) = false) /\
    (exists pre, evs = pre ++ [Executed i (Raise e)] /\ forallb returned pre = true) /\
    map ev_id evs = firstn (List.length evs) (registered_ids s).
Proof.
  intros s i e run evs Hin Hdom.
  destruct (batch_cases _ _ _ _ (perform_all_loads_events true s)) as [Hids Hcases].
  fold run in Hids, Hcases. fold evs in Hids, Hcases.
  destruct Hcases as [(_ & Hall & _) | (pre & i' & e' & Hevs & Hres & Hall & _)].
  - exfalso. exact (passed_not_raise i e evs Hall Hin).
  - rewrite Hevs in Hin. apply in_app_or in Hin. destruct Hin as [Hin | [Heq | []]].
    + exfalso. exact (passed_not_raise i e pre Hall Hin).
    + inversion Heq; subst i' e'. rewrite Hdom in Hres.
      split; [exact Hres|]. split; [|split; [|split]].
      * intros Hok. rewrite Hres, (after_logging_loggable e Hok). reflexivity.
      * intros Hbad. pose proof (after_logging_not_domain e Hbad) as Hnot.
        split; [|exact Hnot].
        rewrite Hres. intros Heq'. inversion Heq' as [Heq'']. rewrite Heq'' in Hnot.
        rewrite Hdom in Hnot. discriminate Hnot.
      * exists pre. split; [exact Hevs|]. apply passed_true_returned. exact Hall.
      * exact Hids.
Qed.

(** "quiet0" returns, "picky1" raises [ExtractError("bad record {id}")],
    the batch raises [KeyError('id')] and "quiet2" is not run. *)
Lemma perform_all_loads_halts_on_first_domain_error_witness :
  let s := Samples.state_one_picky in
  let e := ExtractError "bad record {id}" in
  let run := perform_all_loads true s in
  let evs := new_events s (snd run) in
  (In (Executed "picky1" (Raise e)) evs /\ is_CDLSError e = true) /\
  fst run = Raise (KeyError "id") /\
  fst run <> Raise e /\
  (exists pre, evs = pre ++ [Executed "picky1" (Raise e)] /\ forallb returned pre = true).
Proof.
  split.
  - split; [vm_compute; right; left; reflexivity | reflexivity].
  - destruct (perform_all_loads_halts_on_first_domain_error Samples.state_one_picky
                "picky1" (ExtractError "bad record {id}")
                (or_intror (or_introl eq_refl)) eq_refl) as (H1 & _ & H3 & H4 & _).
    split; [exact H1|]. split; [exact (proj1 (H3 eq_refl)) | exact H4].
Defined.

(** With a text the logger can write the domain error itself comes back:
    "local0" returns, "feed1" raises [ExtractError], "quiet2" is not run. *)
Example perform_all_loads_halts_with_the_domain_error :
  let s := Samples.state_one_broken in
  let run := perform_all_loads true s in
  fst run = Raise (ExtractError "feed unreachable") /\
  map ev_id (new_events s (snd run)) = ["local0"; "feed1"].
Proof. vm_compute. split; reflexivity. Qed.

(** C10: an exception that is not a domain error leaves the batch at once,
    whatever [halt_on_error] is: the batch raises it, the failing call is
    the last call made, and only calls that returned or raised a domain
    error precede it. *)
Theorem perform_all_loads_propagates_other_exceptions :
  forall (halt_on_error : bool) (s : State) (i : string) (e : exn),
    let run := perform_all_loads halt_on_error s in
    let evs := new_events s (snd run) in
    In (Executed i (Raise e)) evs ->
    is_CDLSError e = false ->
    fst run = Raise e /\
    (exists pre, evs = pre ++ [Executed i (Raise e)] /\
                 forallb (passed halt_on_error) pre = true) /\
    map ev_id evs = firstn (List.length evs) (registered_ids s).
Proof.
  intros halt s i e run evs Hin Hother.
  destruct (batch_cases _ _ _ _ (perform_all_loads_events halt s)) as [Hids Hcases].
  fold run in Hids, Hcases. fold evs in Hids, Hcases.
  destruct Hcases as [(_ & Hall & _) | (pre & i' & e' & Hevs & Hres & Hall & _)].
  - exfalso. exact (passed_not_other halt i e evs Hall Hother Hin).
  - rewrite Hevs in Hin. apply in_app_or in Hin. destruct Hin as [Hin | [Heq | []]].
    + exfalso. exact (passed_not_other halt i e pre Hall Hother Hin).
    + inversion Heq; subst i' e'. rewrite Hother in Hres.
      split; [exact Hres|]. split.
      * exists pre. split; [exact Hevs | exact Hall].
      * exact Hids.
Qed.

(** "crash1" raises ZeroDivisionError without [halt_on_error]: the batch
    raises it and "quiet2" is not run. *)
Lemma perform_all_loads_propagates_other_exceptions_witness :
  let s := Samples.state_one_crashing in
  let e := OtherException "ZeroDivisionError" "division by zero" in
  let run := perform_all_loads false s in
  let evs := new_events s (snd run) in
  (In (Executed "crash1" (Raise e)) evs /\ is_CDLSError e = false) /\
  (fst run = Raise e /\
   (exists pre, evs = pre ++ [Executed "crash1" (Raise e)] /\
                forallb (passed false) pre = true) /\
   map ev_id evs = firstn (List.length evs) (registered_ids s)).
Proof.
  split.
  - split; [vm_compute; right; left; reflexivity | reflexivity].
  - apply (perform_all_loads_propagates_other_exceptions false
             Samples.state_one_crashing "crash1"
             (OtherException "ZeroDivisionError" "division by zero")).
    + vm_compute. right. left. reflexivity.
    + reflexivity.
Defined.

(** ** Registration *)

Section Registration.

Variable import_module : importer.



Lemma class_ref_class_not_found :
  forall node q m c module_ref,
    node_get "@QualifiedClassName" node = Some q ->
    PyStr.rsplit_dot q = Some (m, c) ->
    import_module m = Return module_ref ->
    getattr module_ref c = None ->
    _get_qualified_class_ref import_module node = Raise (UnboundLocalError "e").
Proof.
  intros node q m c module_ref Hq Hsplit Himp Hattr. unfold _get_qualified_class_ref.
  rewrite Hq, Hsplit, Himp, Hattr. reflexivity.
Qed.

(** Registering never fails and stores the object under its identifier as
    it stands. *)
Lemma register_datasource_spec :
  forall ds s, register_datasource ds s = (Return tt, with_source ds s).
Proof. intros ds s. reflexivity. Qed.

(** The loop body: resolve the node, then register the object. *)
Lemma register_node_spec :
  forall node s,
    register_node import_module node s =
    match resolve_node import_module node with
    | Return ds => (Return tt, with_source ds s)
    | Raise e => (Raise e, s)
    end.
Proof.
  intros node s. unfold register_node, resolve_node, bind, lift.
  destruct (_get_qualified_class_ref import_module node) as [ref|e]; [|reflexivity].
  destruct (assert_issubclass ref) as [k|e]; [|reflexivity].
  destruct (instantiate k node) as [ds|e]; reflexivity.
Qed.

(** Nodes that all resolve are all registered. *)
Lemma register_each_all :
  forall nodes s,
    Forall (fun n => is_Return (resolve_node import_module n) = true) nodes ->
    register_each import_module nodes s
    = (Return tt, with_nodes import_module nodes s).
Proof.
  induction nodes as [|n rest IH]; intros s Hall; [reflexivity|].
  inversion Hall as [|? ? Hn Hrest]; subst.
  cbn [register_each with_nodes]. unfold bind. rewrite register_node_spec.
  destruct (resolve_node import_module n) as [ds|e]; [|discriminate Hn].
  apply IH. exact Hrest.
Qed.


Lemma dict_get_set_same :
  forall (V : Type) k (v : V) d, dict_get k (dict_set k v d) = Some v.
Proof.
  intros V k v d. induction d as [|[k' v'] rest IH]; simpl.
  - rewrite String.eqb_refl. reflexivity.
  - destruct (String.eqb k' k) eqn:E; simpl; rewrite E; [reflexivity | exact IH].
Qed.

Lemma dict_get_set_present :
  forall (V : Type) k k' (v : V) d,
    dict_get k d <> None -> dict_get k (dict_set k' v d) <> None.
Proof.
  intros V k k' v d. induction d as [|[k0 v0] rest IH]; simpl; intros H.
  - congruence.
  - destruct (String.eqb k0 k') eqn:E'; simpl.
    + destruct (String.eqb k0 k); [discriminate | exact H].
    + destruct (String.eqb k0 k); [discriminate | apply IH; exact H].
Qed.

Lemma dict_keys_set_present :
  forall (V : Type) k (v v' : V) d,
    dict_keys (dict_set k v' (dict_set k v d)) = dict_keys (dict_set k v d).
Proof.
  intros V k v v' d. induction d as [|[k0 v0] rest IH]; simpl.
  - rewrite String.eqb_refl. reflexivity.
  - destruct (String.eqb k0 k) eqn:E; simpl; rewrite E; simpl.
    + reflexivity.
    + f_equal. exact IH.
Qed.

Lemma dict_set_In_keys :
  forall (V : Type) k k' (v : V) d,
    In k' (dict_keys (dict_set k v d)) -> k' = k \/ In k' (dict_keys d).
Proof.
  intros V k k' v d. induction d as [|[k0 v0] rest IH]; simpl.
  - intros [H | []]; auto.
  - destruct (String.eqb k0 k) eqn:E; simpl.
    + intros [H | H]; auto.
    + intros [H | H]; auto. destruct (IH H); auto.
Qed.

(** Assignment keeps the keys of a dict distinct. *)
Lemma dict_set_NoDup :
  forall (V : Type) k (v : V) d,
    NoDup (dict_keys d) -> NoDup (dict_keys (dict_set k v d)).
Proof.
  intros V k v d. induction d as [|[k0 v0] rest IH]; simpl; intros H.
  - constructor; [intros []|constructor].
  - inversion H as [|? ? Hnotin Hrest]; subst.
    destruct (String.eqb k0 k) eqn:E; simpl.
    + constructor; assumption.
    + constructor; [|apply IH; exact Hrest].
      intros Hin. apply dict_set_In_keys in Hin. destruct Hin as [Heq | Hin].
      * subst k0. rewrite String.eqb_refl in E. discriminate E.
      * exact (Hnotin Hin).
Qed.

Lemma with_nodes_keeps :
  forall nodes s k,
    dict_get k (_datasources s) <> None ->
    dict_get k (_datasources (with_nodes import_module nodes s)) <> None.
Proof.
  induction nodes as [|n rest IH]; intros s k H; [exact H|].
  cbn [with_nodes]. destruct (resolve_node import_module n) as [ds|e].
  - apply IH. unfold with_source. cbn [_datasources].
    apply dict_get_set_present. exact H.
  - apply IH. exact H.
Qed.

(** Every node that resolved has an entry under the identifier of its
    object. *)
Lemma with_nodes_registered :
  forall nodes s n ds,
    In n nodes -> resolve_node import_module n = Return ds ->
    dict_get (get_identifier (self_ ds))
      (_datasources (with_nodes import_module nodes s)) <> None.
Proof.
  induction nodes as [|n0 rest IH]; intros s n ds Hin Hres; [destruct Hin|].
  cbn [with_nodes]. destruct Hin as [-> | Hin].
  - rewrite Hres. apply with_nodes_keeps. unfold with_source. cbn [_datasources].
    rewrite dict_get_set_same. discriminate.
  - destruct (resolve_node import_module n0); eapply IH; eassumption.
Qed.

End Registration.

(** C3: the class a node names is meant to be reported missing with
    [SourceConfigurationError].  For a node that names a class the located
    module does not have, [_get_qualified_class_ref] raises
    [UnboundLocalError] instead: the handler of [AttributeError] reads the
    name [e], which nothing has bound. *)
Theorem get_qualified_class_ref_missing_class_is_not_a_configuration_error :
  let node := Samples.node "cdls.datasources.RemoteDataSource" "remote0" in
  _get_qualified_class_ref Samples.import_module node = Raise (UnboundLocalError "e")
  /\ is_SourceConfigurationError (UnboundLocalError "e") = false
  /\ is_CDLSError (UnboundLocalError "e") = false.
Proof. repeat split. Qed.

(** The other two cases of C3 do raise [SourceConfigurationError]. *)
Example get_qualified_class_ref_missing_field :
  _get_qualified_class_ref Samples.import_module [("id", "x"); ("description", "d")]
  = Raise (SourceConfigurationError "@QualifiedClassName property is missing"
             (Some [("id", "x"); ("description", "d")])).
Proof. reflexivity. Qed.

Example get_qualified_class_ref_missing_module :
  let node := Samples.node "nowhere.RemoteDataSource" "remote0" in
  _get_qualified_class_ref Samples.import_module node
  = Raise (SourceConfigurationError "No module named 'nowhere'" (Some node)).
Proof. reflexivity. Qed.




(** The constructors of the repository's own classes fail with
    [SourceConfigurationError] only. *)
Lemma BaseDataSource_init_raises_configuration_error :
  forall config e,
    BaseDataSource_init config = Raise e -> is_SourceConfigurationError e = true.
Proof.
  intros config e. unfold BaseDataSource_init, _get_config_param.
  repeat match goal with
         | |- context [if ?c then _ else _] => destruct c
         end; intros H; inversion H; reflexivity.
Qed.

(** ** The registry key *)

(** Assigning twice under one key leaves one entry, holding the later value. *)
Lemma dict_last_write_wins :
  forall (V : Type) k (v1 v2 : V) d,
    NoDup (dict_keys d) ->
    dict_get k (dict_set k v2 (dict_set k v1 d)) = Some v2 /\
    NoDup (dict_keys (dict_set k v2 (dict_set k v1 d))) /\
    dict_keys (dict_set k v2 (dict_set k v1 d)) = dict_keys (dict_set k v1 d).
Proof.
  intros V k v1 v2 d Hd. split; [apply dict_get_set_same|]. split.
  - apply dict_set_NoDup, dict_set_NoDup. exact Hd.
  - apply dict_keys_set_present.
Qed.

(** Registering two objects that have the same identifier leaves the later
    one under that identifier. *)
Lemma register_datasource_last_write_wins :
  forall ds1 ds2 s,
    get_identifier (self_ ds1) = get_identifier (self_ ds2) ->
    NoDup (dict_keys (_datasources s)) ->
    let s' := snd (register_datasource ds2 (snd (register_datasource ds1 s))) in
    dict_get (get_identifier (self_ ds2)) (_datasources s') = Some (stored ds2) /\
    NoDup (dict_keys (_datasources s')).
Proof.
  intros ds1 ds2 s Hid Hnd s'. unfold s'.
  rewrite !register_datasource_spec. unfold with_source. cbn [snd _datasources].
  rewrite Hid. split; [apply dict_get_set_same|].
  apply dict_set_NoDup, dict_set_NoDup. exact Hnd.
Qed.

(** C5: the registry is meant to be keyed by the trimmed identifier, as
    [perform_load] looks identifiers up trimmed.  [register_datasource]
    stores the identifier as the configuration gives it: a source whose
    [id] is [" local0 "] is stored under that very string, no entry exists
    under ["local0"], and [perform_load] cannot reach the source. *)
Theorem register_datasource_does_not_trim_the_identifier :
  let s := Samples.registered
             [Samples.node "cdls.datasources.LocalFileDataSource" " local0 "] in
  dict_keys (_datasources s) = [" local0 "] /\
  dict_get "local0" (_datasources s) = None /\
  fst (perform_load " local0 " s) = Raise (UnregisteredSourceError "local0") /\
  fst (perform_load "local0" s) = Raise (UnregisteredSourceError "local0").
Proof. repeat split. Qed.

(** ** The warehouse store *)

Section Warehouse.

(** A statement that fails leaves the database as it was. *)
Lemma sqlite_failure_keeps_database :
  forall f st d e d', Sqlite.execute f st d = (Raise e, d') -> d' = d.
Proof.
  intros f st d e d'. unfold Sqlite.execute.
  destruct (f st d) as [[c msg]|]; [intros H; inversion H; reflexivity|].
  destruct st as [t | t | r].
  - destruct (Sqlite.exists_table t d); intros H; inversion H; reflexivity.
  - destruct (Sqlite.exists_table t d); intros H; inversion H; reflexivity.
  - destruct (Sqlite.warehouse_rows d); intros H; inversion H; reflexivity.
Qed.

(** On a healthy engine a statement fails with [OperationalError] only:
    the table is missing, or is there already. *)
Lemma healthy_raises_operational :
  forall st d e d',
    Sqlite.execute Sqlite.healthy st d = (Raise e, d') ->
    exists msg, e = OperationalError msg.
Proof.
  intros st d e d'. unfold Sqlite.execute, Sqlite.healthy.
  destruct st as [t | t | r].
  - destruct (Sqlite.exists_table t d); intros H; inversion H; eauto.
  - destruct (Sqlite.exists_table t d); intros H; inversion H; eauto.
  - destruct (Sqlite.warehouse_rows d); intros H; inversion H; eauto.
Qed.


(** Any other exception of a DROP leaves [install]. *)
Lemma unguarded_drop :
  forall t w e,
    fst (Db.connection_execute (Sqlite.DropTable t) w) = Raise e ->
    is_OperationalError e = false ->
    try_except (Db.connection_execute (Sqlite.DropTable t)) is_OperationalError
      (fun _ => ret tt) w
    = (Raise e, sent (Sqlite.DropTable t) w).
Proof.
  intros t w e. unfold try_except, sent.
  destruct (Db.connection_execute (Sqlite.DropTable t) w) as [[[]|e'] w'];
    cbn [fst snd]; intros H He; inversion H; subst. rewrite He. reflexivity.
Qed.




(** Values that are not JSON primitives or containers are encoded as
    [json.dumps] encodes what [_tojson] makes of them. *)
Lemma dumps_default :
  forall o,
    match o with
    | PyDatetime _ | PyObject _ _ | PyOpaque _ =>
        Db.dumps o = match Db._tojson o with
                     | Return o' => Db.dumps o'
                     | Raise e => Raise e
                     end
    | _ => True
    end.
Proof.
  destruct o as [ | b | n | s | xs | items | d | c attrs | c]; try exact I.
  - reflexivity.
  - cbn [Db._tojson Db.dumps]. f_equal.
    induction attrs as [|[k v] rest IH]; [reflexivity|].
    cbn [map fst snd]. rewrite IH. reflexivity.
  - reflexivity.
Qed.

(** When the record cannot be serialized, [warehouse] stops before it
    draws an identifier or opens the connection: the world, and so the
    WAREHOUSE table, is as it was.  Only a [TypeError] of the encoder is
    turned into a [DatabaseError]. *)
Lemma warehouse_serialization_failure :
  forall data source record_date w e,
    Db.dumps (packaged data) = Raise e ->
    Db.warehouse data source record_date w
    = (Raise (if Db.is_TypeError e
              then DatabaseError "JSON-serialization failed on data" None None
              else e), w).
Proof.
  intros data source record_date w e H.
  unfold Db.warehouse. fold (packaged data).
  unfold bind at 1. unfold try_except, lift. rewrite H.
  destruct (Db.is_TypeError e); reflexivity.
Qed.

End Warehouse.




(** An exception of a DROP that is not an [OperationalError] is not
    ignored: on a file that is not a database [install] ends at its first
    statement. *)
Example install_on_a_file_that_is_not_a_database :
  fst (Db.install Samples.world_not_a_database)
  = Raise (OtherException "DatabaseError" "file is not a database") /\
  ignorable (fst (Db.connection_execute (Sqlite.DropTable Sqlite.CDLS_LOAD_STATS)
                    (snd (Db._connect Samples.world_not_a_database)))) = false.
Proof. split; reflexivity. Qed.

(** On a database file that cannot be written the failure of the first
    CREATE reaches the caller as the engine raised it. *)
Example install_on_read_only_database :
  fst (Db.install Samples.world_read_only)
  = Raise (OperationalError "attempt to write a readonly database").
Proof. reflexivity. Qed.

(** C7: a record that cannot be serialized is meant to fail with
    [DatabaseError].  For a value that has no JSON form and no [__dict__]
    (here [bytes]) the hook [_tojson] raises [AttributeError], which the
    handler of [TypeError] does not catch: [warehouse] raises
    [AttributeError].  No row is written and the world is unchanged. *)
Theorem warehouse_unserializable_value_raises_AttributeError :
  forall (source : string) (record_date : pyval) (w : World),
    Db.warehouse (PyDict [(PyStr "foo", PyOpaque "bytes")]) source record_date w
    = (Raise (AttributeError "'bytes' object has no attribute '__dict__'"), w)
    /\ is_DatabaseError (AttributeError "'bytes' object has no attribute '__dict__'")
       = false.
Proof.
  intros source record_date w. split; [|reflexivity].
  apply (warehouse_serialization_failure
           (PyDict [(PyStr "foo", PyOpaque "bytes")]) source record_date w
           (AttributeError "'bytes' object has no attribute '__dict__'")).
  reflexivity.
Qed.

(** A key that JSON cannot write is the case the handler does catch. *)
Example warehouse_bad_key_raises_DatabaseError :
  forall source record_date w,
    Db.warehouse (PyDict [(PyDatetime Samples.noon, PyInt 1)]) source record_date w
    = (Raise (DatabaseError "JSON-serialization failed on data" None None), w).
Proof.
  intros source record_date w.
  apply (warehouse_serialization_failure
           (PyDict [(PyDatetime Samples.noon, PyInt 1)]) source record_date w
           (TypeError "keys must be str, int, float, bool or None")).
  reflexivity.
Qed.

(** The record of the repository's test is written as one row. *)
Example warehouse_test_seed :
  Sqlite.warehouse_rows
    (database (snd (Db.warehouse (PyDict [(PyStr "foo", PyStr "bar")]) "fake"
                      (PyDatetime Samples.noon) Samples.world_installed)))
  = Some [ mk_row 0 "FAKE" "2015-06-01 12:00:00.000000"
             (JObj [("$class", JStr "dict");
                    ("$contents", JObj [("foo", JStr "bar")])]) ].
Proof. reflexivity. Qed.

(* ===================================================================== *)
(** * Further properties of the package *)
(* ===================================================================== *)

Import Invariants.

(** ** Strings *)

Section Strip.

Lemma lstrip_clean : forall l, clean (PyStr.lstrip_list l).
Proof.
  induction l as [|c r IH]; simpl; [exact I|].
  destruct (PyStr.isspace c) eqn:E; [exact IH | exact E].
Qed.

Lemma lstrip_of_clean : forall l, clean l -> PyStr.lstrip_list l = l.
Proof. intros [|c r] H; simpl in *; [reflexivity | rewrite H; reflexivity]. Qed.

(** [lstrip] removes a prefix. *)
Lemma lstrip_suffix : forall l, exists p, l = p ++ PyStr.lstrip_list l.
Proof.
  induction l as [|c r [p Hp]]; simpl.
  - exists []. reflexivity.
  - destruct (PyStr.isspace c).
    + exists (c :: p). simpl. rewrite <- Hp. reflexivity.
    + exists []. reflexivity.
Qed.

Lemma clean_prefix : forall a b, clean (a ++ b) -> clean a.
Proof. intros [|c a] b H; simpl in *; [exact I | exact H]. Qed.

Lemma strip_list_clean_both :
  forall l, clean (PyStr.strip_list l) /\ clean (rev (PyStr.strip_list l)).
Proof.
  intros l. unfold PyStr.strip_list. rewrite rev_involutive. split.
  - destruct (lstrip_suffix (rev (PyStr.lstrip_list l))) as [p Hp].
    apply (f_equal (@rev ascii)) in Hp.
    rewrite rev_involutive, rev_app_distr in Hp.
    apply clean_prefix with (b := rev p). rewrite <- Hp. apply lstrip_clean.
  - apply lstrip_clean.
Qed.

Lemma strip_list_idempotent :
  forall l, PyStr.strip_list (PyStr.strip_list l) = PyStr.strip_list l.
Proof.
  intros l. destruct (strip_list_clean_both l) as [H1 H2].
  unfold PyStr.strip_list at 1.
  rewrite (lstrip_of_clean _ H1), (lstrip_of_clean _ H2).
  apply rev_involutive.
Qed.

End Strip.

(** X1: [str.strip] as the package uses it is idempotent, so
    [perform_load] treats an identifier and the same identifier with
    surrounding whitespace alike. *)
Theorem perform_load_ignores_surrounding_whitespace :
  forall (identifier : string) (s : State),
    PyStr.strip (PyStr.strip identifier) = PyStr.strip identifier /\
    perform_load (PyStr.strip identifier) s = perform_load identifier s.
Proof.
  intros identifier s.
  assert (H : PyStr.strip (PyStr.strip identifier) = PyStr.strip identifier).
  { unfold PyStr.strip. rewrite list_ascii_of_string_of_list_ascii.
    rewrite strip_list_idempotent. reflexivity. }
  split; [exact H|]. unfold perform_load. rewrite H. reflexivity.
Qed.

(** ** Loading one source *)

Lemma dict_keys_set_existing :
  forall (V : Type) k (v : V) d,
    dict_get k d <> None -> dict_keys (dict_set k v d) = dict_keys d.
Proof.
  intros V k v d. induction d as [|[k0 v0] rest IH]; simpl; intros H.
  - congruence.
  - destruct (String.eqb k0 k) eqn:E; simpl; [reflexivity|].
    f_equal. apply IH. exact H.
Qed.

Lemma dict_get_set_other :
  forall (V : Type) k k' (v : V) d,
    k <> k' -> dict_get k (dict_set k' v d) = dict_get k d.
Proof.
  intros V k k' v d Hne. induction d as [|[k0 v0] rest IH]; simpl.
  - destruct (String.eqb_spec k' k); [congruence | reflexivity].
  - destruct (String.eqb_spec k0 k'); simpl.
    + subst k0. destruct (String.eqb_spec k' k); [congruence | reflexivity].
    + destruct (String.eqb k0 k); [reflexivity | exact IH].
Qed.

(** X2: a load requested for an identifier that is not registered raises
    [UnregisteredSourceError] carrying the trimmed identifier; no source is
    executed, nothing is logged and the state is as it was. *)
Theorem perform_load_of_unregistered_source :
  forall (identifier : string) (s : State),
    dict_get (PyStr.strip identifier) (_datasources s) = None ->
    perform_load identifier s
    = (Raise (UnregisteredSourceError (PyStr.strip identifier)), s).
Proof.
  intros identifier s H. unfold perform_load. rewrite H. reflexivity.
Qed.

Lemma perform_load_of_unregistered_source_witness :
  dict_get (PyStr.strip " nowhere ") (_datasources Samples.state_b_a) = None /\
  perform_load " nowhere " Samples.state_b_a
  = (Raise (UnregisteredSourceError (PyStr.strip " nowhere ")), Samples.state_b_a).
Proof.
  split; [reflexivity|].
  apply (perform_load_of_unregistered_source " nowhere " Samples.state_b_a).
  reflexivity.
Defined.

(** A load of a registered source, case by case. *)
Lemma perform_load_unfold :
  forall identifier s ds,
    dict_get (PyStr.strip identifier) (_datasources s) = Some ds ->
    let announced :=
      emit (LogLine "INFO" None
              ("Attempting load for '" ++ PyStr.strip identifier ++ "'")%string)
        (world s) in
    perform_load identifier s =
    match execute ds announced with
    | (Return report, ds', w') =>
        (after_listing report,
         after_log (snd (Logging.info (Logging.Plain (LoadReport_str report)) None w'))
           (after_call (PyStr.strip identifier) ds ds' w' (Return report) s))
    | (Raise e, ds', w') =>
        if is_CDLSError e
        then (Raise (after_logging e),
              after_log (snd (Logging.exception e w'))
                (after_call (PyStr.strip identifier) ds ds' w' (Raise e) s))
        else (Raise e, after_call (PyStr.strip identifier) ds ds' w' (Raise e) s)
    end.
Proof.
  intros identifier s ds Hget announced.
  assert (Hannounce :
            _logger (Logging.info (Logging.AttemptingLoad (PyStr.strip identifier)) None) s
            = (Return tt, after_log announced s)) by reflexivity.
  unfold perform_load. rewrite Hget.
  unfold try_except. unfold bind at 1. rewrite Hannounce.
  unfold bind at 1. unfold call_execute. cbn [after_log world _datasources trace].
  destruct (execute ds announced) as [[[report | e] ds'] w']; cbn [fst snd].
  - unfold bind at 1. rewrite logger_state. cbn [world].
    unfold after_listing, Logging.info, Logging._log_entry, bind, lift, step, ret.
    destruct (Logging.formatted (Logging.Plain (LoadReport_str report))) as [text|e'] eqn:E;
      cbn [fst snd]; [reflexivity|].
    rewrite (formatted_raises _ _ E). reflexivity.
  - destruct (is_CDLSError e); [|reflexivity].
    rewrite log_and_raise. reflexivity.
Qed.

(** X3: a load of a registered source runs [execute] of that source exactly
    once; the registry keeps its keys, and the object under the identifier
    is the one the call left.  The caller gets the outcome of that call, a
    report or an exception, as long as the logger can write the report or
    the domain error; when it cannot, the exception of the logger comes
    back in its place. *)
Theorem perform_load_runs_the_source_once :
  forall (identifier : string) (s : State) (ds : DataSource),
    dict_get (PyStr.strip identifier) (_datasources s) = Some ds ->
    let announced :=
      emit (LogLine "INFO" None
              ("Attempting load for '" ++ PyStr.strip identifier ++ "'")%string)
        (world s) in
    let outcome := fst (fst (execute ds announced)) in
    let run := perform_load identifier s in
    new_events s (snd run) = [Executed (get_identifier (self_ ds)) outcome] /\
    dict_keys (_datasources (snd run)) = dict_keys (_datasources s) /\
    dict_get (PyStr.strip identifier) (_datasources (snd run))
      = Some (snd (fst (execute ds announced))) /\
    fst run = match outcome with
              | Return report => after_listing report
              | Raise e => Raise (if is_CDLSError e then after_logging e else e)
              end /\
    (match outcome with
     | Return report => listed report
     | Raise e => negb (is_CDLSError e) || loggable (Errors.str e)
     end = true -> fst run = outcome).
Proof.
  intros identifier s ds Hget announced outcome run.
  assert (Hpresent : dict_get (PyStr.strip identifier) (_datasources s) <> None)
    by (rewrite Hget; discriminate).
  assert (Hev : forall (tr : list event) ev, skipn (List.length tr) (tr ++ [ev]) = [ev]).
  { intros tr ev. rewrite skipn_app, skipn_all, Nat.sub_diag. reflexivity. }
  unfold run, outcome. rewrite (perform_load_unfold identifier s ds Hget).
  fold announced.
  destruct (execute ds announced) as [[[report | e] ds'] w']; cbn [fst snd].
  - unfold new_events. cbn [after_log after_call _datasources trace].
    split; [apply Hev|]. split; [apply dict_keys_set_existing; exact Hpresent|].
    split; [apply dict_get_set_same|]. split; [reflexivity|].
    unfold listed, loggable, after_listing.
    destruct (Logging.formatted (Logging.Plain (LoadReport_str report)));
      [reflexivity | discriminate].
  - destruct (is_CDLSError e) eqn:Hdom;
      unfold new_events; cbn [fst snd after_log after_call _datasources trace];
      (split; [apply Hev|]); (split; [apply dict_keys_set_existing; exact Hpresent|]);
      (split; [apply dict_get_set_same|]); (split; [reflexivity|]).
    + cbn [negb orb]. intros Hok. rewrite (after_logging_loggable e Hok). reflexivity.
    + reflexivity.
Qed.

(** "feed1" fails with a text the logger can write; the identifier
    "q{0}" makes the logger reject the report of a source that returned. *)
Lemma perform_load_runs_the_source_once_witness :
  let s := Samples.state_one_broken in
  let ds := mk_DataSource Samples.BrokenDataSource_class
              (register_database (register_logger
                 (mk_BaseDataSource
                    (Samples.node "plugins.BrokenDataSource" "feed1") "feed1"
                    "sample source" 0 (new_LoadReport "feed1") false false []))) in
  dict_get (PyStr.strip " feed1") (_datasources s) = Some ds /\
  new_events s (snd (perform_load " feed1" s))
  = [Executed "feed1" (Raise (ExtractError "feed unreachable"))] /\
  fst (perform_load " feed1" s) = Raise (ExtractError "feed unreachable").
Proof.
  split; [reflexivity|].
  destruct (perform_load_runs_the_source_once " feed1" Samples.state_one_broken _
              eq_refl) as (H1 & _ & _ & H4 & _).
  split; [exact H1 | exact H4].
Defined.

(** The same defect ends a batch in which nothing failed: both sources
    return, and the listing of the first report raises [IndexError]. *)
Example perform_all_loads_cannot_list_an_identifier_with_braces :
  let s := Samples.registered [ Samples.node "plugins.QuietDataSource" "q{0}";
                                Samples.node "plugins.QuietDataSource" "b" ] in
  fst (perform_all_loads false s)
  = Raise (IndexError "Replacement index 0 out of range for positional args tuple") /\
  map returned (new_events s (snd (perform_all_loads false s))) = [true; true].
Proof. vm_compute. split; reflexivity. Qed.

(** A source that returns under the identifier "q{0}": the load raises
    the [IndexError] of the logger. *)
Example perform_load_of_an_identifier_with_braces :
  let s := Samples.registered [Samples.node "plugins.QuietDataSource" "q{0}"] in
  fst (perform_load "q{0}" s)
  = Raise (IndexError "Replacement index 0 out of range for positional args tuple") /\
  map returned (new_events s (snd (perform_load "q{0}" s))) = [true].
Proof. vm_compute. split; reflexivity. Qed.

(** ** Registering sources *)

(** X4: registering an object stores it under its identifier with the
    database and the logger injected, leaves every other entry and the
    world as they were, and never raises. *)
Theorem register_datasource_then_lookup :
  forall (ds : DataSource) (s : State),
    let run := register_datasource ds s in
    fst run = Return tt /\
    dict_get (get_identifier (self_ ds)) (_datasources (snd run)) = Some (stored ds) /\
    Datasources._db (self_ (stored ds)) = true /\
    Datasources._logger (self_ (stored ds)) = true /\
    get_identifier (self_ (stored ds)) = get_identifier (self_ ds) /\
    (forall k, k <> get_identifier (self_ ds) ->
               dict_get k (_datasources (snd run)) = dict_get k (_datasources s)) /\
    world (snd run) = world s /\ trace (snd run) = trace s.
Proof.
  intros ds s run. unfold run. rewrite register_datasource_spec.
  unfold with_source. cbn [fst snd _datasources world trace].
  repeat split.
  - apply dict_get_set_same.
  - intros k Hk. apply dict_get_set_other. exact Hk.
Qed.

(** Registration keeps the registry well keyed. *)
Lemma with_source_well_keyed :
  forall ds s, well_keyed (_datasources s) -> well_keyed (_datasources (with_source ds s)).
Proof.
  intros ds s [Hnd Hk]. unfold with_source. cbn [_datasources]. split.
  - apply dict_set_NoDup. exact Hnd.
  - clear Hnd. revert Hk. generalize (_datasources s) as d.
    induction d as [|[k0 v0] rest IH]; intros Hk k x Hin; simpl in Hin.
    + destruct Hin as [Heq | []]. inversion Heq; subst. reflexivity.
    + destruct (String.eqb_spec k0 (get_identifier (self_ ds))) as [Heq | Hne].
      * destruct Hin as [Hin | Hin].
        -- inversion Hin; subst. reflexivity.
        -- apply (Hk k x). right. exact Hin.
      * destruct Hin as [Hin | Hin].
        -- apply (Hk k x). left. exact Hin.
        -- apply IH; [|exact Hin]. intros k' x' H'. apply (Hk k' x'). right. exact H'.
Qed.

Lemma with_nodes_well_keyed :
  forall import_module nodes s,
    well_keyed (_datasources s) ->
    well_keyed (_datasources (with_nodes import_module nodes s)).
Proof.
  intros import_module nodes. induction nodes as [|n rest IH]; intros s H; [exact H|].
  cbn [with_nodes]. destruct (resolve_node import_module n) as [ds|e].
  - apply IH. apply with_source_well_keyed. exact H.
  - apply IH. exact H.
Qed.

Lemma well_keyed_lookup :
  forall d k ds, keyed d -> dict_get k d = Some ds -> k = get_identifier (self_ ds).
Proof.
  intros d k ds Hk. induction d as [|[k0 v0] rest IH]; simpl; [discriminate|].
  destruct (String.eqb_spec k0 k) as [Heq | Hne]; intros H.
  - inversion H; subst. apply (Hk k ds). left. reflexivity.
  - apply IH; [|exact H]. intros k' x' H'. apply (Hk k' x'). right. exact H'.
Qed.

(** X5: when every configuration node resolves, [_register_all_datasources]
    returns normally; the registry it leaves has distinct keys, each the
    identifier of the object it holds, and every node's identifier leads
    to an object of that identifier. *)
Theorem register_all_registers_every_node :
  forall (import_module : importer) (nodes : list config_node) (s : State),
    Forall (fun n => is_Return (resolve_node import_module n) = true) nodes ->
    well_keyed (_datasources s) ->
    let run := _register_all_datasources import_module nodes s in
    fst run = Return tt /\
    well_keyed (_datasources (snd run)) /\
    (forall n ds,
        In n nodes -> resolve_node import_module n = Return ds ->
        exists ds',
          dict_get (get_identifier (self_ ds)) (_datasources (snd run)) = Some ds' /\
          get_identifier (self_ ds') = get_identifier (self_ ds)) /\
    world (snd run) = world s.
Proof.
  intros import_module nodes s Hall Hwk run.
  assert (Hrun : run = (Return tt, with_nodes import_module nodes s)).
  { unfold run, _register_all_datasources, try_except.
    rewrite (register_each_all import_module nodes s Hall). reflexivity. }
  rewrite Hrun. cbn [fst snd].
  pose proof (with_nodes_well_keyed import_module nodes s Hwk) as Hwk'.
  split; [reflexivity|]. split; [exact Hwk'|]. split.
  - intros n ds Hin Hres.
    pose proof (with_nodes_registered import_module nodes s n ds Hin Hres) as Hsome.
    destruct (dict_get (get_identifier (self_ ds))
                (_datasources (with_nodes import_module nodes s))) as [ds'|] eqn:E;
      [|congruence].
    exists ds'. split; [reflexivity|].
    symmetry. apply (well_keyed_lookup _ _ _ (proj2 Hwk') E).
  - clear. revert s. induction nodes as [|n rest IH]; intros s; [reflexivity|].
    cbn [with_nodes]. destruct (resolve_node import_module n); rewrite IH; reflexivity.
Qed.

Lemma register_all_registers_every_node_witness :
  let nodes := [ Samples.node "cdls.datasources.LocalFileDataSource" "local0";
                 Samples.node "plugins.QuietDataSource" "quiet1";
                 Samples.node "plugins.BrokenDataSource" "local0" ] in
  let run := _register_all_datasources Samples.import_module nodes Samples.state0 in
  (Forall (fun n => is_Return (resolve_node Samples.import_module n) = true) nodes /\
   well_keyed (_datasources Samples.state0)) /\
  fst run = Return tt /\ well_keyed (_datasources (snd run)).
Proof.
  assert (Hwk : well_keyed (_datasources Samples.state0)).
  { split; [constructor | intros k ds []]. }
  split.
  - split; [repeat constructor | exact Hwk].
  - pose proof (register_all_registers_every_node Samples.import_module
                  [ Samples.node "cdls.datasources.LocalFileDataSource" "local0";
                    Samples.node "plugins.QuietDataSource" "quiet1";
                    Samples.node "plugins.BrokenDataSource" "local0" ]
                  Samples.state0) as H.
    destruct H as (H1 & H2 & _).
    + repeat constructor.
    + exact Hwk.
    + split; [exact H1 | exact H2].
Defined.

(** ** Listing the sources *)

Lemma Sorted_map_keys :
  forall (V : Type) (R : string -> string -> Prop) (l : list (string * V)),
    Sorted (fun a b => R (fst a) (fst b)) l -> Sorted R (map fst l).
Proof.
  intros V R l H. induction H as [|a l Hs IH Hhd]; simpl; constructor.
  - exact IH.
  - destruct Hhd; simpl; constructor. assumption.
Qed.

Lemma Sorted_strict :
  forall l,
    Sorted (fun a b => String.leb a b = true) l -> NoDup l ->
    Sorted (fun a b => String.ltb a b = true) l.
Proof.
  intros l H. induction H as [|a l Hs IH Hhd]; intros Hnd; constructor.
  - apply IH. inversion Hnd; assumption.
  - destruct Hhd as [|b l' Hab]; constructor.
    unfold String.leb in Hab. unfold String.ltb.
    destruct (String.compare a b) eqn:E; try reflexivity; try discriminate.
    apply String.compare_eq_iff in E. subst b.
    inversion Hnd as [|? ? Hnotin _]; subst. exfalso. apply Hnotin. left. reflexivity.
Qed.

(** X6: on a registry whose objects sit under their own distinct
    identifiers, as registration leaves it, [list_registered_sources]
    shows every registered source once, in strictly ascending order of
    identifier, with its type and description. *)
Theorem list_registered_sources_is_sorted_and_complete :
  forall (s : State),
    well_keyed (_datasources s) ->
    Sorted (fun a b => String.ltb a b = true) (listed_ids s) /\
    Permutation (dict_keys (_datasources s)) (listed_ids s) /\
    Permutation (map source_to_tuple (dict_values (_datasources s)))
                (list_registered_sources s).
Proof.
  intros s [Hnd Hk].
  assert (Hperm : Permutation (_datasources s) (sorted_items (_datasources s))).
  { apply sort_by_perm. }
  assert (Hk' : keyed (sorted_items (_datasources s))).
  { intros k ds Hin. apply (Hk k ds).
    apply (Permutation_in _ (Permutation_sym Hperm) Hin). }
  assert (Hids : listed_ids s = dict_keys (sorted_items (_datasources s))).
  { unfold listed_ids, list_registered_sources, dict_keys. rewrite map_map.
    apply map_ext_in. intros [k ds] Hin. simpl. symmetry. apply (Hk' k ds Hin). }
  split; [|split].
  - rewrite Hids. apply Sorted_strict.
    + unfold dict_keys. apply Sorted_map_keys.
      apply sort_by_sorted. intros a b. apply String.leb_total.
    + apply (Permutation_NoDup (l := dict_keys (_datasources s))); [|exact Hnd].
      unfold dict_keys. apply Permutation_map. exact Hperm.
  - rewrite Hids. unfold dict_keys. apply Permutation_map. exact Hperm.
  - unfold list_registered_sources, dict_values. rewrite map_map.
    apply Permutation_map. exact Hperm.
Qed.

Lemma list_registered_sources_is_sorted_and_complete_witness :
  well_keyed (_datasources Samples.state_b_a) /\
  Sorted (fun a b => String.ltb a b = true) (listed_ids Samples.state_b_a).
Proof.
  assert (Hwk : well_keyed (_datasources Samples.state_b_a)).
  { split.
    - repeat constructor; simpl; intuition discriminate.
    - intros k ds [H | [H | []]]; inversion H; reflexivity. }
  split; [exact Hwk|].
  exact (proj1 (list_registered_sources_is_sorted_and_complete Samples.state_b_a Hwk)).
Defined.

(** X7: registering a second object under an identifier already present
    replaces the first: one entry remains under that identifier, it holds
    the later object, and it stays at the place of the first registration
    in the registry order. *)
Theorem later_registration_replaces_the_earlier :
  forall (ds1 ds2 : DataSource) (s : State),
    get_identifier (self_ ds1) = get_identifier (self_ ds2) ->
    NoDup (dict_keys (_datasources s)) ->
    let s1 := snd (register_datasource ds1 s) in
    let s2 := snd (register_datasource ds2 s1) in
    dict_get (get_identifier (self_ ds2)) (_datasources s2) = Some (stored ds2) /\
    count_occ string_dec (dict_keys (_datasources s2)) (get_identifier (self_ ds2)) = 1%nat /\
    dict_keys (_datasources s2) = dict_keys (_datasources s1).
Proof.
  intros ds1 ds2 s Hid Hnd s1 s2. unfold s2, s1.
  rewrite !register_datasource_spec. unfold with_source. cbn [snd _datasources].
  rewrite Hid.
  assert (Hget : dict_get (get_identifier (self_ ds2))
                   (dict_set (get_identifier (self_ ds2)) (stored ds1) (_datasources s))
                 = Some (stored ds1)) by apply dict_get_set_same.
  split; [apply dict_get_set_same|]. split.
  - apply NoDup_count_occ'.
    + apply dict_set_NoDup, dict_set_NoDup. exact Hnd.
    + rewrite dict_keys_set_present.
      clear Hget Hid Hnd. generalize (_datasources s) as d.
      induction d as [|[k0 v0] rest IH]; simpl.
      * left. reflexivity.
      * destruct (String.eqb_spec k0 (get_identifier (self_ ds2))); simpl.
        -- left. assumption.
        -- right. exact IH.
  - apply dict_keys_set_present.
Qed.

Lemma later_registration_replaces_the_earlier_witness :
  let ds1 := mk_DataSource Samples.QuietDataSource_class
               (mk_BaseDataSource [] "a" "first" 0 (new_LoadReport "a") false false []) in
  let ds2 := mk_DataSource Samples.BrokenDataSource_class
               (mk_BaseDataSource [] "a" "second" 0 (new_LoadReport "a") false false []) in
  let s2 := snd (register_datasource ds2
                   (snd (register_datasource ds1 Samples.state_b_a))) in
  (get_identifier (self_ ds1) = get_identifier (self_ ds2) /\
   NoDup (dict_keys (_datasources Samples.state_b_a))) /\
  dict_get "a" (_datasources s2) = Some (stored ds2) /\
  dict_keys (_datasources s2) = ["b"; "a"].
Proof.
  assert (Hnd : NoDup (dict_keys (_datasources Samples.state_b_a))).
  { repeat constructor; simpl; intuition discriminate. }
  split; [split; [reflexivity | exact Hnd]|].
  pose proof (later_registration_replaces_the_earlier
                (mk_DataSource Samples.QuietDataSource_class
                   (mk_BaseDataSource [] "a" "first" 0 (new_LoadReport "a") false false []))
                (mk_DataSource Samples.BrokenDataSource_class
                   (mk_BaseDataSource [] "a" "second" 0 (new_LoadReport "a") false false []))
                Samples.state_b_a eq_refl Hnd) as (H1 & _ & H3).
  split; [exact H1 | exact H3].
Defined.

(** ** Batches and the flag *)

Section BatchFacts.

(** Without a failure the flag plays no part in the loop. *)
Lemma load_each_without_failures :
  forall values reports s evs,
    trace (snd (load_each false values reports s)) = trace s ++ evs ->
    forallb returned evs = true ->
    load_each true values reports s = load_each false values reports s.
Proof.
  induction values as [|[k ds] rest IH]; intros reports s evs Htr Hall; [reflexivity|].
  rewrite !load_each_cons. rewrite load_each_cons in Htr.
  destruct (execute ds (world s)) as [[[report | e] ds'] w'].
  - destruct (load_each_spec false rest (reports ++ [report])
                (after_call k ds ds' w' (Return report) s)) as (evs' & Htr' & _).
    rewrite Htr' in Htr. cbn [after_call trace] in Htr.
    rewrite <- app_assoc in Htr. apply app_inv_head in Htr. subst evs.
    simpl in Hall. apply (IH _ _ evs' Htr' Hall).
  - destruct (is_CDLSError e) eqn:Hdom; [|reflexivity].
    destruct (Logging.exception e w') as [[[]|e'] w'']; [|reflexivity].
    exfalso.
    destruct (load_each_spec false rest reports
                (after_log w'' (after_call k ds ds' w' (Raise e) s)))
      as (evs' & Htr' & _).
    rewrite Htr' in Htr. cbn [after_log after_call trace] in Htr.
    rewrite <- app_assoc in Htr. apply app_inv_head in Htr. subst evs.
    simpl in Hall. discriminate Hall.
Qed.

End BatchFacts.

(** X9: when no source raises, [halt_on_error] makes no difference: the
    batch returns the same reports and leaves the same state with the flag
    set as without it. *)
Theorem halt_on_error_is_irrelevant_without_failures :
  forall (s : State),
    forallb returned (new_events s (snd (perform_all_loads false s))) = true ->
    perform_all_loads true s = perform_all_loads false s.
Proof.
  intros s Hall.
  destruct (perform_all_loads_spec false s) as (evs & Htr & _).
  rewrite (new_events_app _ _ _ Htr) in Hall.
  rewrite perform_all_loads_unfold in Htr. rewrite !perform_all_loads_unfold.
  set (s0 := after_log (emit (LogLine "INFO" None "Loading all sources") (world s)) s)
    in *.
  assert (Htr0 : trace (snd (load_each false (_datasources s) [] s0)) = trace s0 ++ evs).
  { destruct (load_each false (_datasources s) [] s0) as [[reports | e] s1];
      cbn [snd] in *; [|exact Htr].
    destruct (log_reports_spec reports
                (after_log (emit (LogLine "INFO" None "Loads complete") (world s1)) s1))
      as (H1 & _).
    destruct (log_reports reports _) as [[[]|e] s2]; cbn [snd] in *;
      rewrite H1 in Htr; exact Htr. }
  rewrite (load_each_without_failures _ _ _ evs Htr0 Hall). reflexivity.
Qed.

Lemma halt_on_error_is_irrelevant_without_failures_witness :
  forallb returned
    (new_events Samples.state_b_a (snd (perform_all_loads false Samples.state_b_a)))
  = true /\
  perform_all_loads true Samples.state_b_a = perform_all_loads false Samples.state_b_a.
Proof.
  split; [vm_compute; reflexivity|].
  apply (halt_on_error_is_irrelevant_without_failures Samples.state_b_a).
  vm_compute. reflexivity.
Defined.

(** ** Writing to the warehouse *)

Section WarehouseWrites.

(** [warehouse] once the record has been serialized and the date has been
    formatted: one identifier is drawn, the connection is opened, and the
    insert goes through [_execute_query]. *)
Lemma warehouse_after_serialization :
  forall data source record_date w j date_text,
    Db.dumps (packaged data) = Return j ->
    Db._date_to_string record_date = Return date_text ->
    let params := mk_row (uuid_seq w) (PyStr.upper (PyStr.strip source)) date_text j in
    Db.warehouse data source record_date w
    = Db._execute_query (Sqlite.InsertWarehouse params) (Some params)
        (mk_World (database w) (fault w) true (log w) (clock w) (now w)
           (S (uuid_seq w)) (lapse w)).
Proof.
  intros data source record_date w j date_text Hj Hd params.
  unfold Db.warehouse. fold (packaged data).
  unfold bind at 1. unfold try_except, lift. rewrite Hj.
  unfold bind at 1. unfold next_uuid at 1. cbn [fst snd].
  unfold bind at 1. unfold lift. rewrite Hd.
  unfold bind at 1. unfold Db._connect at 1. cbn [_conn set_conn database fault
    log clock now uuid_seq lapse].
  destruct (_conn w); reflexivity.
Qed.

(** A record date that is not a datetime stops [warehouse] after the
    identifier has been drawn. *)
Lemma warehouse_bad_date :
  forall data source record_date w j e,
    Db.dumps (packaged data) = Return j ->
    Db._date_to_string record_date = Raise e ->
    Db.warehouse data source record_date w
    = (Raise e, mk_World (database w) (fault w) (_conn w) (log w) (clock w) (now w)
                  (S (uuid_seq w)) (lapse w)).
Proof.
  intros data source record_date w j e Hj Hd.
  unfold Db.warehouse. fold (packaged data).
  unfold bind at 1. unfold try_except, lift. rewrite Hj.
  unfold bind at 1. unfold next_uuid at 1. cbn [fst snd].
  unfold bind at 1. unfold lift. rewrite Hd. reflexivity.
Qed.

(** What [_execute_query] does to the world is what the engine does to
    the database. *)
Lemma execute_query_world :
  forall st params w,
    snd (Db._execute_query st params w)
    = set_database (snd (Sqlite.execute (fault w) st (database w))) w.
Proof.
  intros st params w. unfold Db._execute_query, try_except, Db.connection_execute.
  destruct (Sqlite.execute (fault w) st (database w)) as [[[]|e] d']; cbn [snd];
    [reflexivity|].
  destruct (is_OperationalError e); reflexivity.
Qed.

(** An insert leaves the database as it was or appends its row. *)
Lemma insert_outcome :
  forall f r d,
    snd (Sqlite.execute f (Sqlite.InsertWarehouse r) d) = d \/
    exists rows,
      Sqlite.warehouse_rows d = Some rows /\
      Sqlite.warehouse_rows (snd (Sqlite.execute f (Sqlite.InsertWarehouse r) d))
      = Some (rows ++ [r]).
Proof.
  intros f r d. unfold Sqlite.execute.
  destruct (f (Sqlite.InsertWarehouse r) d) as [[c msg]|]; [left; reflexivity|].
  destruct (Sqlite.warehouse_rows d) as [rows|] eqn:E; [|left; reflexivity].
  right. exists rows. split; reflexivity.
Qed.

End WarehouseWrites.

(** X10: when the record serializes, the date is a datetime, the WAREHOUSE
    table exists and the engine accepts the insert, [warehouse] appends
    exactly one row after the rows already there: its guid is the next
    identifier drawn, its source identifier is the source trimmed and in
    upper case, its date the formatted record date, its document the
    serialized package.  Nothing is logged. *)
Theorem warehouse_appends_one_row :
  forall (data : pyval) (source : string) (d : Datetime.datetime) (w : World)
         (j : json) (rows : list row),
    Db.dumps (packaged data) = Return j ->
    Sqlite.warehouse_rows (database w) = Some rows ->
    let r := mk_row (uuid_seq w) (PyStr.upper (PyStr.strip source))
               (Datetime.strftime d) j in
    fault w (Sqlite.InsertWarehouse r) (database w) = None ->
    let run := Db.warehouse data source (PyDatetime d) w in
    fst run = Return tt /\
    Sqlite.warehouse_rows (database (snd run)) = Some (rows ++ [r]) /\
    Sqlite.loadstats (database (snd run)) = Sqlite.loadstats (database w) /\
    uuid_seq (snd run) = S (uuid_seq w) /\
    _conn (snd run) = true /\
    log (snd run) = log w.
Proof.
  intros data source d w j rows Hj Hrows r Hfault run.
  unfold run.
  rewrite (warehouse_after_serialization data source (PyDatetime d) w j
             (Datetime.strftime d) Hj eq_refl).
  fold r. unfold Db._execute_query, try_except, Db.connection_execute.
  cbn [database fault]. unfold Sqlite.execute.
  rewrite Hfault, Hrows. cbn. repeat split.
Qed.

Lemma warehouse_appends_one_row_witness :
  let data := PyDict [(PyStr "foo", PyStr "bar")] in
  let j := JObj [("$class", JStr "dict"); ("$contents", JObj [("foo", JStr "bar")])] in
  let w := Samples.world_installed in
  let r := mk_row 0 "FAKE" (Datetime.strftime Samples.noon) j in
  (Db.dumps (packaged data) = Return j /\
   Sqlite.warehouse_rows (database w) = Some [] /\
   fault w (Sqlite.InsertWarehouse r) (database w) = None) /\
  Sqlite.warehouse_rows
    (database (snd (Db.warehouse data " fake " (PyDatetime Samples.noon) w)))
  = Some [r].
Proof.
  split; [repeat split|].
  pose proof (warehouse_appends_one_row (PyDict [(PyStr "foo", PyStr "bar")]) " fake "
                Samples.noon Samples.world_installed
                (JObj [("$class", JStr "dict");
                       ("$contents", JObj [("foo", JStr "bar")])])
                [] eq_refl eq_refl eq_refl) as (_ & H & _).
  exact H.
Defined.

(** X11: when the WAREHOUSE table does not exist, a record that serializes
    is not written: [warehouse] raises a [DatabaseError] that carries the
    insert statement and the parameters it tried, and the database is as it
    was (the identifier drawn for the row is spent). *)
Theorem warehouse_without_table_raises_DatabaseError :
  forall (data : pyval) (source : string) (d : Datetime.datetime) (w : World)
         (j : json),
    Db.dumps (packaged data) = Return j ->
    Sqlite.warehouse_rows (database w) = None ->
    let r := mk_row (uuid_seq w) (PyStr.upper (PyStr.strip source))
               (Datetime.strftime d) j in
    fault w (Sqlite.InsertWarehouse r) (database w) = None ->
    let run := Db.warehouse data source (PyDatetime d) w in
    fst run = Raise (DatabaseError "sqlite3: no such table: warehouse"
                       (Some (PyStr.strip Db._INSERT_WAREHOUSE)) (Some r)) /\
    database (snd run) = database w /\
    uuid_seq (snd run) = S (uuid_seq w).
Proof.
  intros data source d w j Hj Hrows r Hfault run.
  unfold run.
  rewrite (warehouse_after_serialization data source (PyDatetime d) w j
             (Datetime.strftime d) Hj eq_refl).
  fold r. unfold Db._execute_query, try_except, Db.connection_execute.
  cbn [database fault]. unfold Sqlite.execute.
  rewrite Hfault, Hrows. cbn [is_OperationalError raise fst snd set_database
    database uuid_seq Errors.str].
  repeat split.
Qed.

Lemma warehouse_without_table_raises_DatabaseError_witness :
  let data := PyDict [(PyStr "foo", PyStr "bar")] in
  let j := JObj [("$class", JStr "dict"); ("$contents", JObj [("foo", JStr "bar")])] in
  let w := Samples.world0 in
  let r := mk_row 0 "FAKE" (Datetime.strftime Samples.noon) j in
  (Db.dumps (packaged data) = Return j /\
   Sqlite.warehouse_rows (database w) = None /\
   fault w (Sqlite.InsertWarehouse r) (database w) = None) /\
  database (snd (Db.warehouse data "fake" (PyDatetime Samples.noon) w)) = database w.
Proof.
  split; [repeat split|].
  pose proof (warehouse_without_table_raises_DatabaseError
                (PyDict [(PyStr "foo", PyStr "bar")]) "fake"
                Samples.noon Samples.world0
                (JObj [("$class", JStr "dict");
                       ("$contents", JObj [("foo", JStr "bar")])])
                eq_refl eq_refl eq_refl) as (_ & H & _).
  exact H.
Defined.

(** X13: every row gets a guid of its own: if the guids in the table are
    distinct and were all drawn already, they still are after any call of
    [warehouse], whether it writes a row or fails. *)
Theorem warehouse_keeps_guids_distinct :
  forall (data : pyval) (source : string) (record_date : pyval) (w : World),
    fresh_guids w ->
    fresh_guids (snd (Db.warehouse data source record_date w)).
Proof.
  intros data source record_date w Hinv.
  assert (Hnext : fresh_guids
                    (mk_World (database w) (fault w) (_conn w) (log w) (clock w)
                       (now w) (S (uuid_seq w)) (lapse w))).
  { unfold fresh_guids in *. cbn [database uuid_seq].
    destruct (Sqlite.warehouse_rows (database w)) as [rows|]; [|exact I].
    destruct Hinv as [Hnd Hlt]. split; [exact Hnd|].
    eapply Forall_impl; [|exact Hlt]. intros r Hr. cbn beta in *. lia. }
  destruct (Db.dumps (packaged data)) as [j|e] eqn:Hj.
  2:{ rewrite (warehouse_serialization_failure data source record_date w e Hj).
      exact Hinv. }
  destruct (Db._date_to_string record_date) as [date_text|e] eqn:Hd.
  2:{ rewrite (warehouse_bad_date data source record_date w j e Hj Hd). exact Hnext. }
  rewrite (warehouse_after_serialization data source record_date w j date_text Hj Hd).
  rewrite execute_query_world. cbn [fault database].
  unfold fresh_guids. cbn [set_database database uuid_seq].
  match goal with
  | |- context [Sqlite.execute ?f (Sqlite.InsertWarehouse ?r) ?d] =>
      destruct (insert_outcome f r d) as [Heq | (rows & Hr & Hd')]
  end.
  - rewrite Heq. exact Hnext.
  - rewrite Hd'. unfold fresh_guids in Hinv. rewrite Hr in Hinv.
    destruct Hinv as [Hnd Hlt]. split.
    + rewrite map_app. cbn [map guid].
      apply NoDup_app; [exact Hnd | repeat constructor; intros [] |].
      intros g Hin [Heq | []]. subst g.
      apply in_map_iff in Hin. destruct Hin as (r0 & Hg & Hin0).
      rewrite Forall_forall in Hlt. specialize (Hlt r0 Hin0). lia.
    + apply Forall_app. split.
      * eapply Forall_impl; [|exact Hlt]. intros r0 Hr0. cbn beta in *. lia.
      * repeat constructor.
Qed.

Lemma warehouse_keeps_guids_distinct_witness :
  fresh_guids Samples.world_installed /\
  fresh_guids (snd (Db.warehouse (PyDict [(PyStr "foo", PyStr "bar")]) "fake"
                      (PyDatetime Samples.noon) Samples.world_installed)).
Proof.
  assert (H : fresh_guids Samples.world_installed).
  { split; constructor. }
  split; [exact H|].
  apply (warehouse_keeps_guids_distinct _ _ _ Samples.world_installed H).
Defined.

(** ** Constructing a data source *)

(** X15: [BaseDataSource(config)] succeeds exactly when the node has an
    [id] and a [description] that are not empty.  It then carries the node,
    the two strings, no database and no logger, and a new report: the
    identifier copied, zero counters, the sentinel date, not successful,
    elapsed time -1 second.  Otherwise it raises
    [SourceConfigurationError] naming the first missing parameter, [id]
    before [description], and carrying the node; an empty string counts as
    missing. *)
Theorem BaseDataSource_init_characterized :
  forall (config : config_node),
    match node_get "id" config, node_get "description" config with
    | Some ident, Some descr =>
        if String.eqb ident ""
        then BaseDataSource_init config
             = Raise (SourceConfigurationError
                        "Required config parameter 'id' is missing" (Some config))
        else if String.eqb descr ""
        then BaseDataSource_init config
             = Raise (SourceConfigurationError
                        "Required config parameter 'description' is missing"
                        (Some config))
        else BaseDataSource_init config = Return (new_instance config ident descr) /\
             _report (new_instance config ident descr)
             = mk_LoadReport ident Datetime.min 0 0 false (-1000)
    | Some ident, None =>
        BaseDataSource_init config
        = Raise (SourceConfigurationError
                   (if String.eqb ident ""
                    then "Required config parameter 'id' is missing"
                    else "Required config parameter 'description' is missing")
                   (Some config))
    | None, _ =>
        BaseDataSource_init config
        = Raise (SourceConfigurationError
                   "Required config parameter 'id' is missing" (Some config))
    end.
Proof.
  intros config. unfold BaseDataSource_init, _get_config_param.
  destruct (node_get "id" config) as [ident|]; [|reflexivity].
  destruct (node_get "description" config) as [descr|].
  - destruct (String.eqb ident ""); [reflexivity|]. cbn [andb].
    destruct (String.eqb descr ""); [reflexivity|]. split; reflexivity.
  - destruct (String.eqb ident ""); reflexivity.
Qed.

(** ** The class reference *)

Section ClassReference.

Lemma rsplit_rev_found :
  forall x r acc,
    ~ In "."%char x ->
    PyStr.rsplit_rev (x ++ "."%char :: r) acc = Some (rev r, rev x ++ acc).
Proof.
  induction x as [|c x IH]; intros r acc Hno; simpl.
  - reflexivity.
  - destruct (Ascii.eqb_spec c "."%char) as [Heq | Hne].
    + exfalso. apply Hno. left. exact Heq.
    + rewrite IH by (intros H; apply Hno; right; exact H).
      rewrite <- app_assoc. reflexivity.
Qed.

Lemma rsplit_rev_none :
  forall x acc, ~ In "."%char x -> PyStr.rsplit_rev x acc = None.
Proof.
  induction x as [|c x IH]; intros acc Hno; simpl; [reflexivity|].
  destruct (Ascii.eqb_spec c "."%char) as [Heq | Hne].
  - exfalso. apply Hno. left. exact Heq.
  - apply IH. intros H. apply Hno. right. exact H.
Qed.

Lemma list_ascii_of_append :
  forall a b,
    list_ascii_of_string (a ++ b)%string
    = list_ascii_of_string a ++ list_ascii_of_string b.
Proof.
  induction a as [|c a IH]; intros b; simpl; [reflexivity|].
  rewrite IH. reflexivity.
Qed.

(** [rsplit(".", 1)] cuts at the last dot. *)
Lemma rsplit_dot_at_last_dot :
  forall m c, no_dot c -> PyStr.rsplit_dot (m ++ "." ++ c)%string = Some (m, c).
Proof.
  intros m c Hno. unfold PyStr.rsplit_dot.
  rewrite list_ascii_of_append. cbn [list_ascii_of_string append].
  rewrite rev_app_distr. cbn [rev]. rewrite <- app_assoc. cbn [app].
  rewrite rsplit_rev_found.
  - rewrite !rev_involutive, app_nil_r, !string_of_list_ascii_of_string. reflexivity.
  - intros H. apply in_rev in H. exact (Hno H).
Qed.

Lemma rsplit_dot_without_dot :
  forall q, no_dot q -> PyStr.rsplit_dot q = None.
Proof.
  intros q Hno. unfold PyStr.rsplit_dot.
  rewrite rsplit_rev_none; [reflexivity|].
  intros H. apply in_rev in H. exact (Hno H).
Qed.

End ClassReference.

(** X16: [_get_qualified_class_ref] cuts the reference at its last dot:
    for a reference [m.c] where [c] has no dot it imports the module [m],
    dots included, and returns the attribute [c] of it; a reference with
    no dot at all raises [ValueError], which is not a
    [SourceConfigurationError]. *)
Theorem class_reference_is_cut_at_the_last_dot :
  forall (import_module : importer) (node : config_node),
    (forall m c module_ref a,
        node_get "@QualifiedClassName" node = Some (m ++ "." ++ c)%string ->
        no_dot c ->
        import_module m = Return module_ref ->
        getattr module_ref c = Some a ->
        _get_qualified_class_ref import_module node = Return a) /\
    (forall q,
        node_get "@QualifiedClassName" node = Some q ->
        no_dot q ->
        _get_qualified_class_ref import_module node
        = Raise (ValueError "not enough values to unpack (expected 2, got 1)")).
Proof.
  intros import_module node. split.
  - intros m c module_ref a Hq Hno Himp Hattr. unfold _get_qualified_class_ref.
    rewrite Hq, (rsplit_dot_at_last_dot m c Hno), Himp, Hattr. reflexivity.
  - intros q Hq Hno. unfold _get_qualified_class_ref.
    rewrite Hq, (rsplit_dot_without_dot q Hno). reflexivity.
Qed.

Lemma class_reference_is_cut_at_the_last_dot_witness :
  _get_qualified_class_ref Samples.import_module
    (Samples.node "cdls.datasources.LocalFileDataSource" "local0")
  = Return (DataSourceClass LocalFileDataSource_class) /\
  _get_qualified_class_ref Samples.import_module
    (Samples.node "LocalFileDataSource" "local0")
  = Raise (ValueError "not enough values to unpack (expected 2, got 1)").
Proof.
  destruct (class_reference_is_cut_at_the_last_dot Samples.import_module
              (Samples.node "cdls.datasources.LocalFileDataSource" "local0"))
    as [A _].
  destruct (class_reference_is_cut_at_the_last_dot Samples.import_module
              (Samples.node "LocalFileDataSource" "local0"))
    as [_ B].
  split.
  - apply (A "cdls.datasources" "LocalFileDataSource"
             [ ("_REPORT_FORMAT", NotAClass);
               ("BaseDataSource", DataSourceClass BaseDataSource_class);
               ("LocalFileDataSource", DataSourceClass LocalFileDataSource_class);
               ("LoadReport", OtherClass "LoadReport");
               ("_string_to_date", NotAClass) ]).
    + reflexivity.
    + unfold no_dot. simpl. intuition discriminate.
    + reflexivity.
    + reflexivity.
  - apply (B "LocalFileDataSource").
    + reflexivity.
    + unfold no_dot. simpl. intuition discriminate.
Defined.

(** ** The placeholder source *)

(** X17: with its database and logger injected, the WAREHOUSE table in
    place and a healthy engine, [LocalFileDataSource.execute] writes two
    rows under the source's identifier (trimmed, upper case), with two
    consecutive guids, and returns the instance's own report, sealed:
    successful, both counters raised by two from what they were, so that a
    second execution of the same instance reports four.  The time elapsed
    is the 125 ms of the sleep and what the work between the two readings
    of the clock took: at least 125 ms on a clock that does not run
    backwards. *)
Theorem LocalFileDataSource_execute_loads_two_records :
  forall (self : BaseDataSource) (w : World) (rows : list row),
    Datasources._db self = true ->
    Datasources._logger self = true ->
    Sqlite.warehouse_rows (database w) = Some rows ->
    fault w = Sqlite.healthy ->
    Forall (fun d => 0 <= d) (lapse w) ->
    let run := LocalFileDataSource_execute (self, w) in
    exists report,
      fst run = Return report /\
      number_processed report = number_processed (_report self) + 2 /\
      number_successes report = number_successes (_report self) + 2 /\
      successful report = true /\
      time_elapsed report = 125 + hd 0 (tl (lapse w)) /\
      125 <= time_elapsed report /\
      latest_record report = latest_record (_report self) /\
      _report (fst (snd run)) = report /\
      exists r1 r2,
        Sqlite.warehouse_rows (database (snd (snd run))) = Some (rows ++ [r1; r2]) /\
        guid r1 = uuid_seq w /\ guid r2 = S (uuid_seq w) /\
        source_identifier r1 = PyStr.upper (PyStr.strip (_identifier self)) /\
        source_identifier r2 = PyStr.upper (PyStr.strip (_identifier self)).
Proof.
  intros [cfg ident descr ts rep db lg attrs] [[ls wr] f c l t n u la] rows
         Hdb Hlg Hrows Hf Hla.
  cbn in Hdb, Hlg, Hrows, Hf, Hla. subst db lg wr f.
  assert (Hwork : 0 <= hd 0 (tl la)).
  { destruct la as [|d1 [|d2 la']]; cbn; try lia.
    inversion Hla as [|? ? _ Hla']. inversion Hla'. assumption. }
  intros run. unfold run.
  destruct rep as [i lr np ns sc te].
  destruct c;
    cbv -[Z.add Z.sub Z.le PyStr.upper PyStr.strip Datetime.strftime Datetime.pad app
          hd tl];
    (eexists; split; [reflexivity|]);
    cbv -[Z.add Z.sub Z.le PyStr.upper PyStr.strip Datetime.strftime Datetime.pad app
          hd tl];
    (repeat (split; [try lia; reflexivity|]));
    do 2 eexists; rewrite <- app_assoc; repeat split.
Qed.

(** On a busy machine, where 18 ms of work pass between the two readings
    of the clock, the report shows 143 ms. *)
Lemma LocalFileDataSource_execute_loads_two_records_witness :
  let self := register_database (register_logger
                (new_instance (Samples.node "cdls.datasources.LocalFileDataSource" "local0")
                   "local0" "sample source")) in
  let w := Samples.world_busy in
  (Datasources._db self = true /\ Datasources._logger self = true /\
   Sqlite.warehouse_rows (database w) = Some [] /\ fault w = Sqlite.healthy /\
   Forall (fun d => 0 <= d) (lapse w)) /\
  exists report,
    fst (LocalFileDataSource_execute (self, w)) = Return report /\
    number_processed report = 2 /\
    time_elapsed report = 143.
Proof.
  assert (Hla : Forall (fun d => 0 <= d) (lapse Samples.world_busy)).
  { repeat constructor; cbn; lia. }
  split; [repeat split; exact Hla|].
  destruct (LocalFileDataSource_execute_loads_two_records
              (register_database (register_logger
                 (new_instance (Samples.node "cdls.datasources.LocalFileDataSource" "local0")
                    "local0" "sample source")))
              Samples.world_busy [] eq_refl eq_refl eq_refl eq_refl Hla)
    as (report & H1 & H2 & _ & _ & H5 & _).
  exists report. split; [exact H1|]. split; [exact H2 | exact H5].
Defined.

(** X18: when the WAREHOUSE table does not exist,
    [LocalFileDataSource.execute] fails at its first record with a
    [DatabaseError]: nothing is written, and the report is left unsealed,
    with the counters, the success flag and the elapsed time it had. *)
Theorem LocalFileDataSource_execute_without_table_fails_unsealed :
  forall (self : BaseDataSource) (w : World),
    Datasources._db self = true ->
    Datasources._logger self = true ->
    Sqlite.warehouse_rows (database w) = None ->
    fault w = Sqlite.healthy ->
    let run := LocalFileDataSource_execute (self, w) in
    (exists e, fst run = Raise e /\ is_DatabaseError e = true) /\
    _report (fst (snd run)) = _report self /\
    database (snd (snd run)) = database w.
Proof.
  intros [cfg ident descr ts rep db lg attrs] [[ls wr] f c l t n u]
         Hdb Hlg Hrows Hf.
  cbn in Hdb, Hlg, Hrows, Hf. subst db lg wr f.
  intros run. unfold run.
  destruct c;
    cbv -[Z.add Z.sub PyStr.upper PyStr.strip Datetime.strftime Datetime.pad app
          String.append];
    (split; [eexists; split; reflexivity | split; reflexivity]).
Qed.

Lemma LocalFileDataSource_execute_without_table_fails_unsealed_witness :
  let self := register_database (register_logger
                (new_instance (Samples.node "cdls.datasources.LocalFileDataSource" "local0")
                   "local0" "sample source")) in
  let w := Samples.world0 in
  (Datasources._db self = true /\ Datasources._logger self = true /\
   Sqlite.warehouse_rows (database w) = None /\ fault w = Sqlite.healthy) /\
  _report (fst (snd (LocalFileDataSource_execute (self, w)))) = _report self.
Proof.
  split; [repeat split|].
  destruct (LocalFileDataSource_execute_without_table_fails_unsealed
              (register_database (register_logger
                 (new_instance (Samples.node "cdls.datasources.LocalFileDataSource" "local0")
                    "local0" "sample source")))
              Samples.world0 eq_refl eq_refl eq_refl eq_refl)
    as (_ & H & _).
  exact H.
Defined.

(** ** The latest record of a new source *)

Section NewSource.

Lemma lex_compare_eq : forall a b, Datetime.lex_compare a b = Eq -> a = b.
Proof.
  induction a as [|x a IH]; intros [|y b]; simpl; try discriminate; [reflexivity|].
  destruct (Z.compare_spec x y) as [Hxy|Hxy|Hxy]; try discriminate.
  intros H. subst y. f_equal. apply IH. exact H.
Qed.

(** Two naive datetimes that are each below the other are the same. *)
Lemma naive_le_antisym :
  forall a b,
    Datetime.naive a -> Datetime.naive b ->
    Datetime.le a b -> Datetime.le b a -> a = b.
Proof.
  intros a b Ha Hb Hab Hba. unfold Datetime.le in *.
  rewrite (lex_compare_antisym (Datetime.fields a) (Datetime.fields b)) in Hba.
  destruct (Datetime.lex_compare (Datetime.fields a) (Datetime.fields b)) eqn:E;
    try (exfalso; apply Hab; reflexivity); try (exfalso; apply Hba; reflexivity).
  apply lex_compare_eq in E.
  destruct a, b. unfold Datetime.naive, Datetime.fields in *. simpl in *.
  inversion E. subst. reflexivity.
Qed.

End NewSource.

(** X19: on a new data source, any non-empty sequence of updates with
    naive datetimes in range succeeds and leaves as latest record one of
    the dates supplied, not below any of them: the maximum.  Supplying the
    same dates in another order gives the same latest record. *)
Theorem latest_record_of_a_new_source_is_the_maximum :
  forall (lib : timelib) (config : config_node) (ident descr : string)
         (dates dates' : list Datetime.datetime),
    dates <> [] ->
    Forall Datetime.naive dates ->
    Forall Datetime.in_range dates ->
    Permutation dates dates' ->
    exists self1 self2,
      update_all lib (map DateObj dates) (new_instance config ident descr)
        = Return self1 /\
      update_all lib (map DateObj dates') (new_instance config ident descr)
        = Return self2 /\
      In (latest self1) dates /\
      (forall d, In d dates -> Datetime.le d (latest self1)) /\
      latest self2 = latest self1.
Proof.
  intros lib config ident descr dates dates' Hne Hnaive Hrange Hperm.
  assert (Hkey : forall ds,
             ds <> [] -> Forall Datetime.naive ds -> Forall Datetime.in_range ds ->
             exists self',
               update_all lib (map DateObj ds) (new_instance config ident descr)
                 = Return self' /\
               In (latest self') ds /\
               (forall d, In d ds -> Datetime.le d (latest self')) /\
               Datetime.naive (latest self')).
  { intros ds Hds Hn Hr.
    destruct (latest_record_is_maximum_of_naive_dates lib ds
                (new_instance config ident descr) Hn eq_refl)
      as (self' & Hrun & Hin & Hub & Hnv).
    exists self'. split; [exact Hrun|]. split; [|split; [|exact Hnv]].
    - destruct Hin as [Hmin | Hin]; [|exact Hin].
      destruct ds as [|d0 rest]; [congruence|].
      assert (Hd0 : d0 = latest self').
      { inversion Hn; subst. inversion Hr; subst.
        apply naive_le_antisym; try assumption.
        - apply Hub. right. left. reflexivity.
        - rewrite <- Hmin. apply min_le. assumption. }
      rewrite <- Hd0. left. reflexivity.
    - intros d Hd. apply Hub. right. exact Hd. }
  assert (Hne' : dates' <> []).
  { intros ->. apply Permutation_sym, Permutation_nil in Hperm. congruence. }
  destruct (Hkey dates Hne Hnaive Hrange) as (s1 & R1 & I1 & U1 & N1).
  destruct (Hkey dates' Hne'
              (Permutation_Forall Hperm Hnaive) (Permutation_Forall Hperm Hrange))
    as (s2 & R2 & I2 & U2 & N2).
  exists s1, s2. repeat split; try assumption.
  apply naive_le_antisym; try assumption.
  - apply U1. apply (Permutation_in _ (Permutation_sym Hperm)). exact I2.
  - apply U2. apply (Permutation_in _ Hperm). exact I1.
Qed.

Lemma latest_record_of_a_new_source_is_the_maximum_witness :
  let d1 := Datetime.mk_datetime 2015 6 1 12 0 0 0 None in
  let d2 := Datetime.mk_datetime 2015 7 4 9 30 0 0 None in
  let d3 := Datetime.mk_datetime 2014 12 31 23 59 59 0 None in
  exists self1,
    update_all Samples.timelib_edt (map DateObj [d1; d2; d3])
      (new_instance [] "local0" "sample source") = Return self1 /\
    latest self1 = d2.
Proof.
  destruct (latest_record_of_a_new_source_is_the_maximum Samples.timelib_edt []
              "local0" "sample source"
              [ Datetime.mk_datetime 2015 6 1 12 0 0 0 None;
                Datetime.mk_datetime 2015 7 4 9 30 0 0 None;
                Datetime.mk_datetime 2014 12 31 23 59 59 0 None ]
              [ Datetime.mk_datetime 2014 12 31 23 59 59 0 None;
                Datetime.mk_datetime 2015 7 4 9 30 0 0 None;
                Datetime.mk_datetime 2015 6 1 12 0 0 0 None ])
    as (self1 & self2 & H1 & _).
  - discriminate.
  - repeat constructor.
  - repeat constructor; unfold Datetime.in_range; simpl; lia.
  - apply perm_trans with
      [ Datetime.mk_datetime 2015 6 1 12 0 0 0 None;
        Datetime.mk_datetime 2014 12 31 23 59 59 0 None;
        Datetime.mk_datetime 2015 7 4 9 30 0 0 None ].
    + apply perm_skip. apply perm_swap.
    + apply perm_trans with
        [ Datetime.mk_datetime 2014 12 31 23 59 59 0 None;
          Datetime.mk_datetime 2015 6 1 12 0 0 0 None;
          Datetime.mk_datetime 2015 7 4 9 30 0 0 None ].
      * apply perm_swap.
      * apply perm_skip. apply perm_swap.
  - exists self1. split; [exact H1|].
    vm_compute in H1. inversion H1. reflexivity.
Defined.

(** ** Start-up and the command line *)

Import CliObservations.

Section FrontEnd.

Variable import_module : importer.

Lemma register_each_keeps_world :
  forall nodes s,
    world (snd (register_each import_module nodes s)) = world s /\
    trace (snd (register_each import_module nodes s)) = trace s.
Proof.
  induction nodes as [|n rest IH]; intros s; [split; reflexivity|].
  cbn [register_each]. unfold bind. rewrite register_node_spec.
  destruct (resolve_node import_module n) as [ds|e]; [|split; reflexivity].
  destruct (IH (with_source ds s)) as [H1 H2]. split; assumption.
Qed.

(** A registration that succeeds has only filled the registry. *)
Lemma register_all_success_keeps_world :
  forall nodes s s1,
    _register_all_datasources import_module nodes s = (Return tt, s1) ->
    world s1 = world s /\ trace s1 = trace s.
Proof.
  intros nodes s s1. unfold _register_all_datasources, try_except.
  destruct (register_each_keeps_world nodes s) as [Hw Ht].
  destruct (register_each import_module nodes s) as [[[]|e] s'] eqn:E.
  - intros H. inversion H; subst. cbn [snd] in *. split; assumption.
  - destruct (is_SourceConfigurationError e); [|discriminate].
    rewrite log_and_raise. discriminate.
Qed.

(** A start-up that succeeds has only filled the registry. *)
Lemma initialize_success_keeps_world :
  forall file s s1,
    Startup.initialize import_module file s = (Return tt, s1) ->
    world s1 = world s /\ trace s1 = trace s.
Proof.
  intros file s s1. unfold Startup.initialize, bind, lift.
  destruct (Startup._get_source_configurations Startup.PATH_SOURCECONFIG file)
    as [elements|e]; [|discriminate].
  unfold Startup.register_elements.
  destruct (Startup.leading_nodes elements) as [nodes [kind|]].
  - unfold bind, raise.
    destruct (_register_all_datasources import_module nodes s) as [[[]|e] s'];
      discriminate.
  - apply register_all_success_keeps_world.
Qed.

(** [install] on a healthy engine: both tables are there and empty. *)
Lemma install_on_healthy_engine :
  forall d c l t n u la,
    Db.install (mk_World d Sqlite.healthy c l t n u la)
    = (Return tt,
       mk_World (Sqlite.mk_database true (Some [])) Sqlite.healthy true l t n u la).
Proof. intros [[|] [rows|]] [|] l t n u la; reflexivity. Qed.

(** The script's [install] on a healthy engine. *)
Lemma cli_install_on_healthy_engine :
  forall p,
    fault (world (Cli.cdls_state p)) = Sqlite.healthy ->
    Cli.install p
    = (Return tt,
       Cli.mk_Process
         (mk_State (_datasources (Cli.cdls_state p))
            (mk_World (Sqlite.mk_database true (Some [])) Sqlite.healthy true
               (log (world (Cli.cdls_state p))) (clock (world (Cli.cdls_state p)))
               (now (world (Cli.cdls_state p))) (uuid_seq (world (Cli.cdls_state p)))
               (lapse (world (Cli.cdls_state p))))
            (trace (Cli.cdls_state p)))
         (Cli.stdout p ++ [Cli.Printed "Rebuilding database schema..."])
         (Cli.LOGGING_NOISY p)).
Proof.
  intros [[reg [d f c l t n u la] tr] out noisy] H. cbn in H. subst f.
  unfold Cli.install, bind, Cli.print, step, Cli.in_cdls.
  cbn [Cli.cdls_state Cli.stdout Cli.LOGGING_NOISY world _datasources trace
       log clock now uuid_seq lapse].
  rewrite install_on_healthy_engine. reflexivity.
Qed.

(** The part of [main] that comes after the request has been seen. *)
Lemma main_requested :
  forall file o args p,
    requested o args = true ->
    Cli.main import_module file o args p =
    ((if Cli.opt_noisy o
      then step (fun p => Cli.mk_Process (Cli.cdls_state p) (Cli.stdout p) true)
      else ret tt) ;;;
     Cli.initialize import_module file ;;;
     (if Cli.opt_install_db o then Cli.install else ret tt) ;;;
     if Cli.opt_list o && negb (Cli.opt_all o) && negb (Cli.given args)
     then Cli.list_all_sources
     else if Cli.given args && negb (Cli.opt_list o) && negb (Cli.opt_all o)
     then Cli.load_sources args
     else if Cli.opt_all o && negb (Cli.opt_list o) && negb (Cli.given args)
     then Cli.load_all_sources
     else Cli.handle_error_invalid_combination) p.
Proof.
  intros file o args p H. unfold Cli.main. unfold requested in H. rewrite H.
  reflexivity.
Qed.

(** The process after the noisy flag and a start-up that ends in [r]. *)
Lemma main_until_initialize :
  forall file o p r s1 (k : eff Cli.Process unit),
    Startup.initialize import_module file (Cli.cdls_state p) = (r, s1) ->
    ((if Cli.opt_noisy o
      then step (fun p => Cli.mk_Process (Cli.cdls_state p) (Cli.stdout p) true)
      else ret tt) ;;;
     Cli.initialize import_module file ;;; k) p
    = match r with
      | Return _ => k (with_stdout [] (Cli.opt_noisy o) s1 p)
      | Raise e =>
          if is_CDLSError e
          then (Raise Cli.SystemExit1,
                with_stdout
                  [Cli.Printed ("CDLS Initialization Failed: " ++ Cli.type_name_of e
                                ++ ": " ++ Errors.str e)%string]
                  (Cli.opt_noisy o) s1 p)
          else (Raise e, with_stdout [] (Cli.opt_noisy o) s1 p)
      end.
Proof.
  intros file o p r s1 k Hinit. unfold with_stdout. rewrite app_nil_r.
  unfold bind at 1.
  destruct (Cli.opt_noisy o); unfold step, ret; cbn [orb];
    unfold bind at 1; unfold Cli.initialize, try_except, Cli.in_cdls;
    cbn [Cli.cdls_state Cli.stdout Cli.LOGGING_NOISY]; rewrite Hinit;
    (destruct r as [[]|e]; [reflexivity|]);
    (destruct (is_CDLSError e); reflexivity).
Qed.

Lemma main_after_initialize :
  forall file o p s1 (k : eff Cli.Process unit),
    Startup.initialize import_module file (Cli.cdls_state p) = (Return tt, s1) ->
    ((if Cli.opt_noisy o
      then step (fun p => Cli.mk_Process (Cli.cdls_state p) (Cli.stdout p) true)
      else ret tt) ;;;
     Cli.initialize import_module file ;;; k) p
    = k (with_stdout [] (Cli.opt_noisy o) s1 p).
Proof.
  intros file o p s1 k Hinit.
  rewrite (main_until_initialize file o p (Return tt) s1 k Hinit). reflexivity.
Qed.

(** Without [halt_on_error] a batch raises no domain error. *)
Lemma perform_all_loads_raises_no_domain_error :
  forall s e,
    fst (perform_all_loads false s) = Raise e -> is_CDLSError e = false.
Proof.
  intros s e Hres.
  destruct (batch_cases _ _ _ _ (perform_all_loads_events false s)) as [_ Hcases].
  rewrite Hres in Hcases.
  destruct Hcases as [(_ & _ & _ & [[_ H] | (r & e' & _ & Hfmt & H)])
                     | (pre & i & e0 & _ & H & _ & _ & Hwhy)].
  - discriminate H.
  - inversion H; subst. exact (formatted_raises _ _ Hfmt).
  - inversion H as [He]. clear H.
    destruct (is_CDLSError e0) eqn:Hdom; [|exact Hdom].
    destruct Hwhy as [Hn | [Hh | Hbad]]; try discriminate.
    exact (after_logging_not_domain e0 Hbad).
Qed.

(** The process [p] with the package state [s]. *)
Lemma load_source_spec :
  forall identifier p,
    Cli.load_source identifier p =
    match perform_load identifier (Cli.cdls_state p) with
    | (Return _, s') => (Return tt, with_stdout [] false s' p)
    | (Raise e, s') =>
        if is_CDLSError e
        then (Raise Cli.SystemExit1,
              with_stdout
                [Cli.Printed ("Fatal Error: " ++ Cli.type_name_of e ++ ": "
                              ++ Errors.str e)%string]
                false s' p)
        else (Raise e, with_stdout [] false s' p)
    end.
Proof.
  intros identifier p. unfold Cli.load_source, try_except, bind, Cli.in_cdls, with_stdout.
  destruct (perform_load identifier (Cli.cdls_state p)) as [[r|e] s'];
    cbn [orb]; rewrite ?app_nil_r; [reflexivity|].
  destruct (is_CDLSError e); [|reflexivity].
  unfold Cli.handle_error_fatal, Cli.print, Cli.exit1, bind, step, raise.
  reflexivity.
Qed.

(** Identifiers that all load are loaded in turn. *)
Lemma load_sources_app :
  forall pre rest p,
    all_load pre (Cli.cdls_state p) = true ->
    Cli.load_sources (pre ++ rest) p
    = Cli.load_sources rest (with_stdout [] false (after_loads pre (Cli.cdls_state p)) p).
Proof.
  induction pre as [|i pre IH]; intros rest p Hall.
  - cbn [app after_loads]. unfold with_stdout. rewrite app_nil_r.
    destruct p; reflexivity.
  - cbn [all_load] in Hall. apply andb_true_iff in Hall. destruct Hall as [Hi Hpre].
    cbn [app Cli.load_sources after_loads]. unfold bind at 1.
    rewrite load_source_spec.
    destruct (perform_load i (Cli.cdls_state p)) as [[r|e] s'];
      [|discriminate Hi].
    cbn [fst snd] in *.
    rewrite (IH rest (with_stdout [] false s' p)) by exact Hpre.
    unfold with_stdout. cbn [Cli.cdls_state Cli.stdout Cli.LOGGING_NOISY orb].
    rewrite !app_nil_r. reflexivity.
Qed.

End FrontEnd.

(** X20: a configuration file that cannot be used ends any request at
    start-up, with the package state untouched: nothing is registered,
    nothing is logged by the package, and the schema is not rebuilt even
    under -i.  When the file is missing, is not JSON or is a JSON object
    without a ["registered"] member, the front end prints
    "CDLS Initialization Failed: SourceConfigurationError: ..." and exits
    with status 1.  When the file cannot be opened, is valid JSON but not
    an object, or has a ["registered"] member that is a number, true, false
    or null, the [OSError] or [TypeError] raised while the file is read is
    caught by nothing: the front end prints nothing and the exception
    leaves the script. *)
Theorem main_stops_at_an_unusable_configuration_file :
  forall (import_module : importer) (file : Startup.source_file)
         (o : Cli.options) (args : list string) (p : Cli.Process),
    requested o args = true ->
    (forall message,
        unusable file = Some message ->
        Cli.main import_module file o args p
        = (Raise Cli.SystemExit1,
           with_stdout
             [Cli.Printed ("CDLS Initialization Failed: SourceConfigurationError: "
                           ++ message)%string]
             (Cli.opt_noisy o) (Cli.cdls_state p) p)) /\
    (forall e,
        uncaught file = Some e ->
        is_CDLSError e = false /\
        Cli.main import_module file o args p
        = (Raise e, with_stdout [] (Cli.opt_noisy o) (Cli.cdls_state p) p)).
Proof.
  intros import_module file o args p Hreq. split.
  - intros message Hfile.
    assert (Hinit : Startup.initialize import_module file (Cli.cdls_state p)
                    = (Raise (SourceConfigurationError message None), Cli.cdls_state p)).
    { unfold Startup.initialize, bind, lift.
      destruct file as [ | n m | m | [registered|] | kind]; cbn in Hfile;
        inversion Hfile; reflexivity. }
    rewrite (main_requested import_module file o args p Hreq).
    rewrite (main_until_initialize import_module file o p _ _ _ Hinit). reflexivity.
  - intros e Hfile.
    assert (Hinit : Startup.initialize import_module file (Cli.cdls_state p)
                    = (Raise e, Cli.cdls_state p) /\ is_CDLSError e = false).
    { unfold Startup.initialize, bind, lift.
      destruct file as [ | n m | m | [[elements | text | keys | kind]|] | kind];
        cbn in Hfile; inversion Hfile; subst; try destruct kind; split; reflexivity. }
    destruct Hinit as [Hinit Hnot]. split; [exact Hnot|].
    rewrite (main_requested import_module file o args p Hreq).
    rewrite (main_until_initialize import_module file o p _ _ _ Hinit).
    rewrite Hnot. reflexivity.
Qed.

(** No file at all, and a file that holds the JSON array []. *)
Lemma main_stops_at_an_unusable_configuration_file_witness :
  let o := Cli.mk_options false true false true in
  (requested o [] = true /\
   unusable Startup.NoFile = Some "File './conf/sources.json' does not exist" /\
   uncaught (Startup.JsonOther Startup.KArray)
   = Some (TypeError "list indices must be integers or slices, not str")) /\
  Cli.main Samples.import_module Startup.NoFile o [] CliSamples.process0
  = (Raise Cli.SystemExit1,
     with_stdout
       [Cli.Printed "CDLS Initialization Failed: SourceConfigurationError: File './conf/sources.json' does not exist"]
       false (Cli.cdls_state CliSamples.process0) CliSamples.process0) /\
  Cli.main Samples.import_module (Startup.JsonOther Startup.KArray) o []
    CliSamples.process0
  = (Raise (TypeError "list indices must be integers or slices, not str"),
     with_stdout [] false (Cli.cdls_state CliSamples.process0) CliSamples.process0).
Proof.
  split; [repeat split|]. split.
  - apply (proj1 (main_stops_at_an_unusable_configuration_file Samples.import_module
                    Startup.NoFile (Cli.mk_options false true false true) []
                    CliSamples.process0 eq_refl)).
    reflexivity.
  - apply (proj2 (main_stops_at_an_unusable_configuration_file Samples.import_module
                    (Startup.JsonOther Startup.KArray)
                    (Cli.mk_options false true false true) []
                    CliSamples.process0 eq_refl)).
    reflexivity.
Defined.

(** X21: the schema is rebuilt before the combination of arguments is
    checked.  Under -i, when start-up succeeds on a healthy engine and the
    arguments do not select exactly one of listing, loading all and loading
    identifiers (-i alone included), the front end has already dropped and
    recreated both tables, losing the rows warehoused so far, when it
    prints "Error: Invalid argument combination" and exits with status 1. *)
Theorem main_rebuilds_the_schema_before_checking_the_combination :
  forall (import_module : importer) (file : Startup.source_file)
         (o : Cli.options) (args : list string) (p : Cli.Process) (s1 : State),
    Cli.opt_install_db o = true ->
    one_mode o args = false ->
    Startup.initialize import_module file (Cli.cdls_state p) = (Return tt, s1) ->
    fault (world (Cli.cdls_state p)) = Sqlite.healthy ->
    let run := Cli.main import_module file o args p in
    fst run = Raise Cli.SystemExit1 /\
    database (world (Cli.cdls_state (snd run))) = Sqlite.mk_database true (Some []) /\
    Cli.stdout (snd run)
    = Cli.stdout p ++ [ Cli.Printed "Rebuilding database schema...";
                        Cli.Printed "Error: Invalid argument combination";
                        Cli.HelpText ] /\
    _datasources (Cli.cdls_state (snd run)) = _datasources s1.
Proof.
  intros import_module file o args p s1 Hi Hmode Hinit Hfault run.
  assert (Hreq : requested o args = true).
  { unfold requested. rewrite Hi. apply orb_true_r. }
  destruct (initialize_success_keeps_world import_module file _ s1 Hinit) as [Hw _].
  assert (Hrun : run =
                 (Raise Cli.SystemExit1,
                  Cli.mk_Process
                    (mk_State (_datasources s1)
                       (mk_World (Sqlite.mk_database true (Some [])) Sqlite.healthy true
                          (log (world s1)) (clock (world s1)) (now (world s1))
                          (uuid_seq (world s1)) (lapse (world s1)))
                       (trace s1))
                    (((Cli.stdout p ++ [Cli.Printed "Rebuilding database schema..."])
                      ++ [Cli.Printed "Error: Invalid argument combination"])
                     ++ [Cli.HelpText])
                    (Cli.opt_noisy o || Cli.LOGGING_NOISY p))).
  { unfold run. rewrite (main_requested import_module file o args p Hreq).
    rewrite (main_after_initialize import_module file o p s1 _ Hinit).
    rewrite Hi. unfold one_mode in Hmode.
    apply orb_false_iff in Hmode. destruct Hmode as [Hmode H3].
    apply orb_false_iff in Hmode. destruct Hmode as [H1 H2].
    rewrite H1, H2, H3.
    unfold with_stdout. rewrite app_nil_r.
    unfold bind at 1. rewrite cli_install_on_healthy_engine
      by (cbn [Cli.cdls_state]; rewrite Hw; exact Hfault).
    reflexivity. }
  rewrite Hrun. cbn [fst snd Cli.cdls_state Cli.stdout world database _datasources].
  rewrite <- !app_assoc. repeat split.
Qed.

Lemma main_rebuilds_the_schema_before_checking_the_combination_witness :
  let o := Cli.mk_options false false false true in
  let run := Cli.main Samples.import_module CliSamples.sources_json o []
               CliSamples.process0 in
  (Cli.opt_install_db o = true /\ one_mode o [] = false /\
   fault (world (Cli.cdls_state CliSamples.process0)) = Sqlite.healthy) /\
  fst run = Raise Cli.SystemExit1 /\
  database (world (Cli.cdls_state (snd run))) = Sqlite.mk_database true (Some []).
Proof.
  split; [repeat split|].
  destruct (main_rebuilds_the_schema_before_checking_the_combination
              Samples.import_module CliSamples.sources_json
              (Cli.mk_options false false false true) [] CliSamples.process0
              (snd (Startup.initialize Samples.import_module CliSamples.sources_json
                      (Cli.cdls_state CliSamples.process0)))
              eq_refl eq_refl eq_refl eq_refl) as (H1 & H2 & _).
  split; [exact H1 | exact H2].
Defined.

(** X22: under -a alone the front end adds nothing to the batch: once
    start-up has succeeded it prints nothing of its own, never reports a
    "Fatal Error", and ends as [perform_all_loads()] ends.  So when no
    source raises anything but domain errors and the logger can write
    every error and every report, the run ends normally (exit status 0)
    however many sources failed; an exception that leaves the batch,
    which is never a domain error, leaves the script. *)
Theorem main_all_ends_normally_despite_failed_sources :
  forall (import_module : importer) (file : Startup.source_file)
         (o : Cli.options) (p : Cli.Process) (s1 : State),
    Cli.opt_all o = true ->
    Cli.opt_list o = false ->
    Cli.opt_install_db o = false ->
    Startup.initialize import_module file (Cli.cdls_state p) = (Return tt, s1) ->
    let batch := perform_all_loads false s1 in
    let evs := new_events s1 (snd batch) in
    Cli.main import_module file o [] p
    = (match fst batch with
       | Return _ => Return tt
       | Raise e => Raise e
       end,
       with_stdout [] (Cli.opt_noisy o) (snd batch) p) /\
    (forallb (fun ev => negb (other_failure ev)) evs = true ->
     forallb logged evs = true ->
     forallb listed (reports_of evs) = true ->
     fst (Cli.main import_module file o [] p) = Return tt).
Proof.
  intros import_module file o p s1 Ha Hl Hi Hinit batch evs.
  assert (Hreq : requested o [] = true).
  { unfold requested. rewrite Ha, Hl. reflexivity. }
  assert (Hmain : Cli.main import_module file o [] p
                  = (match fst batch with
                     | Return _ => Return tt
                     | Raise e => Raise e
                     end,
                     with_stdout [] (Cli.opt_noisy o) (snd batch) p)).
  { rewrite (main_requested import_module file o [] p Hreq).
    rewrite (main_after_initialize import_module file o p s1 _ Hinit).
    rewrite Hi, Ha, Hl. cbn [andb negb Cli.given].
    unfold bind at 1. unfold ret at 1.
    unfold Cli.load_all_sources, try_except, bind, Cli.in_cdls, with_stdout.
    cbn [Cli.cdls_state Cli.stdout Cli.LOGGING_NOISY].
    pose proof (perform_all_loads_raises_no_domain_error s1) as Hnot.
    unfold batch. destruct (perform_all_loads false s1) as [[reports|e] s2];
      cbn [fst snd] in *.
    - unfold ret. rewrite ?app_nil_r. destruct (Cli.opt_noisy o); reflexivity.
    - rewrite (Hnot e eq_refl). rewrite ?app_nil_r.
      destruct (Cli.opt_noisy o); reflexivity. }
  split; [exact Hmain|].
  intros Hno Hlog Hlist. rewrite Hmain. cbn [fst].
  destruct (perform_all_loads_skips_failed_sources s1 Hno Hlog Hlist) as [Hres _].
  fold batch in Hres. rewrite Hres. reflexivity.
Qed.

(** Two sources of which "feed1" fails: the run ends normally. *)
Lemma main_all_ends_normally_despite_failed_sources_witness :
  let o := Cli.mk_options false true false false in
  let s1 := snd (Startup.initialize Samples.import_module CliSamples.sources_json
                   (Cli.cdls_state CliSamples.process0)) in
  let evs := new_events s1 (snd (perform_all_loads false s1)) in
  (Startup.initialize Samples.import_module CliSamples.sources_json
     (Cli.cdls_state CliSamples.process0) = (Return tt, s1) /\
   forallb (fun ev => negb (other_failure ev)) evs = true /\
   forallb logged evs = true /\
   forallb listed (reports_of evs) = true /\
   forallb returned evs = false) /\
  fst (Cli.main Samples.import_module CliSamples.sources_json o [] CliSamples.process0)
  = Return tt.
Proof.
  split; [repeat split; vm_compute; reflexivity|].
  apply (proj2 (main_all_ends_normally_despite_failed_sources Samples.import_module
                  CliSamples.sources_json (Cli.mk_options false true false false)
                  CliSamples.process0
                  (snd (Startup.initialize Samples.import_module CliSamples.sources_json
                          (Cli.cdls_state CliSamples.process0)))
                  eq_refl eq_refl eq_refl eq_refl));
    vm_compute; reflexivity.
Defined.

(** X23: identifiers given on the command line are loaded one after the
    other, in the order given.  When every load returns, the run ends
    normally and the package state is the one the loads left in turn.
    The first load that raises ends the run, wherever it stands in the
    list: for a domain error the front end prints
    "Fatal Error: <type>: <message>" and exits with status 1, any other
    exception leaves the script as it is; the identifiers before it have
    been loaded and the identifiers after it never are. *)
Theorem main_stops_at_the_first_failing_identifier :
  forall (import_module : importer) (file : Startup.source_file)
         (o : Cli.options) (args : list string) (p : Cli.Process) (s1 : State),
    Cli.opt_all o = false ->
    Cli.opt_list o = false ->
    Cli.opt_install_db o = false ->
    args <> [] ->
    Startup.initialize import_module file (Cli.cdls_state p) = (Return tt, s1) ->
    (all_load args s1 = true ->
     Cli.main import_module file o args p
     = (Return tt, with_stdout [] (Cli.opt_noisy o) (after_loads args s1) p)) /\
    (forall pre identifier rest e,
        args = pre ++ identifier :: rest ->
        all_load pre s1 = true ->
        fst (perform_load identifier (after_loads pre s1)) = Raise e ->
        Cli.main import_module file o args p
        = (Raise (if is_CDLSError e then Cli.SystemExit1 else e),
           with_stdout
             (if is_CDLSError e
              then [Cli.Printed ("Fatal Error: " ++ Cli.type_name_of e ++ ": "
                                 ++ Errors.str e)%string]
              else [])
             (Cli.opt_noisy o)
             (snd (perform_load identifier (after_loads pre s1))) p)).
Proof.
  intros import_module file o args p s1 Ha Hl Hi Hargs Hinit.
  assert (Hgiven : Cli.given args = true).
  { destruct args; [contradiction Hargs; reflexivity | reflexivity]. }
  assert (Hreq : requested o args = true).
  { unfold requested. rewrite Hgiven. reflexivity. }
  assert (Hmain : Cli.main import_module file o args p
                  = Cli.load_sources args (with_stdout [] (Cli.opt_noisy o) s1 p)).
  { rewrite (main_requested import_module file o args p Hreq).
    rewrite (main_after_initialize import_module file o p s1 _ Hinit).
    rewrite Hi, Ha, Hl, Hgiven. cbn [andb negb].
    unfold bind at 1. unfold ret at 1. reflexivity. }
  rewrite Hmain. split.
  - intros Hall.
    rewrite <- (app_nil_r args) at 1.
    rewrite load_sources_app by exact Hall.
    cbn [Cli.load_sources]. unfold ret, with_stdout.
    cbn [Cli.cdls_state Cli.stdout Cli.LOGGING_NOISY orb]. rewrite !app_nil_r.
    reflexivity.
  - intros pre identifier rest e Hsplit Hpre Hfail. subst args.
    rewrite load_sources_app by exact Hpre.
    cbn [Cli.load_sources]. unfold bind at 1. rewrite load_source_spec.
    cbn [with_stdout Cli.cdls_state] in *.
    unfold with_stdout at 1 2 3 4. cbn [Cli.cdls_state].
    destruct (perform_load identifier (after_loads pre s1)) as [[r|e'] s2];
      cbn [fst snd] in *; [discriminate Hfail|].
    inversion Hfail; subst e'.
    destruct (is_CDLSError e); unfold with_stdout;
      cbn [Cli.cdls_state Cli.stdout Cli.LOGGING_NOISY orb]; rewrite ?app_nil_r;
      reflexivity.
Qed.

(** "local0" loads, "feed1" fails, and the third identifier is never
    loaded: two calls in all. *)
Lemma main_stops_at_the_first_failing_identifier_witness :
  let o := Cli.mk_options false false false false in
  let args := ["local0"; "feed1"; "local0"] in
  let s1 := snd (Startup.initialize Samples.import_module CliSamples.sources_json
                   (Cli.cdls_state CliSamples.process0)) in
  let run := Cli.main Samples.import_module CliSamples.sources_json o args
               CliSamples.process0 in
  (args <> [] /\
   Startup.initialize Samples.import_module CliSamples.sources_json
     (Cli.cdls_state CliSamples.process0) = (Return tt, s1) /\
   all_load ["local0"] s1 = true /\
   fst (perform_load "feed1" (after_loads ["local0"] s1))
   = Raise (ExtractError "feed unreachable")) /\
  fst run = Raise Cli.SystemExit1 /\
  Cli.stdout (snd run) = [Cli.Printed "Fatal Error: ExtractError: feed unreachable"] /\
  map ev_id (trace (Cli.cdls_state (snd run))) = ["local0"; "feed1"].
Proof.
  split; [split; [discriminate | repeat split; vm_compute; reflexivity]|].
  rewrite (proj2 (main_stops_at_the_first_failing_identifier Samples.import_module
                    CliSamples.sources_json (Cli.mk_options false false false false)
                    ["local0"; "feed1"; "local0"] CliSamples.process0
                    (snd (Startup.initialize Samples.import_module
                            CliSamples.sources_json
                            (Cli.cdls_state CliSamples.process0)))
                    eq_refl eq_refl eq_refl ltac:(discriminate) eq_refl)
             ["local0"] "feed1" ["local0"] (ExtractError "feed unreachable")
             eq_refl ltac:(vm_compute; reflexivity) ltac:(vm_compute; reflexivity)).
  vm_compute. repeat split.
Defined.
